(** * A shallow embedding of the AlphaSentinel data-acquisition, indicator
      and model-registry code, with the properties its design notes state.

    The Python sources embedded here are
    - [GuAnalysisSystem/AlphaSentinel/data/data_utils.py]
    - [GuAnalysisSystem/AlphaSentinel/dashboard_v6.py]
    - [GuAnalysisSystem/AlphaSentinel/analysis/technical_calc.py]
    - [GuAnalysisSystem/AlphaSentinel/engine/strategy_manager.py]
    - [GuAnalysisSystem/AlphaSentinel/ui/model_management.py]
    - [analysis/model_manager.py]

    Conventions.  Python [str] values are byte strings; contract codes and
    column labels are ASCII or UTF-8 text and the case conversions below act
    on the ASCII letters only.  A Python exception is a value of [py_exn]
    and a function that may raise returns [result]; a [try]/[except
    Exception] block is a [match] on that result.  The third-party
    market-data service is an oracle passed to the function that calls it. *)

From Stdlib Require Import Ascii String QArith Qround Qabs Lqa.
From Stdlib Require SpecFloat.
From stdpp Require Import gmap strings list pretty.

Close Scope Q_scope.
Open Scope string_scope.

(** ** Exceptions and results *)

Inductive py_exn :=
| KeyError (key : string)
| ValueError (msg : string)
| AttributeError (msg : string)
| OverflowError (msg : string)
| ZeroDivisionError (msg : string)
| TypeError (msg : string)
| RemoteError (msg : string).

(** [str(e)]: the wording of library messages is representative. *)
Definition exn_str (e : py_exn) : string :=
  match e with
  | KeyError k => "'" +:+ k +:+ "'"
  | ValueError m | AttributeError m | OverflowError m
  | ZeroDivisionError m | TypeError m | RemoteError m => m
  end.

Inductive result (A : Type) :=
| Ok (a : A)
| Raise (e : py_exn).
Arguments Ok {A} a.
Arguments Raise {A} e.

#[global] Instance result_ret : MRet result := fun _ a => Ok a.

#[global] Instance result_bind : MBind result := fun _ _ k r =>
  match r with
  | Ok a => k a
  | Raise e => Raise e
  end.

Definition is_ok {A} (r : result A) : bool :=
  match r with Ok _ => true | Raise _ => false end.

(** ** Python string primitives *)

Module PyStr.

Definition isdigit (c : ascii) : bool :=
  let n := nat_of_ascii c in (48 <=? n)%nat && (n <=? 57)%nat.

Definition upper_char (c : ascii) : ascii :=
  let n := nat_of_ascii c in
  if (97 <=? n)%nat && (n <=? 122)%nat then ascii_of_nat (n - 32) else c.

Definition lower_char (c : ascii) : ascii :=
  let n := nat_of_ascii c in
  if (65 <=? n)%nat && (n <=? 90)%nat then ascii_of_nat (n + 32) else c.

Fixpoint map_chars (f : ascii → ascii) (s : string) : string :=
  match s with
  | EmptyString => EmptyString
  | String c s' => String (f c) (map_chars f s')
  end.

Definition upper : string → string := map_chars upper_char.
Definition lower : string → string := map_chars lower_char.

(** [s[:n]] *)
Fixpoint take (n : nat) (s : string) : string :=
  match n, s with
  | S n', String c s' => String c (take n' s')
  | _, _ => EmptyString
  end.

(** The slice [s[:i]] for the first index [i] holding a digit, and all of
    [s] when the [for ... else] loop finds none. *)
Fixpoint before_first_digit (s : string) : string :=
  match s with
  | EmptyString => EmptyString
  | String c s' => if isdigit c then EmptyString
                   else String c (before_first_digit s')
  end.

Fixpoint startswith (p s : string) : bool :=
  match p, s with
  | EmptyString, _ => true
  | String a p', String b s' => if decide (a = b) then startswith p' s' else false
  | String _ _, EmptyString => false
  end.

(** [p in s] on strings *)
Fixpoint contains (p s : string) : bool :=
  startswith p s ||
  match s with
  | EmptyString => false
  | String _ s' => contains p s'
  end.

(** Decimal rendering of an integer, left-padded with zeros to [w] digits
    (the [%Y], [%m], [%d] fields of [strftime]). *)
Fixpoint zeros (n : nat) : string :=
  match n with O => "" | S n' => "0" +:+ zeros n' end.

Definition zfill (w : nat) (z : Z) : string :=
  let s := pretty z in zeros (w - String.length s) +:+ s.

End PyStr.

(** ** Exchange routing *)

Inductive exchange := SHFE | DCE | CZCE | CFFEX | GFEX.

#[global] Instance exchange_eq_dec : EqDecision exchange.
Proof. solve_decision. Defined.

Definition exchange_name (e : exchange) : string :=
  match e with
  | SHFE => "SHFE" | DCE => "DCE" | CZCE => "CZCE"
  | CFFEX => "CFFEX" | GFEX => "GFEX"
  end.

(** [FUTURE_EXCHANGE_MAP], the same literal in both files. *)
Definition FUTURE_EXCHANGE_MAP : gmap string exchange :=
  list_to_map
    [ ("rb", SHFE); ("hc", SHFE); ("bu", SHFE); ("ru", SHFE); ("br", SHFE);
      ("fu", SHFE); ("sp", SHFE); ("cu", SHFE); ("al", SHFE); ("ao", SHFE);
      ("pb", SHFE); ("zn", SHFE); ("sn", SHFE); ("ni", SHFE); ("ss", SHFE);
      ("au", SHFE); ("ag", SHFE); ("wr", SHFE);
      ("a", DCE); ("b", DCE); ("c", DCE); ("cs", DCE); ("m", DCE);
      ("y", DCE); ("p", DCE); ("i", DCE); ("j", DCE); ("jm", DCE);
      ("l", DCE); ("v", DCE); ("pp", DCE); ("eg", DCE); ("rr", DCE);
      ("eb", DCE);
      ("TA", CZCE); ("MA", CZCE); ("RM", CZCE); ("RS", CZCE); ("OI", CZCE);
      ("SR", CZCE); ("CF", CZCE); ("ZC", CZCE); ("FG", CZCE); ("LR", CZCE);
      ("RI", CZCE); ("WH", CZCE); ("JR", CZCE); ("TC", CZCE);
      ("IF", CFFEX); ("IH", CFFEX); ("IC", CFFEX); ("TF", CFFEX);
      ("T", CFFEX); ("TS", CFFEX) ].

(** ** Data frames

    A [pandas.DataFrame] is its row count (the length of the index) and its
    labelled columns, in order; labels may repeat.  The type of the cells is
    a parameter: the ranking code only renders cells with [str], the
    indicator code computes on floats. *)

Module Frame.

Record DataFrame (C : Type) := mkDataFrame {
  index_len : nat;
  col_data : list (string * list C)
}.
Arguments mkDataFrame {C} _ _.
Arguments index_len {C} _.
Arguments col_data {C} _.

Section Ops.
Context {C : Type}.

(** [pd.DataFrame()] *)
Definition empty_frame : DataFrame C := mkDataFrame 0 [].

(** [df.columns] *)
Definition columns (df : DataFrame C) : list string := (col_data df).*1.

(** [label in df.columns] *)
Definition has_column (label : string) (df : DataFrame C) : bool :=
  bool_decide (label ∈ columns df).

(** [len(df)] *)
Definition len (df : DataFrame C) : nat := index_len df.

(** [df.empty]: some axis has length zero. *)
Definition empty (df : DataFrame C) : bool :=
  (index_len df =? 0)%nat || (length (col_data df) =? 0)%nat.

Definition labelled (label : string) (df : DataFrame C)
  : list (string * list C) :=
  filter (fun c => c.1 = label) (col_data df).

(** [df[[l1, ..., ln]]]: every column carrying a requested label, in
    the order requested; [KeyError] for a label that is absent. *)
Fixpoint select (df : DataFrame C) (labels : list string)
  : result (list (string * list C)) :=
  match labels with
  | [] => Ok []
  | l :: ls =>
      match labelled l df with
      | [] => Raise (KeyError l)
      | cs => rest ← select df ls; Ok (cs ++ rest)%list
      end
  end.

Definition getitem_list (df : DataFrame C) (labels : list string)
  : result (DataFrame C) :=
  cs ← select df labels; Ok (mkDataFrame (index_len df) cs).

(** [df[label]] used as a Series.  A repeated label selects a frame,
    on which the Series method called next does not exist. *)
Definition getitem_series (df : DataFrame C) (label : string)
  : result (list C) :=
  match labelled label df with
  | [] => Raise (KeyError label)
  | [c] => Ok c.2
  | _ => Raise (AttributeError "'DataFrame' object has no attribute")
  end.

(** [df.columns = names] *)
Definition set_columns (df : DataFrame C) (names : list string)
  : result (DataFrame C) :=
  if (length names =? length (col_data df))%nat
  then Ok (mkDataFrame (index_len df) (zip names (col_data df).*2))
  else Raise (ValueError "Length mismatch").

(** [df.head(n)] *)
Definition head (n : nat) (df : DataFrame C) : DataFrame C :=
  mkDataFrame (index_len df `min` n)
              (map (fun c => (c.1, take n c.2)) (col_data df)).

(** [Series.unique()]: first occurrences, in order of appearance. *)
Fixpoint unique `{EqDecision C} (l : list C) : list C :=
  match l with
  | [] => []
  | x :: l' => x :: filter (fun y => y ≠ x) (unique l')
  end.

End Ops.

End Frame.

Import Frame.

(** ** Calendar

    A [datetime] is the proleptic Gregorian ordinal of its date
    ([date.toordinal()], day 1 is Monday 0001-01-01) and its time of day. *)

Module Calendar.

Record datetime := mkDatetime {
  ordinal : Z;
  hour : Z;
  minute : Z;
  second : Z;
  microsecond : Z
}.

(** [d.weekday()]: Monday is 0, Sunday is 6. *)
Definition weekday (d : datetime) : Z := ((ordinal d + 6) `mod` 7)%Z.

(** [d.weekday() in [5, 6]] *)
Definition is_weekend (d : datetime) : bool :=
  bool_decide (weekday d ∈ [5; 6]%Z).

(** [d - timedelta(days=k)]; a result before day 1 is out of range. *)
Definition minus_days (d : datetime) (k : nat) : result datetime :=
  if (ordinal d - Z.of_nat k <? 1)%Z
  then Raise (OverflowError "date value out of range")
  else Ok (mkDatetime (ordinal d - Z.of_nat k)
                      (hour d) (minute d) (second d) (microsecond d)).

(** [d.replace(hour=h, minute=m, second=0, microsecond=0)] *)
Definition replace_time (d : datetime) (h m : Z) : datetime :=
  mkDatetime (ordinal d) h m 0%Z 0%Z.

(** [a < b] on naive datetimes: lexicographic on date, then time. *)
Definition lt (a b : datetime) : bool :=
  let key d := [ordinal d; hour d; minute d; second d; microsecond d] in
  let fix lex (x y : list Z) : bool :=
    match x, y with
    | u :: x', v :: y' => (u <? v)%Z || ((u =? v)%Z && lex x' y')
    | _, _ => false
    end in
  lex (key a) (key b).

(** Year, month and day of an ordinal. *)
Definition civil (ord : Z) : Z * Z * Z :=
  let z := (ord + 305)%Z in
  let era := (z `div` 146097)%Z in
  let doe := (z - era * 146097)%Z in
  let yoe := ((doe - doe `div` 1460 + doe `div` 36524 - doe `div` 146096)
              `div` 365)%Z in
  let doy := (doe - (365 * yoe + yoe `div` 4 - yoe `div` 100))%Z in
  let mp := ((5 * doy + 2) `div` 153)%Z in
  let d := (doy - (153 * mp + 2) `div` 5 + 1)%Z in
  let m := if (mp <? 10)%Z then (mp + 3)%Z else (mp - 9)%Z in
  let y := (yoe + era * 400)%Z in
  (if (m <=? 2)%Z then (y + 1)%Z else y, m, d).

(** [d.strftime('%Y%m%d')] *)
Definition strftime_Ymd (d : datetime) : string :=
  let '(y, m, dd) := civil (ordinal d) in
  PyStr.zfill 4 y +:+ PyStr.zfill 2 m +:+ PyStr.zfill 2 dd.

End Calendar.

(** [range(a, b)] *)
Definition py_range (a b : nat) : list nat := seq a (b - a).

(** ** The ranking service

    [rank_api e date vars] stands for the call
    [ak.get_<e>_rank_table(date=date, vars_list=[vars])]: it raises, or it
    returns [None] or a dict from contract codes to frames (an insertion
    ordered association list).  [now] is the reading of [datetime.now()]. *)

Inductive api_reply (C : Type) :=
| Returns (r : option (list (string * DataFrame C)))
| Fails (e : py_exn).
Arguments Returns {C} r.
Arguments Fails {C} e.

Record World (C : Type) := mkWorld {
  now : Calendar.datetime;
  rank_api : exchange → string → string → api_reply C
}.
Arguments mkWorld {C} _ _.
Arguments now {C} _.
Arguments rank_api {C} _ _ _ _.

(** [key in d] and [d[key]] on a dict *)
Fixpoint dict_get {V : Type} (key : string) (d : list (string * V)) : option V :=
  match d with
  | [] => None
  | (k, v) :: d' => if decide (k = key) then Some v else dict_get key d'
  end.

(** The triple [(data_df, data_date, error_msg)]. *)
Definition rank_triple (C : Type) : Type :=
  DataFrame C * option string * option string.

(** [return pd.DataFrame(), None, msg] *)
Definition failure {C : Type} (msg : string) : rank_triple C :=
  (empty_frame, None, Some msg).

Definition STANDARD_COLUMNS : list string :=
  ["名次"; "会员简称"; "数值"; "增减"].

Definition max_days : nat := 30.

(** [rank_df = rank_df[labels]; rank_df.columns = [...]] *)
Definition select_and_rename {C : Type} (rank_df : DataFrame C)
  (labels : list string) : result (DataFrame C) :=
  rank_df ← getitem_list rank_df labels;
  set_columns rank_df STANDARD_COLUMNS.

(** [product_code] / [variety_code]: the letters before the first digit,
    upper-cased. *)
Definition product_code (symbol : string) : string :=
  PyStr.upper (PyStr.before_first_digit symbol).

(** ** Floats

    A float is not-a-number, an infinity or a finite value.  Finite
    arithmetic is exact (rounding and overflow are not modelled) and the two
    zeros are not told apart; the special values follow IEEE 754, so that
    [x / 0] is an infinity for [x ≠ 0] and [0 / 0] is not a number. *)

Module Float.

Inductive fval :=
| FNaN
| FInf (negative : bool)
| FNum (q : Q).

Definition Qlt_bool (x y : Q) : bool := negb (Qle_bool y x).

Definition is_nan (v : fval) : bool :=
  match v with FNaN => true | _ => false end.

Definition fneg (v : fval) : fval :=
  match v with
  | FNaN => FNaN
  | FInf s => FInf (negb s)
  | FNum q => FNum (- q)%Q
  end.

Definition fabs (v : fval) : fval :=
  match v with
  | FNaN => FNaN
  | FInf _ => FInf false
  | FNum q => FNum (Qabs q)
  end.

Definition fadd (a b : fval) : fval :=
  match a, b with
  | FNaN, _ | _, FNaN => FNaN
  | FInf s, FInf t => if Bool.eqb s t then FInf s else FNaN
  | FInf s, FNum _ | FNum _, FInf s => FInf s
  | FNum p, FNum q => FNum (p + q)%Q
  end.

Definition fsub (a b : fval) : fval := fadd a (fneg b).

Definition fmul (a b : fval) : fval :=
  match a, b with
  | FNaN, _ | _, FNaN => FNaN
  | FInf s, FInf t => FInf (xorb s t)
  | FInf s, FNum q | FNum q, FInf s =>
      if Qeq_bool q 0 then FNaN else FInf (xorb s (Qlt_bool q 0))
  | FNum p, FNum q => FNum (p * q)%Q
  end.

Definition fdiv (a b : fval) : fval :=
  match a, b with
  | FNaN, _ | _, FNaN => FNaN
  | FInf _, FInf _ => FNaN
  | FInf s, FNum q => FInf (xorb s (Qlt_bool q 0))
  | FNum _, FInf _ => FNum 0
  | FNum p, FNum q =>
      if Qeq_bool q 0
      then (if Qeq_bool p 0 then FNaN else FInf (Qlt_bool p 0))
      else FNum (p / q)%Q
  end.

(** [a < b]; false when either side is not a number. *)
Definition flt (a b : fval) : bool :=
  match a, b with
  | FNaN, _ | _, FNaN => false
  | FInf s, FInf t => s && negb t
  | FInf s, FNum _ => s
  | FNum _, FInf t => negb t
  | FNum p, FNum q => Qlt_bool p q
  end.

Definition fgt (a b : fval) : bool := flt b a.

(** [a == b] *)
Definition feq (a b : fval) : bool :=
  match a, b with
  | FInf s, FInf t => Bool.eqb s t
  | FNum p, FNum q => Qeq_bool p q
  | _, _ => false
  end.

Definition of_Z (z : Z) : fval := FNum (inject_Z z).

(** [Series.sum()], which skips missing values. *)
Definition fsum (l : list fval) : fval :=
  foldl fadd (FNum 0) (filter (fun v => is_nan v = false) l).

(** [Series.mean()], which skips missing values. *)
Definition fmean (l : list fval) : fval :=
  let present := filter (fun v => is_nan v = false) l in
  match present with
  | [] => FNaN
  | _ => fdiv (foldl fadd (FNum 0) present)
              (of_Z (Z.of_nat (length present)))
  end.

(** [Series.shift(1)] *)
Definition shift1 (l : list fval) : list fval :=
  match l with
  | [] => []
  | _ => FNaN :: removelast l
  end.

(** [Series.diff()] *)
Definition diff (l : list fval) : list fval :=
  zip_with fsub l (shift1 l).

(** Forward fill, the [pad] that [pct_change] applies first. *)
Fixpoint ffill (last : fval) (l : list fval) : list fval :=
  match l with
  | [] => []
  | v :: l' => let v' := if is_nan v then last else v in v' :: ffill v' l'
  end.

(** [Series.pct_change()] *)
Definition pct_change (l : list fval) : list fval :=
  let data := ffill FNaN l in
  map (fun r => fsub r (FNum 1)) (zip_with fdiv data (shift1 data)).

End Float.

Import Float.

(** ** The option-quote service

    Cells of the option and minute-bar frames are numbers or text.
    [option_api name contract k] is the [k]-th call in one run of
    [ak.option_commodity_contract_table_sina(symbol=name, contract=contract)]
    and [minute_api symbol] the call
    [ak.futures_zh_minute_sina(symbol=symbol, period="5")]. *)

Inductive ocell :=
| ONum (v : fval)
| OText (s : string).

Inductive frame_reply :=
| FrameReturns (r : option (DataFrame ocell))
| FrameFails (e : py_exn).

Record OptionWorld := mkOptionWorld {
  option_api : string → string → nat → frame_reply;
  minute_api : string → frame_reply
}.

(** The dict [{"pcr": ..., "type": ...}]. *)
Record pcr_dict := mkPcr {
  pcr : fval;
  type : string
}.

Definition commodity_map : gmap string string :=
  list_to_map
    [ ("cu", "沪铜期权"); ("ag", "白银期权"); ("au", "黄金期权");
      ("al", "沪铝期权"); ("zn", "沪锌期权"); ("pb", "沪铅期权");
      ("sn", "沪锡期权"); ("ni", "沪镍期权"); ("rb", "螺纹钢期权");
      ("ru", "橡胶期权"); ("br", "橡胶期权"); ("hc", "热轧卷板期权");
      ("bu", "沥青期权"); ("sc", "原油期权"); ("nr", "橡胶期权");
      ("i", "铁矿石期权"); ("j", "焦炭期权"); ("jm", "焦煤期权");
      ("zc", "动力煤期权"); ("l", "聚乙烯期权"); ("pvc", "聚氯乙烯期权");
      ("pp", "聚丙烯期权"); ("ma", "甲醇期权"); ("pg", "液化石油气期权");
      ("eb", "苯乙烯期权"); ("eg", "乙二醇期权"); ("a", "豆粕期权");
      ("b", "豆粕期权"); ("c", "玉米期权"); ("cs", "玉米淀粉期权");
      ("m", "豆粕期权"); ("y", "豆油期权"); ("p", "棕榈油期权");
      ("jd", "鸡蛋期权"); ("rm", "菜籽粕期权"); ("rs", "菜籽期权");
      ("oi", "菜籽油期权"); ("sr", "白糖期权"); ("cf", "棉花期权");
      ("fg", "玻璃期权"); ("pf", "短纤期权"); ("r", "橡胶期权");
      ("s", "硅期权") ].

(** [s.split('.')[-1]] *)
Fixpoint after_last_dot (s : string) : string :=
  match s with
  | EmptyString => EmptyString
  | String c s' =>
      if PyStr.contains "." s' then after_last_dot s'
      else if decide (c = "."%char) then s' else s
  end.

(** The numeric values of a column; a text cell is a type error. *)
Fixpoint numeric (cells : list ocell) : result (list fval) :=
  match cells with
  | [] => Ok []
  | ONum v :: cs => vs ← numeric cs; Ok (v :: vs)
  | OText _ :: _ => Raise (TypeError "unsupported operand type(s)")
  end.

(** [(df[a] + df[b]).sum()] *)
Definition sum_of_two (df : DataFrame ocell) (a b : string) : result fval :=
  xs ← getitem_series df a;
  ys ← getitem_series df b;
  xs ← numeric xs;
  ys ← numeric ys;
  Ok (fsum (zip_with fadd xs ys)).

(** [cell == tag] for a text tag *)
Definition is_text (tag : string) (cell : ocell) : bool :=
  match cell with
  | OText s => bool_decide (s = tag)
  | ONum _ => false
  end.

(** [df[df[key] == tag][col].sum()] *)
Definition sum_where (df : DataFrame ocell) (key tag col : string) : result fval :=
  keys ← getitem_series df key;
  vals ← getitem_series df col;
  let kept :=
    (filter (fun kv => is_text tag kv.1 = true) (zip keys vals)).*2 in
  vs ← numeric kept;
  Ok (fsum vs).

(** The volumes read from the T-quote columns. *)
Definition quote_volumes (option_df : DataFrame ocell) : result (fval * fval) :=
  call_volume ← sum_of_two option_df "看涨合约-买量" "看涨合约-卖量";
  put_volume ← sum_of_two option_df "看跌合约-买量" "看跌合约-卖量";
  Ok (call_volume, put_volume).

(** The demonstration frame built after the last failed attempt. *)
Definition demo_frame (symbol commodity_name : string) : DataFrame ocell :=
  mkDataFrame 2
    [ ("代码", [OText (symbol +:+ "C4500"); OText (symbol +:+ "P4500")]);
      ("名称", [OText (commodity_name +:+ "看涨"); OText (commodity_name +:+ "看跌")]);
      ("类型", [OText "认购"; OText "认沽"]);
      ("执行价", [ONum (of_Z 4500); ONum (of_Z 4500)]);
      ("最新价", [ONum (of_Z 100); ONum (of_Z 80)]);
      ("涨跌幅", [ONum (of_Z 5); ONum (of_Z (-3))]);
      ("成交量", [ONum (of_Z 1000); ONum (of_Z 800)]);
      ("持仓量", [ONum (of_Z 10000); ONum (of_Z 8000)]) ].

Definition max_retries : nat := 3.

(** [option_df is None or option_df.empty] *)
Definition none_or_empty (option_df : option (DataFrame ocell)) : bool :=
  match option_df with
  | None => true
  | Some df => empty df
  end.

(** The retry loop, the same text in both files; [fuel] bounds the number
    of iterations, [retry_count] grows by one in each. *)
Fixpoint fetch_loop (ow : OptionWorld) (symbol commodity_name : string)
  (fuel retry_count : nat) (option_df : option (DataFrame ocell))
  : option (DataFrame ocell) :=
  match fuel with
  | O => option_df
  | S fuel' =>
      if (retry_count <? max_retries)%nat && none_or_empty option_df then
        let failed (option_df : option (DataFrame ocell)) :=
          let retry_count := S retry_count in
          if (retry_count <? max_retries)%nat
          then fetch_loop ow symbol commodity_name fuel' retry_count option_df
          else fetch_loop ow symbol commodity_name fuel' retry_count
                 (Some (demo_frame symbol commodity_name)) in
        match option_api ow commodity_name symbol retry_count with
        | FrameFails _ => failed option_df
        | FrameReturns r =>
            if none_or_empty r then failed r
            else fetch_loop ow symbol commodity_name fuel' (S retry_count) r
        end
      else option_df
  end.

(** The first statements of [get_option_pcr] up to the end of the loop. *)
Definition fetch_option_df (ow : OptionWorld) (symbol : string)
  : option (DataFrame ocell) :=
  let symbol := after_last_dot (PyStr.lower symbol) in
  let commodity_name := default "黄金期权" (commodity_map !! PyStr.take 2 symbol) in
  fetch_loop ow symbol commodity_name max_retries 0 None.

(** * data_utils.py *)

Module DataUtils.

(** [get_exchange_by_symbol]; [None] is Python's [None].  The first
    definition of the same name in [dashboard_v6.py] (line 90) has the
    same body. *)
Definition get_exchange_by_symbol (symbol : string) : option exchange :=
  let product_code := product_code symbol in
  match FUTURE_EXCHANGE_MAP !! product_code with
  | Some e => Some e
  | None =>
      match (if (2 <=? String.length product_code)%nat
             then FUTURE_EXCHANGE_MAP !! PyStr.take 2 product_code
             else None) with
      | Some e => Some e
      | None => FUTURE_EXCHANGE_MAP !! PyStr.take 1 product_code
      end
  end.

Section HoldingRank.
Context {C : Type} (w : World C) (symbol data_type : string).

(** The [try] block of one loop iteration: [Some] is a [break] with
    [(rank_df, data_date)], [None] falls through to the next day. *)
Definition probe (exchange : exchange) (variety_code target_date_str : string)
  : option (DataFrame C * string) :=
  match rank_api w exchange target_date_str variety_code with
  | Fails _ => None
  | Returns None | Returns (Some []) => None
  | Returns (Some ((first_contract, first_df) :: _ as result)) =>
      match dict_get symbol result with
      | Some df => Some (df, target_date_str)
      | None => Some (first_df, target_date_str)
      end
  end.

(** The [for day_offset in range(max_days)] loop.  The second component
    lists the target dates passed to the endpoint, in call order. *)
Fixpoint day_walk (exchange : exchange) (variety_code : string)
  (offsets : list nat)
  : result (option (DataFrame C * string)) * list Calendar.datetime :=
  match offsets with
  | [] => (Ok None, [])
  | day_offset :: rest =>
      match Calendar.minus_days (now w) day_offset with
      | Raise e => (Raise e, [])
      | Ok target_date =>
          let target_date_str := Calendar.strftime_Ymd target_date in
          if Calendar.is_weekend target_date
          then day_walk exchange variety_code rest
          else
            match probe exchange variety_code target_date_str with
            | Some found => (Ok (Some found), [target_date])
            | None =>
                let '(r, queried) := day_walk exchange variety_code rest in
                (r, target_date :: queried)
            end
      end
  end.

(** Column normalisation: [inl] carries on with the renamed frame,
    [inr] is an early [return] with that message. *)
Definition normalize (rank_df : DataFrame C) : result (DataFrame C + string) :=
  if bool_decide (data_type = "成交量排名") || bool_decide (data_type = "成交量") then
    if has_column "vol_party_name" rank_df && has_column "vol" rank_df then
      df ← select_and_rename rank_df
             ["rank"; "vol_party_name"; "vol"; "vol_chg"];
      Ok (inl df)
    else Ok (inr "数据中缺少成交量相关列")
  else if bool_decide (data_type = "多单持仓") then
    if has_column "long_party_name" rank_df
       && has_column "long_open_interest" rank_df then
      df ← select_and_rename rank_df
             ["rank"; "long_party_name"; "long_open_interest";
              "long_open_interest_chg"];
      Ok (inl df)
    else Ok (inr "数据中缺少多单持仓相关列")
  else if bool_decide (data_type = "空单持仓") then
    if has_column "short_party_name" rank_df
       && has_column "short_open_interest" rank_df then
      df ← select_and_rename rank_df
             ["rank"; "short_party_name"; "short_open_interest";
              "short_open_interest_chg"];
      Ok (inl df)
    else Ok (inr "数据中缺少空单持仓相关列")
  else Ok (inr "无效的数据类型").

(** The part of the body after the loop. *)
Definition finish (found : option (DataFrame C * string))
  : result (rank_triple C) :=
  match found with
  | None => Ok (failure ("未获取到" +:+ symbol +:+ "的持仓排名数据"))
  | Some (rank_df, data_date) =>
      if empty rank_df
      then Ok (failure ("未获取到" +:+ symbol +:+ "的持仓排名数据"))
      else
        normalized ← normalize rank_df;
        match normalized with
        | inr msg => Ok (failure msg)
        | inl rank_df => Ok (head 20 rank_df, Some data_date, None)
        end
  end.

(** The offsets the loop ranges over. *)
Definition day_offsets : list nat := py_range 0 max_days.

(** The whole function, with the list of queried dates. *)
Definition run : rank_triple C * list Calendar.datetime :=
  match get_exchange_by_symbol symbol with
  | None => (failure ("不支持的交易所: " +:+ "None"), [])
  | Some exchange =>
      let variety_code := product_code symbol in
      let '(walked, queried) := day_walk exchange variety_code day_offsets in
      (match found ← walked; finish found with
       | Ok triple => triple
       | Raise e => failure ("获取持仓排名数据失败: " +:+ exn_str e)
       end, queried)
  end.

End HoldingRank.

Definition get_holding_rank_data {C} (w : World C) (symbol data_type : string)
  : rank_triple C := (run w symbol data_type).1.

Definition queried_dates {C} (w : World C) (symbol data_type : string)
  : list Calendar.datetime := (run w symbol data_type).2.

(** [get_option_pcr] *)
Definition get_option_pcr (ow : OptionWorld) (symbol : string) : pcr_dict :=
  let body : result pcr_dict :=
    match fetch_option_df ow symbol with
    | None => Raise (ValueError "期权数据为空")
    | Some option_df =>
        if empty option_df then Raise (ValueError "期权数据为空")
        else
          '(call_volume, put_volume) ←
            match quote_volumes option_df with
            | Ok v => Ok v
            | Raise _ =>
                call_volume ← sum_where option_df "类型" "认购" "成交量";
                put_volume ← sum_where option_df "类型" "认沽" "成交量";
                Ok (call_volume, put_volume)
            end;
          if feq put_volume (FNum 0)
          then Ok (mkPcr (FNum 0) "options")
          else Ok (mkPcr (fdiv call_volume put_volume) "options")
    end in
  match body with
  | Ok r => r
  | Raise _ => mkPcr (FNum 0) "open_interest"
  end.

End DataUtils.

(** * dashboard_v6.py *)

Module Dashboard.

(** The second [get_exchange_by_symbol] of the file (line 385).  It
    rebinds the module-level name, so it is the definition every call
    made after the script has loaded reaches. *)
Definition get_exchange_by_symbol (symbol : string) : exchange :=
  let try_length (length : nat) : option exchange :=
    if (length <=? String.length symbol)%nat
    then FUTURE_EXCHANGE_MAP !! PyStr.lower (PyStr.take length symbol)
    else None in
  match try_length 2%nat with
  | Some e => e
  | None =>
      match try_length 1%nat with
      | Some e => e
      | None => SHFE
      end
  end.

(** [update_time = now.replace(hour=16, minute=30, second=0,
    microsecond=0); start_day = 1 if now < update_time else 0] *)
Definition start_day (now : Calendar.datetime) : nat :=
  let update_time := Calendar.replace_time now 16 30 in
  if Calendar.lt now update_time then 1%nat else 0%nat.

Section HoldingRank.
Context {C : Type} `{EqDecision C} (cell_str : C → string).
Context (w : World C) (symbol data_type : string).

Definition names_date (col : string) : bool :=
  PyStr.contains "date" (PyStr.lower col)
  || PyStr.contains "datetime" (PyStr.lower col).

(** The scan for a date column whose first distinct value mentions the
    requested date. *)
Fixpoint date_field_found (df : DataFrame C) (target_date_str : string)
  (cols : list string) : result bool :=
  match cols with
  | [] => Ok false
  | col :: rest =>
      if names_date col then
        series ← getitem_series df col;
        match unique series with
        | first :: _ =>
            if PyStr.contains target_date_str (cell_str first)
            then Ok true
            else date_field_found df target_date_str rest
        | [] => date_field_found df target_date_str rest
        end
      else date_field_found df target_date_str rest
  end.

Definition usable (df : DataFrame C) : bool :=
  negb (empty df) && (5 <=? len df)%nat.

(** The [try] block of one loop iteration. *)
Definition probe (exchange : exchange) (variety_code target_date_str : string)
  : option (DataFrame C * string) :=
  match rank_api w exchange target_date_str variety_code with
  | Fails _ => None
  | Returns None | Returns (Some []) => None
  | Returns (Some result) =>
      match dict_get symbol result with
      | Some df =>
          if negb (empty df) then
            if (5 <=? len df)%nat then
              match date_field_found df target_date_str (columns df) with
              | Raise _ => None
              | Ok found =>
                  if found
                     || negb (existsb
                                (fun col => PyStr.contains "date" (PyStr.lower col))
                                (columns df))
                  then Some (df, target_date_str)
                  else None
              end
            else None
          else None
      | None =>
          let available_contracts := result.*1 in
          match
            find
              (fun contract =>
                 match dict_get contract result with
                 | Some df => usable df
                 | None => false
                 end)
              available_contracts
          with
          | Some contract =>
              match dict_get contract result with
              | Some df => Some (df, target_date_str)
              | None => None
              end
          | None => None
          end
      end
  end.

(** The [for day_offset in range(start_day, max_days)] loop. *)
Fixpoint day_walk (exchange : exchange) (variety_code : string)
  (offsets : list nat)
  : result (option (DataFrame C * string)) * list Calendar.datetime :=
  match offsets with
  | [] => (Ok None, [])
  | day_offset :: rest =>
      match Calendar.minus_days (now w) day_offset with
      | Raise e => (Raise e, [])
      | Ok target_date =>
          let target_date_str := Calendar.strftime_Ymd target_date in
          if Calendar.is_weekend target_date
          then day_walk exchange variety_code rest
          else
            match probe exchange variety_code target_date_str with
            | Some found => (Ok (Some found), [target_date])
            | None =>
                let '(r, queried) := day_walk exchange variety_code rest in
                (r, target_date :: queried)
            end
      end
  end.

(** [for cols in possible_columns: if all(col in rank_df.columns ...)] *)
Fixpoint try_possible (rank_df : DataFrame C)
  (possible_columns : list (list string)) (missing : string)
  : result (DataFrame C + string) :=
  match possible_columns with
  | [] => Ok (inr missing)
  | cols :: rest =>
      if forallb (fun col => has_column col rank_df) cols
      then df ← select_and_rename rank_df cols; Ok (inl df)
      else try_possible rank_df rest missing
  end.

Definition normalize (rank_df : DataFrame C) : result (DataFrame C + string) :=
  if bool_decide (data_type = "成交量排名") || bool_decide (data_type = "成交量") then
    if has_column "vol_party_name" rank_df && has_column "vol" rank_df then
      df ← select_and_rename rank_df
             ["rank"; "vol_party_name"; "vol"; "vol_chg"];
      Ok (inl df)
    else
      try_possible rank_df
        [ ["rank"; "volume_member"; "volume"; "volume_change"];
          ["rank"; "member"; "volume"; "change"];
          ["名次"; "会员简称"; "成交量"; "增减"] ]
        "数据中缺少成交量相关列"
  else if bool_decide (data_type = "多单持仓") then
    if has_column "long_party_name" rank_df
       && has_column "long_open_interest" rank_df then
      df ← select_and_rename rank_df
             ["rank"; "long_party_name"; "long_open_interest";
              "long_open_interest_chg"];
      Ok (inl df)
    else
      try_possible rank_df
        [ ["rank"; "long_member"; "long_position"; "long_position_change"];
          ["rank"; "member"; "long"; "long_change"];
          ["名次"; "会员简称"; "多单持仓"; "增减"] ]
        "数据中缺少多单持仓相关列"
  else if bool_decide (data_type = "空单持仓") then
    if has_column "short_party_name" rank_df
       && has_column "short_open_interest" rank_df then
      df ← select_and_rename rank_df
             ["rank"; "short_party_name"; "short_open_interest";
              "short_open_interest_chg"];
      Ok (inl df)
    else
      try_possible rank_df
        [ ["rank"; "short_member"; "short_position"; "short_position_change"];
          ["rank"; "member"; "short"; "short_change"];
          ["名次"; "会员简称"; "空单持仓"; "增减"] ]
        "数据中缺少空单持仓相关列"
  else Ok (inr "无效的数据类型").

Definition finish (found : option (DataFrame C * string))
  : result (rank_triple C) :=
  match found with
  | None => Ok (failure ("未获取到" +:+ symbol +:+ "的持仓排名数据"))
  | Some (rank_df, data_date) =>
      if empty rank_df
      then Ok (failure ("未获取到" +:+ symbol +:+ "的持仓排名数据"))
      else
        normalized ← normalize rank_df;
        match normalized with
        | inr msg => Ok (failure msg)
        | inl rank_df => Ok (head 20 rank_df, Some data_date, None)
        end
  end.

(** The offsets the loop ranges over. *)
Definition day_offsets : list nat := py_range (start_day (now w)) max_days.

(** The whole function, with the list of queried dates.  Every value of
    [exchange] selects an endpoint, so the [else] branch of the routing
    chain is not reached. *)
Definition run : rank_triple C * list Calendar.datetime :=
  let exchange := get_exchange_by_symbol symbol in
  let variety_code := product_code symbol in
  let '(walked, queried) := day_walk exchange variety_code day_offsets in
  (match found ← walked; finish found with
   | Ok triple => triple
   | Raise e => failure ("获取持仓排名数据失败: " +:+ exn_str e)
   end, queried).

End HoldingRank.

Definition get_holding_rank_data {C} `{EqDecision C} (cell_str : C → string)
  (w : World C) (symbol data_type : string) : rank_triple C :=
  (run cell_str w symbol data_type).1.

Definition queried_dates {C} `{EqDecision C} (cell_str : C → string)
  (w : World C) (symbol data_type : string) : list Calendar.datetime :=
  (run cell_str w symbol data_type).2.

(** The fallback of [get_option_pcr]: the mean relative change of the
    open-interest column of the 5-minute bars, in percent. *)
Definition open_interest_fallback (ow : OptionWorld) (symbol : string)
  : result (option pcr_dict) :=
  match minute_api ow (PyStr.lower symbol) with
  | FrameFails e => Raise e
  | FrameReturns None => Ok None
  | FrameReturns (Some df) =>
      if empty df then Ok None
      else
        df ← set_columns df (map PyStr.lower (columns df));
        if existsb (fun col => has_column col df) ["hold"; "持仓"; "持仓量"] then
          match find (fun col => PyStr.contains "hold" col
                                 || PyStr.contains "持仓" col) (columns df) with
          | None => Raise (ValueError "StopIteration")
          | Some hold_col =>
              series ← getitem_series df hold_col;
              values ← numeric series;
              let oi_change_rate :=
                fmul (fmean (pct_change values)) (of_Z 100) in
              Ok (Some (mkPcr oi_change_rate "open_interest"))
          end
        else Ok None
  end.

(** [get_option_pcr] *)
Definition get_option_pcr (ow : OptionWorld) (symbol : string) : pcr_dict :=
  let body : result pcr_dict :=
    match fetch_option_df ow symbol with
    | None => Raise (ValueError "期权数据为空")
    | Some option_df =>
        if empty option_df then Raise (ValueError "期权数据为空")
        else
          '(call_volume, put_volume) ← quote_volumes option_df;
          if fgt call_volume (FNum 0)
          then Ok (mkPcr (fdiv put_volume call_volume) "options")
          else Ok (mkPcr (FNum 1) "options")
    end in
  match body with
  | Ok r => r
  | Raise _ =>
      match open_interest_fallback ow (after_last_dot (PyStr.lower symbol)) with
      | Ok (Some r) => r
      | Ok None | Raise _ => mkPcr (FNum 1) "default"
      end
  end.

End Dashboard.

(** ** Binary64 floats

    The arguments and the result of [calculate_position_size] are Python
    floats, that is IEEE 754 binary64 values.  They are the [spec_float]
    values of the Standard Library at precision 53 and maximal exponent
    1024, with its multiplication, division and comparison: an operation
    rounds to the nearest float, ties to even, overflows to an infinity
    and underflows to a subnormal float or to zero. *)

Module Binary64.

Definition float : Type := SpecFloat.spec_float.

Definition prec : Z := 53.
Definition emax : Z := 1024.


(** [x / y], for [y] other than zero *)
Definition div (x y : float) : float := SpecFloat.SFdiv prec emax x y.

(** [x < y] and [x <= y]; false when either side is a NaN. *)
Definition ltb (x y : float) : bool := SpecFloat.SFltb x y.
Definition leb (x y : float) : bool := SpecFloat.SFleb x y.



(** The rational that the float of sign [s], mantissa [m] and exponent
    [e] stands for, and the rational a zero or a finite float stands
    for. *)
Definition value (s : bool) (m : positive) (e : Z) : Q :=
  (inject_Z (SpecFloat.cond_Zopp s (Zpos m)) * Qpower 2 e)%Q.

Definition exact (x : float) : option Q :=
  match x with
  | SpecFloat.S754_zero _ => Some 0%Q
  | SpecFloat.S754_finite s m e => Some (value s m e)
  | SpecFloat.S754_infinity _ | SpecFloat.S754_nan => None
  end.

End Binary64.

(** * technical_calc.py *)

Module TechnicalCalculator.

Abbreviation series := (list fval).

(** [df[label] = values]: replaces the column carrying the label, or
    appends a new one. *)
Definition setitem (df : DataFrame fval) (label : string) (values : series)
  : DataFrame fval :=
  if has_column label df
  then mkDataFrame (index_len df)
         (map (fun c => if decide (c.1 = label) then (label, values) else c)
              (col_data df))
  else mkDataFrame (index_len df) (col_data df ++ [(label, values)])%list.

(** [df.drop(labels, axis=1, inplace=True)] *)
Definition drop_columns (df : DataFrame fval) (labels : list string)
  : result (DataFrame fval) :=
  match find (fun l => negb (has_column l df)) labels with
  | Some l => Raise (KeyError l)
  | None =>
      Ok (mkDataFrame (index_len df)
            (filter (fun c => c.1 ∉ labels) (col_data df)))
  end.

Definition finite (v : fval) : option Q :=
  match v with FNum q => Some q | _ => None end.

(** The observations of the window that ends at row [i], when the window
    is full and holds no missing value (the rolling aggregations take an
    infinity for a missing value). *)
Definition window_at (n i : nat) (xs : series) : option (list Q) :=
  if (i + 1 <? n)%nat then None
  else mapM finite (take n (drop (i + 1 - n) xs)).

(** [s.rolling(window=window).<agg>()] *)
Definition rolling (window : Z) (agg : list Q → fval) (xs : series)
  : result series :=
  if (window <? 0)%Z
  then Raise (ValueError "window must be an integer 0 or greater")
  else
    Ok (map (fun i => match window_at (Z.to_nat window) i xs with
                      | Some qs => agg qs
                      | None => FNaN
                      end)
            (seq 0 (length xs))).

Definition Qsum (qs : list Q) : Q := foldr Qplus 0%Q qs.

Definition count (qs : list Q) : Q := inject_Z (Z.of_nat (length qs)).

Definition mean (qs : list Q) : fval :=
  match qs with
  | [] => FNaN
  | _ => FNum (Qsum qs / count qs)%Q
  end.

(** [s.ewm(span=span, adjust=False).mean()]: the running weighted
    average, carried over a missing value. *)
Fixpoint ewm_go (alpha : Q) (weighted : fval) (old_wt : Q) (xs : series)
  : series :=
  match xs with
  | [] => []
  | cur :: rest =>
      let is_observation := negb (is_nan cur) in
      let '(weighted, old_wt) :=
        if is_nan weighted then
          (if is_observation then cur else weighted, old_wt)
        else
          let old_wt := (old_wt * (1 - alpha))%Q in
          if is_observation then
            (if feq weighted cur then weighted
             else fdiv (fadd (fmul (FNum old_wt) weighted)
                             (fmul (FNum alpha) cur))
                       (FNum (old_wt + alpha)%Q),
             1%Q)
          else (weighted, old_wt) in
      weighted :: ewm_go alpha weighted old_wt rest
  end.

Definition ewm_mean (span : Z) (xs : series) : result series :=
  if (span <? 1)%Z
  then Raise (ValueError "span must satisfy: span >= 1")
  else Ok (ewm_go (2 / (inject_Z span + 1))%Q FNaN 1%Q xs).

(** The larger of two values, a missing one giving way to the other. *)
Definition fmax_skipna (a b : fval) : fval :=
  if is_nan a then b
  else if is_nan b then a
  else if flt a b then b else a.

(** [frame.max(axis=1)] *)
Definition row_max (df : DataFrame fval) : series :=
  match (col_data df).*2 with
  | [] => replicate (index_len df) FNaN
  | c :: cs => foldl (zip_with fmax_skipna) c cs
  end.

(** [name or default] *)
Definition or_default (name : option string) (default : string) : string :=
  match name with
  | Some s => if decide (s = "") then default else s
  | None => default
  end.

(** [calculate_ma] *)
Definition calculate_ma (df : DataFrame fval) (window : Z) (column : string)
  (name : option string) : result (DataFrame fval) :=
  let result_col := or_default name ("ma" +:+ pretty window) in
  prices ← getitem_series df column;
  ma ← rolling window mean prices;
  Ok (setitem df result_col ma).

(** [calculate_atr] *)
Definition calculate_atr (df : DataFrame fval) (window : Z) (name : string)
  : result (DataFrame fval) :=
  high ← getitem_series df "high";
  low ← getitem_series df "low";
  let df := setitem df "tr1" (zip_with fsub high low) in
  high ← getitem_series df "high";
  close ← getitem_series df "close";
  let df := setitem df "tr2" (map fabs (zip_with fsub high (shift1 close))) in
  low ← getitem_series df "low";
  close ← getitem_series df "close";
  let df := setitem df "tr3" (map fabs (zip_with fsub low (shift1 close))) in
  ranges ← getitem_list df ["tr1"; "tr2"; "tr3"];
  let df := setitem df "tr" (row_max ranges) in
  tr ← getitem_series df "tr";
  atr ← rolling window mean tr;
  let df := setitem df name atr in
  drop_columns df ["tr1"; "tr2"; "tr3"; "tr"].

(** [calculate_macd] *)
Definition calculate_macd (df : DataFrame fval)
  (fast_period slow_period signal_period : Z) (column prefix : string)
  : result (DataFrame fval) :=
  prices ← getitem_series df column;
  fast ← ewm_mean fast_period prices;
  let df := setitem df (prefix +:+ "_fast") fast in
  prices ← getitem_series df column;
  slow ← ewm_mean slow_period prices;
  let df := setitem df (prefix +:+ "_slow") slow in
  fast ← getitem_series df (prefix +:+ "_fast");
  slow ← getitem_series df (prefix +:+ "_slow");
  let df := setitem df (prefix +:+ "_line") (zip_with fsub fast slow) in
  line ← getitem_series df (prefix +:+ "_line");
  signal ← ewm_mean signal_period line;
  let df := setitem df (prefix +:+ "_signal") signal in
  line ← getitem_series df (prefix +:+ "_line");
  signal ← getitem_series df (prefix +:+ "_signal");
  Ok (setitem df (prefix +:+ "_hist") (zip_with fsub line signal)).

(** [delta.where(delta > 0, 0)] and [-delta.where(delta < 0, 0)] *)
Definition gains (delta : series) : series :=
  map (fun d => if fgt d (FNum 0) then d else FNum 0) delta.

Definition losses (delta : series) : series :=
  map (fun d => fneg (if flt d (FNum 0) then d else FNum 0)) delta.

(** [100 - (100 / (1 + rs))] *)
Definition rsi_of_rs (rs : fval) : fval :=
  fsub (of_Z 100) (fdiv (of_Z 100) (fadd (FNum 1) rs)).

(** The RSI column computed from a price column. *)
Definition rsi_series (window : Z) (prices : series) : result series :=
  let delta := diff prices in
  gain ← rolling window mean (gains delta);
  loss ← rolling window mean (losses delta);
  let rs := zip_with fdiv gain loss in
  Ok (map rsi_of_rs rs).

(** [calculate_rsi] *)
Definition calculate_rsi (df : DataFrame fval) (window : Z)
  (column name : string) : result (DataFrame fval) :=
  prices ← getitem_series df column;
  rsi ← rsi_series window prices;
  Ok (setitem df name rsi).

(** [calculate_volume_ma] *)
Definition calculate_volume_ma (df : DataFrame fval) (window : Z)
  (column : string) (name : option string) : result (DataFrame fval) :=
  let result_col := or_default name ("vol_ma" +:+ pretty window) in
  volumes ← getitem_series df column;
  ma ← rolling window mean volumes;
  Ok (setitem df result_col ma).






Section WithSqrt.
(** The float square root; only its sign is used below. *)
Variable sqrt_fl : Q → Q.

(** The sample standard deviation of a full window ([ddof=1]). *)
Definition std (qs : list Q) : fval :=
  if (length qs <=? 1)%nat then FNaN
  else
    let m := (Qsum qs / count qs)%Q in
    FNum (sqrt_fl (Qsum (map (fun x => (x - m) * (x - m)) qs)
                   / (count qs - 1)))%Q.

(** [calculate_bollinger_bands] *)
Definition calculate_bollinger_bands (df : DataFrame fval) (window : Z)
  (num_std : Q) (column prefix : string) : result (DataFrame fval) :=
  prices ← getitem_series df column;
  mid ← rolling window mean prices;
  let df := setitem df (prefix +:+ "_mid") mid in
  prices ← getitem_series df column;
  std ← rolling window std prices;
  let width := map (fun s => fmul s (FNum num_std)) std in
  mid ← getitem_series df (prefix +:+ "_mid");
  let df := setitem df (prefix +:+ "_upper") (zip_with fadd mid width) in
  mid ← getitem_series df (prefix +:+ "_mid");
  Ok (setitem df (prefix +:+ "_lower") (zip_with fsub mid width)).

(** [calculate_all] *)
Definition calculate_all (df : DataFrame fval) : result (DataFrame fval) :=
  df ← calculate_ma df 20 "close" None;
  df ← calculate_ma df 50 "close" (Some "ma50");
  df ← calculate_ma df 200 "close" (Some "ma200");
  df ← calculate_atr df 14 "atr";
  df ← calculate_macd df 12 26 9 "close" "macd";
  df ← calculate_rsi df 14 "close" "rsi";
  df ← calculate_bollinger_bands df 20 2 "close" "bb";
  calculate_volume_ma df 20 "volume" None.

End WithSqrt.

End TechnicalCalculator.

(** * model_manager.py

    [self.models] is an insertion-ordered dict.  Every call is given a
    freshly built [AIModel], as the forms of [ui/model_management.py] do, so
    a stored model is a value.  [saved] is the outcome of [save_models]. *)

Module ModelManager.

Record AIModel := mkAIModel {
  id : string;
  name : string;
  provider : string;
  model_name : string;
  api_key : string;
  base_url : option string;
  description : option string;
  is_active : bool
}.

Definition with_is_active (b : bool) (m : AIModel) : AIModel :=
  mkAIModel (id m) (name m) (provider m) (model_name m) (api_key m)
            (base_url m) (description m) b.

Definition with_id (i : string) (m : AIModel) : AIModel :=
  mkAIModel i (name m) (provider m) (model_name m) (api_key m)
            (base_url m) (description m) (is_active m).

Record state := mkState {
  models : list (string * AIModel);
  active_model : option AIModel
}.

(** [key in d] *)
Definition has_key {V} (key : string) (d : list (string * V)) : bool :=
  bool_decide (key ∈ d.*1).

(** [d[key] = v]: in place for a key already there, appended otherwise *)
Definition dict_set {V} (key : string) (v : V) (d : list (string * V))
  : list (string * V) :=
  if has_key key d
  then map (fun kv => if decide (kv.1 = key) then (key, v) else kv) d
  else (d ++ [(key, v)])%list.

(** [del d[key]] *)
Definition dict_del {V} (key : string) (d : list (string * V))
  : list (string * V) :=
  filter (fun kv => kv.1 ≠ key) d.

(** [for model in self.models.values(): model.is_active = False] *)
Definition clear_all (d : list (string * AIModel)) : list (string * AIModel) :=
  map (fun kv => (kv.1, with_is_active false kv.2)) d.

(** [add_model] *)
Definition add_model (saved : bool) (model : AIModel) (self : state)
  : state * bool :=
  if has_key (id model) (models self) then (self, false)
  else
    let first := bool_decide (models self = []) in
    let model := if first then with_is_active true model else model in
    let active_model := if first then Some model else active_model self in
    (mkState (dict_set (id model) model (models self)) active_model, saved).

(** [update_model] *)
Definition update_model (saved : bool) (model_id : string)
  (updated_model : AIModel) (self : state) : state * bool :=
  if negb (has_key model_id (models self)) then (self, false)
  else
    let updated_model := with_id model_id updated_model in
    let '(models, updated_model, active_model) :=
      if is_active updated_model
      then
        let updated_model := with_is_active true updated_model in
        (clear_all (models self), updated_model, Some updated_model)
      else (models self, updated_model, active_model self) in
    (mkState (dict_set model_id updated_model models) active_model, saved).

(** [delete_model] *)
Definition delete_model (saved : bool) (model_id : string) (self : state)
  : state * bool :=
  match dict_get model_id (models self) with
  | None => (self, false)
  | Some model =>
      let '(models, active_model) :=
        if is_active model then
          match models self with
          | (first_model_id, first_model) :: _ :: _ =>
              if decide (first_model_id ≠ model_id)
              then
                let first_model := with_is_active true first_model in
                (dict_set first_model_id first_model (models self),
                 Some first_model)
              else (models self, None)
          | _ => (models self, None)
          end
        else (models self, active_model self) in
      (mkState (dict_del model_id models) active_model, saved)
  end.

(** [set_active_model] *)
Definition set_active_model (saved : bool) (model_id : string) (self : state)
  : state * bool :=
  if negb (has_key model_id (models self)) then (self, false)
  else
    let models := clear_all (models self) in
    match dict_get model_id models with
    | None => (self, false)
    | Some selected_model =>
        let selected_model := with_is_active true selected_model in
        (mkState (dict_set model_id selected_model models)
                 (Some selected_model), saved)
    end.

(** One call of the registry's interface. *)
Inductive call :=
| AddModel (model : AIModel)
| UpdateModel (model_id : string) (updated_model : AIModel)
| DeleteModel (model_id : string)
| SetActiveModel (model_id : string).

Definition step (saved : bool) (c : call) (self : state) : state :=
  match c with
  | AddModel m => (add_model saved m self).1
  | UpdateModel i m => (update_model saved i m self).1
  | DeleteModel i => (delete_model saved i self).1
  | SetActiveModel i => (set_active_model saved i self).1
  end.

(** A sequence of calls, each with the outcome of its save. *)
Definition run (calls : list (bool * call)) (self : state) : state :=
  foldl (fun st sc => step sc.1 sc.2 st) self calls.

(** The number of stored models with [is_active == True]. *)
Definition active_count (self : state) : nat :=
  length (filter (fun kv => is_active kv.2 = true) (models self)).

(** [get_model] *)
Definition get_model (model_id : string) (self : state) : option AIModel :=
  dict_get model_id (models self).

(** [get_active_model] *)
Definition get_active_model (self : state) : option AIModel :=
  active_model self.

(** [get_all_models] *)
Definition get_all_models (self : state) : list AIModel := (models self).*2.

(** [get_models_by_provider] *)
Definition get_models_by_provider (wanted : string) (self : state)
  : list AIModel :=
  filter (fun model => provider model = wanted) (get_all_models self).

(** The configuration file as [load_models] finds it: absent; unreadable
    ([makedirs], [open] or [json.load] raises); or a list of entries, an
    entry that the [AIModel] constructor rejects being [None]. *)
Inductive config_file :=
| Missing
| Unreadable
| Entries (models_data : list (option AIModel)).

(** [for other_model in self.models.values():
       if other_model.id != model.id: other_model.is_active = False] *)
Definition clear_others (model_id : string) (d : list (string * AIModel))
  : list (string * AIModel) :=
  map (fun kv => if decide (id kv.2 ≠ model_id)
                 then (kv.1, with_is_active false kv.2) else kv) d.

(** The loop of [load_models]; [false] when an entry made it raise, with
    the registry as the loop left it. *)
Fixpoint load_entries (models_data : list (option AIModel)) (self : state)
  : state * bool :=
  match models_data with
  | [] => (self, true)
  | None :: _ => (self, false)
  | Some model :: rest =>
      let models := dict_set (id model) model (models self) in
      load_entries rest
        (if is_active model
         then mkState (clear_others (id model) models) (Some model)
         else mkState models (active_model self))
  end.

Section DefaultConfig.
(** The API key written in [_create_default_config]. *)
Variable default_api_key : string.

Definition default_model : AIModel :=
mkAIModel "siliconflow-default" "硅基流动默认模型" "siliconflow"
  "deepseek-ai/DeepSeek-V3.2" default_api_key
  (Some "https://api.siliconflow.cn/v1")
  (Some "硅基流动提供的DeepSeek V3.2模型") true.

(** [_create_default_config]; the outcome of its save is dropped. *)
Definition create_default_config (self : state) : state :=
mkState (dict_set (id default_model) default_model (models self))
        (Some default_model).

(** [load_models] *)
Definition load_models (file : config_file) (self : state) : state :=
match file with
| Missing | Unreadable => create_default_config self
| Entries models_data =>
    let '(loaded, ok) := load_entries models_data (mkState [] None) in
    if ok then loaded else create_default_config loaded
end.

(** [__init__] *)
Definition init (file : config_file) : state :=
load_models file (mkState [] None).

End DefaultConfig.

End ModelManager.

(** Routing as the design notes word it: the candidates are the full code,
    its first two letters and its first letter, tried in that order against
    the table; no match is "unrecognized". *)
Definition prefix_candidates (code : string) : list string :=
  [code; PyStr.take 2 code; PyStr.take 1 code].

Fixpoint first_match (table : gmap string exchange) (keys : list string)
  : option exchange :=
  match keys with
  | [] => None
  | k :: ks => match table !! k with
               | Some e => Some e
               | None => first_match table ks
               end
  end.

Definition route_by_prefix (code : string) : option exchange :=
  first_match FUTURE_EXCHANGE_MAP (prefix_candidates code).

(** * engine/strategy_manager.py

    [market_data] and [analysis_results] are insertion-ordered dicts, read
    in their order.  The thresholds of [self.config['filter']] are the
    numbers of the settings file; a strategy is the dict the analysis
    returned, of which [select_top_5] reads three entries, taken to be
    present, the two scores being numbers.  What is modelled is the list
    each function returns: the calculators also add their columns to the
    frames of [market_data], and [select_top_5] also keeps its result in
    [self.top_5_symbols]. *)

Module StrategyManager.

Record filter_params := mkFilterParams {
  min_volume : Q;
  min_atr : Q;
  max_symbols : Z
}.

(** What the body of the loop of [filter_symbols] does with one symbol:
    it appends it, skips it with [continue], or raises an exception that
    the [except] clause catches. *)
Inductive verdict := Pass | Skip | Caught.

Definition check_symbol (filter_params : filter_params)
  (data_by_period : gmap string (option (DataFrame fval))) : verdict :=
  match data_by_period !! "60m" with
  | None | Some None => Skip
  | Some (Some df) =>
      if empty df then Skip
      else
        match TechnicalCalculator.calculate_atr df 14 "atr" with
        | Raise _ => Caught
        | Ok df =>
        match TechnicalCalculator.calculate_ma df 20 "close" None with
        | Raise _ => Caught
        | Ok df =>
        match getitem_series df "volume" with
        | Raise _ => Caught
        | Ok volume =>
        match last volume with
        | None => Caught
        | Some last_volume =>
            if flt last_volume (FNum (min_volume filter_params)) then Skip
            else
              match getitem_series df "atr" with
              | Raise _ => Caught
              | Ok atr =>
              match last atr with
              | None => Caught
              | Some last_atr =>
                  if flt last_atr (FNum (min_atr filter_params)) then Skip
                  else Pass
              end
              end
        end
        end
        end
        end
  end.

Fixpoint filter_loop (filter_params : filter_params)
  (items : list (string * gmap string (option (DataFrame fval))))
  (filtered_symbols : list string) : list string :=
  match items with
  | [] => filtered_symbols
  | (symbol, data_by_period) :: rest =>
      match check_symbol filter_params data_by_period with
      | Pass =>
          let filtered_symbols := (filtered_symbols ++ [symbol])%list in
          if (max_symbols filter_params
              <=? Z.of_nat (length filtered_symbols))%Z
          then filtered_symbols
          else filter_loop filter_params rest filtered_symbols
      | Skip | Caught => filter_loop filter_params rest filtered_symbols
      end
  end.

(** [filter_symbols] *)
Definition filter_symbols (filter_params : filter_params)
  (market_data : list (string * gmap string (option (DataFrame fval))))
  : list string :=
  filter_loop filter_params market_data [].

Record strategy := mkStrategy {
  direction : string;
  signal_strength : Q;
  rr_ratio : Q
}.

(** [(a, b) < (c, d)] on the key tuples. *)
Definition key_lt (x y : strategy) : bool :=
  Qlt_bool (signal_strength x) (signal_strength y)
  || (Qeq_bool (signal_strength x) (signal_strength y)
      && Qlt_bool (rr_ratio x) (rr_ratio y)).

(** [sorted(items, key=..., reverse=True)]: descending, and stable (items
    with equal keys keep their order). *)
Fixpoint insert_desc (x : string * strategy) (l : list (string * strategy))
  : list (string * strategy) :=
  match l with
  | [] => [x]
  | y :: l' => if key_lt x.2 y.2 then y :: insert_desc x l' else x :: l
  end.

Definition sorted_desc (l : list (string * strategy))
  : list (string * strategy) :=
  foldr insert_desc [] l.

(** [select_top_5] *)
Definition select_top_5 (analysis_results : list (string * strategy))
  : list string :=
  let actionable_strategies :=
    filter (fun item => direction item.2 ≠ "WAIT") analysis_results in
  let actionable_strategies :=
    match actionable_strategies with
    | [] => analysis_results
    | _ => actionable_strategies
    end in
  let sorted_symbols := sorted_desc actionable_strategies in
  (take 5 sorted_symbols).*1.

End StrategyManager.

(** * ui/model_management.py

    The page is the sequence of the texts written with [st.error],
    [st.subheader] and [st.markdown]; the layout calls ([st.columns] and
    the [with] blocks), which only place these texts, are left out.  The
    registry is the one [get_model_manager()] returns. *)

Module ModelManagement.

Inductive st_call :=
| st_error (body : string)
| st_subheader (body : string)
| st_markdown (body : string).

(** [s * n] *)
Fixpoint str_mul (s : string) (n : nat) : string :=
  match n with
  | O => EmptyString
  | S n' => s +:+ str_mul s n'
  end.

(** [model.api_key[:4] + "*" * (len(model.api_key) - 4)] *)
Definition masked_api_key (api_key : string) : string :=
  PyStr.take 4 api_key
  +:+ str_mul "*" (Z.to_nat (Z.of_nat (String.length api_key) - 4)).

(** The line written under [if text:], for an optional text. *)
Definition optional_line (label : string) (text : option string)
  : list st_call :=
  match text with
  | Some (String c rest) => [st_markdown (label +:+ String c rest)]
  | Some EmptyString | None => []
  end.

(** [render_model_details] *)
Definition render_model_details (model_id : string)
  (model_manager : ModelManager.state) : list st_call :=
  match ModelManager.get_model model_id model_manager with
  | None => [st_error "未找到指定模型"]
  | Some model =>
      [ st_subheader ("模型详情: " +:+ ModelManager.name model);
        st_markdown ("**ID:** " +:+ ModelManager.id model);
        st_markdown ("**提供商:** " +:+ ModelManager.provider model);
        st_markdown ("**模型名称:** " +:+ ModelManager.model_name model);
        st_markdown ("**状态:** "
                     +:+ (if ModelManager.is_active model
                          then "当前模型" else "可用模型")) ]
      ++ optional_line "**API地址:** " (ModelManager.base_url model)
      ++ optional_line "**描述:** " (ModelManager.description model)
      ++ (if decide (ModelManager.api_key model = EmptyString) then []
          else [st_markdown
                  ("**API密钥:** "
                   +:+ masked_api_key (ModelManager.api_key model))])
  end%list.

End ModelManagement.

(** * Predicates and sample inputs used in the statements below *)

(** Neither a Saturday nor a Sunday. *)
Definition weekday_only (d : Calendar.datetime) : Prop :=
  Calendar.weekday d ≠ 5%Z ∧ Calendar.weekday d ≠ 6%Z.

(** What a walk may have queried: one date per offset, never a weekend. *)
Definition trace_ok (now : Calendar.datetime) (offsets : list nat)
  (queried : list Calendar.datetime) : Prop :=
  sublist (Calendar.ordinal <$> queried)
          ((fun k => (Calendar.ordinal now - Z.of_nat k)%Z) <$> offsets)
  ∧ Forall weekday_only queried.

(** Minutes since midnight, and the ranges a clock reading keeps to. *)
Definition minute_of_day (d : Calendar.datetime) : Z :=
  (60 * Calendar.hour d + Calendar.minute d)%Z.

Definition clock_reading (d : Calendar.datetime) : Prop :=
  (0 ≤ Calendar.minute d < 60)%Z
  ∧ (0 ≤ Calendar.second d)%Z
  ∧ (0 ≤ Calendar.microsecond d)%Z.

(** The two shapes of a returned triple. *)
Definition success_shape {C} (t : rank_triple C) : Prop :=
  empty t.1.1 = false
  ∧ t.2 = None
  ∧ columns t.1.1 = STANDARD_COLUMNS
  ∧ (len t.1.1 ≤ 20)%nat.

Definition failure_shape {C} (t : rank_triple C) : Prop :=
  empty t.1.1 = true ∧ t.2 ≠ None.

(** A ranking frame of 25 rows with the long-position columns, and a
    service that has it for TA2505 on Friday 2026-10-30 only.  The clock
    reads Tuesday 2026-11-03, 10:00. *)
Definition sample_frame : DataFrame string :=
  let rows := replicate 25 "x" in
  mkDataFrame 25
    [ ("rank", rows); ("long_party_name", rows);
      ("long_open_interest", rows); ("long_open_interest_chg", rows) ].

Definition sample_world : World string :=
  mkWorld (Calendar.mkDatetime 739923 10 0 0 0)
    (fun _ date _ =>
       if decide (date = "20261030")
       then Returns (Some [("TA2505", sample_frame)])
       else Fails (RemoteError "no data")).

(** The keys of [self.models] are distinct, as those of a dict are. *)
Definition well_keyed (self : ModelManager.state) : Prop :=
  NoDup (ModelManager.models self).*1.

(** A call that does not hand [add_model] a model already flagged active. *)
Definition adds_inactive (c : ModelManager.call) : Prop :=
  match c with
  | ModelManager.AddModel m => ModelManager.is_active m = false
  | _ => True
  end.

Definition sample_model (i : string) (active : bool) : ModelManager.AIModel :=
  ModelManager.mkAIModel i "DeepSeek" "siliconflow" "deepseek-ai/DeepSeek-V3.2"
    "sk-0000" None None active.

(** A registry holding one model, which is active. *)
Definition registry_one_active : ModelManager.state :=
  ModelManager.mkState [("a", sample_model "a" true)]
                       (Some (sample_model "a" true)).

(** Case analysis on every condition of a hypothesis. *)
Ltac split_conditions H :=
  repeat match type of H with
         | context [if ?b then _ else _] => destruct b
         end;
  try discriminate.


(** The ratio as the glossary defines it: put volume over call volume. *)
Definition glossary_pcr (put_volume call_volume : Q) : Q :=
  (put_volume / call_volume)%Q.

(** A T-quote snapshot with call volume 15 and put volume 60, served at the
    second attempt. *)
Definition sample_quotes : DataFrame ocell :=
  mkDataFrame 2
    [ ("看涨合约-买量", [ONum (of_Z 10); ONum (of_Z 2)]);
      ("看涨合约-卖量", [ONum (of_Z 5); ONum FNaN]);
      ("看跌合约-买量", [ONum (of_Z 10); ONum (of_Z 20)]);
      ("看跌合约-卖量", [ONum (of_Z 5); ONum (of_Z 25)]) ].

Definition sample_option_world : OptionWorld :=
  mkOptionWorld
    (fun _ _ attempt =>
       if (attempt =? 1)%nat then FrameReturns (Some sample_quotes)
       else FrameFails (RemoteError "timeout"))
    (fun _ => FrameFails (RemoteError "timeout")).

(** Value ranges along the RSI computation: what a rolling aggregation
    reads, what it yields, a ratio of two such yields, and an RSI value. *)
Definition nonneg_or_missing (v : fval) : Prop :=
  match v with FNum q => (0 <= q)%Q | _ => True end.

Definition nan_or_nonneg (v : fval) : Prop :=
  match v with
  | FNaN => True
  | FInf _ => False
  | FNum q => (0 <= q)%Q
  end.



(** An integer square root, standing for the float one in sample runs. *)
Definition sample_sqrt (x : Q) : Q := inject_Z (Z.sqrt (Qfloor x)).

(** Five bars, and a frame with the bar columns and no row. *)
Definition sample_bars : DataFrame fval :=
  mkDataFrame 5
    [ ("close", map of_Z [10; 11; 12; 11; 13]%Z);
      ("high", map of_Z [11; 12; 13; 12; 14]%Z);
      ("low", map of_Z [9; 10; 11; 10; 12]%Z);
      ("volume", map of_Z [1; 2; 3; 4; 5]%Z) ].

Definition no_bars : DataFrame fval :=
  mkDataFrame 0
    [ ("open", []); ("high", []); ("low", []); ("close", []); ("volume", []) ].

(** A bar series without rows: no index entry, every column empty, labels
    distinct. *)
Definition empty_bars (df : DataFrame fval) : Prop :=
  index_len df = 0%nat
  ∧ Forall (fun c => c.2 = []) (col_data df)
  ∧ NoDup (columns df).

(** An empty bar series that carries at least the listed labels. *)
Definition bars_with (labels : list string) (df : DataFrame fval) : Prop :=
  empty_bars df ∧ Forall (fun l => l ∈ columns df) labels.

(** The columns [calculate_all] derives. *)
Definition DERIVED_COLUMNS : list string :=
  [ "ma20"; "ma50"; "ma200"; "atr"; "macd_fast"; "macd_slow"; "macd_line";
    "macd_signal"; "macd_hist"; "rsi"; "bb_mid"; "bb_upper"; "bb_lower";
    "vol_ma20" ].

(** Membership of a label in a list given by its elements. *)
Ltac in_labels :=
  repeat first [ assumption
               | apply elem_of_cons; left; reflexivity
               | apply elem_of_cons; right ].

(** Rewrites one column read with [lemma], on a frame known by [H] to be an
    empty bar series. *)
Ltac read_with lemma H :=
  erewrite (lemma _ _ _ H) by in_labels; cbn [mbind result_bind].

(** Upper-case and lower-case ASCII letters. *)
Definition is_upper_letter (c : ascii) : bool :=
  let n := nat_of_ascii c in (65 <=? n)%nat && (n <=? 90)%nat.

Definition is_lower_letter (c : ascii) : bool :=
  let n := nat_of_ascii c in (97 <=? n)%nat && (n <=? 122)%nat.

(** The first character of a string satisfies a test. *)
Definition head_is (test : ascii → bool) (s : string) : bool :=
  match s with
  | EmptyString => false
  | String c _ => test c
  end.

(** Each model is stored under its own id. *)
Definition keys_are_ids (self : ModelManager.state) : Prop :=
  Forall (fun kv => ModelManager.id kv.2 = kv.1) (ModelManager.models self).

(** A registry of three models, the second one active. *)
Definition registry_of_three : ModelManager.state :=
  ModelManager.mkState
    [ ("a", sample_model "a" false); ("b", sample_model "b" true);
      ("c", sample_model "c" false) ]
    (Some (sample_model "b" true)).

(** Settles a decidable closed proposition by evaluation. *)
Ltac by_evaluation := apply (bool_decide_unpack _); vm_compute; exact I.

(** Three entries of a configuration file, the first two flagged active. *)
Definition sample_entries : list ModelManager.AIModel :=
  [sample_model "a" true; sample_model "b" true; sample_model "c" false].

(** The replies of the ranking service are dicts: no contract code is a
    key twice. *)
Definition replies_are_dicts {C} (w : World C) : Prop :=
  ∀ e date vars reply,
    rank_api w e date vars = Returns (Some reply) → NoDup reply.*1.

(** A reply of the option service the retry loop accepts: a frame with
    rows and columns. *)
Definition usable_reply (r : frame_reply) : option (DataFrame ocell) :=
  match r with
  | FrameReturns (Some df) => if empty df then None else Some df
  | _ => None
  end.

(** The first accepted reply among attempts 0, 1 and 2. *)
Definition first_usable (ow : OptionWorld) (name contract : string)
  : option (DataFrame ocell) :=
  hd_error (omap (fun k => usable_reply (option_api ow name contract k))
                 [0; 1; 2]%nat).

(** A world like [sample_world] whose SHFE, DCE and GFEX endpoints are
    down. *)
Definition sample_world_two_endpoints : World string :=
  mkWorld (now sample_world)
    (fun e date vars =>
       if bool_decide (e ∈ [CZCE; CFFEX])
       then rank_api sample_world e date vars
       else Fails (RemoteError "unreachable")).

(** An option service that never answers. *)
Definition silent_option_world : OptionWorld :=
  mkOptionWorld (fun _ _ _ => FrameFails (RemoteError "timeout"))
                (fun _ => FrameFails (RemoteError "timeout")).

(** A T-quote snapshot without any volume. *)
Definition quiet_quotes : DataFrame ocell :=
  mkDataFrame 1
    [ ("看涨合约-买量", [ONum (of_Z 0)]); ("看涨合约-卖量", [ONum (of_Z 0)]);
      ("看跌合约-买量", [ONum (of_Z 0)]); ("看跌合约-卖量", [ONum (of_Z 0)]) ].

Definition quiet_option_world : OptionWorld :=
  mkOptionWorld (fun _ _ _ => FrameReturns (Some quiet_quotes))
                (fun _ => FrameFails (RemoteError "timeout")).




(** The values [rolling] yields when its window is valid. *)
Definition rolling_values (window : Z) (agg : list Q → fval)
  (xs : list fval) : list fval :=
  map (fun i => match TechnicalCalculator.window_at (Z.to_nat window) i xs with
                | Some qs => agg qs
                | None => FNaN
                end)
      (seq 0 (length xs)).

(** The true range of each bar: the largest of high - low,
    |high - previous close| and |low - previous close|. *)
Definition true_range (high low close : list fval) : list fval :=
  zip_with TechnicalCalculator.fmax_skipna
    (zip_with TechnicalCalculator.fmax_skipna
       (zip_with fsub high low)
       (map fabs (zip_with fsub high (shift1 close))))
    (map fabs (zip_with fsub low (shift1 close))).

(** The columns [calculate_atr] uses for its intermediate results. *)
Definition TEMPORARY_COLUMNS : list string := ["tr1"; "tr2"; "tr3"; "tr"].

(** Reading one column of a frame that a calculator returned. *)
Definition read_column (r : result (DataFrame fval)) (label : string)
  : result (list fval) :=
  df ← r; getitem_series df label.


(** A bar whose high is not below its low, when both are numbers. *)
Definition bar_ordered (high_low : fval * fval) : Prop :=
  match high_low with
  | (FNum h, FNum l) => (l <= h)%Q
  | _ => True
  end.

(** Each column [calculate_all] derives, with the call that derives it,
    made on the frame [df] alone. *)
Definition calculators_alone (sqrt_fl : Q → Q) (df : DataFrame fval)
  : list (string * result (DataFrame fval)) :=
  let macd := TechnicalCalculator.calculate_macd df 12 26 9 "close" "macd" in
  let bb :=
    TechnicalCalculator.calculate_bollinger_bands sqrt_fl df 20 2 "close" "bb" in
  [ ("ma20", TechnicalCalculator.calculate_ma df 20 "close" None);
    ("ma50", TechnicalCalculator.calculate_ma df 50 "close" (Some "ma50"));
    ("ma200", TechnicalCalculator.calculate_ma df 200 "close" (Some "ma200"));
    ("atr", TechnicalCalculator.calculate_atr df 14 "atr");
    ("macd_fast", macd); ("macd_slow", macd); ("macd_line", macd);
    ("macd_signal", macd); ("macd_hist", macd);
    ("rsi", TechnicalCalculator.calculate_rsi df 14 "close" "rsi");
    ("bb_mid", bb); ("bb_upper", bb); ("bb_lower", bb);
    ("vol_ma20", TechnicalCalculator.calculate_volume_ma df 20 "volume" None) ].

(** The symbols of [market_data] that the filter lets through, in the
    order of the dict. *)
#[global] Instance verdict_eq_dec : EqDecision StrategyManager.verdict.
Proof. solve_decision. Defined.

Definition passing_symbols (filter_params : StrategyManager.filter_params)
  (market_data : list (string * gmap string (option (DataFrame fval))))
  : list string :=
  (filter (fun item => StrategyManager.check_symbol filter_params item.2
                       = StrategyManager.Pass) market_data).*1.

(** The strategy [x] does not rank above the strategy [y]: its key is not
    the greater one. *)
Definition not_above (x y : string * StrategyManager.strategy) : Prop :=
  StrategyManager.key_lt y.2 x.2 = false.

(** A list in which no item ranks above an earlier one. *)
Fixpoint descending (l : list (string * StrategyManager.strategy)) : Prop :=
  match l with
  | [] => True
  | x :: l' => Forall (fun y => not_above y x) l' ∧ descending l'
  end.

(** Three bars of one symbol, and two analysed symbols. *)
Definition short_history : DataFrame fval :=
  mkDataFrame 3
    [ ("close", map of_Z [10; 11; 12]%Z);
      ("high", map of_Z [11; 12; 13]%Z);
      ("low", map of_Z [9; 10; 11]%Z);
      ("volume", map of_Z [100; 200; 300]%Z) ].

Definition sample_analysis : list (string * StrategyManager.strategy) :=
  [ ("rb", StrategyManager.mkStrategy "WAIT" 9 3);
    ("cu", StrategyManager.mkStrategy "LONG" 7 2);
    ("au", StrategyManager.mkStrategy "SHORT" 8 1) ].

(** * Properties *)

(** ** Exchange routing *)

Lemma take_all (n : nat) (s : string) :
  (String.length s ≤ n)%nat → PyStr.take n s = s.
Proof.
  revert n. induction s as [|c s IH]; intros [|n] Hn; simpl in *;
    try reflexivity; try lia.
  f_equal. apply IH. lia.
Qed.

Lemma lookup_empty_code : FUTURE_EXCHANGE_MAP !! "" = None.
Proof. vm_compute. reflexivity. Qed.

(** The nested conditionals of [data_utils.get_exchange_by_symbol] try the
    three candidates in the order the notes give. *)
Lemma data_utils_routing_refines (symbol : string) :
  DataUtils.get_exchange_by_symbol symbol = route_by_prefix (product_code symbol).
Proof.
  unfold DataUtils.get_exchange_by_symbol, route_by_prefix, prefix_candidates.
  generalize (product_code symbol) as code. intros code.
  generalize FUTURE_EXCHANGE_MAP as table. intros table. cbn [first_match].
  destruct (table !! code) as [e|] eqn:Hfull; [reflexivity|].
  destruct (2 <=? String.length code)%nat eqn:Hlen.
  - destruct (table !! PyStr.take 2 code); [reflexivity|].
    destruct (table !! PyStr.take 1 code); reflexivity.
  - apply Nat.leb_gt in Hlen.
    rewrite (take_all 2 code) by lia. rewrite Hfull.
    destruct (table !! PyStr.take 1 code); reflexivity.
Qed.

Lemma dashboard_routing_candidates (symbol : string) :
  Dashboard.get_exchange_by_symbol symbol =
  default SHFE (first_match FUTURE_EXCHANGE_MAP
                  [PyStr.lower (PyStr.take 2 symbol);
                   PyStr.lower (PyStr.take 1 symbol)]).
Proof.
  unfold Dashboard.get_exchange_by_symbol.
  pose proof lookup_empty_code as Hempty. revert Hempty.
  generalize FUTURE_EXCHANGE_MAP as table. intros table Hempty.
  destruct symbol as [|a [|b rest]];
    cbn [first_match String.length Nat.leb PyStr.take PyStr.lower PyStr.map_chars].
  - rewrite Hempty. reflexivity.
  - clear Hempty. destruct (table !! _); reflexivity.
  - clear Hempty. destruct (table !! _); [reflexivity|].
    destruct (table !! _); reflexivity.
Qed.

(** C5, as the code has it: both routing functions are functions of the
    symbol alone.  [data_utils.get_exchange_by_symbol] takes the letters
    before the first digit, tries that code, then its first two letters,
    then its first letter against the table, and answers [None] when none
    is a key.  The definition in force in [dashboard_v6.py] tries the first
    two characters and then the first one, and answers SHFE when neither is
    a key. *)
Theorem exchange_routing_priority :
  (∀ symbol,
     DataUtils.get_exchange_by_symbol symbol
     = route_by_prefix (product_code symbol))
  ∧ (∀ symbol,
       Dashboard.get_exchange_by_symbol symbol
       = default SHFE (first_match FUTURE_EXCHANGE_MAP
                         [PyStr.lower (PyStr.take 2 symbol);
                          PyStr.lower (PyStr.take 1 symbol)])).
Proof.
  split.
  - apply data_utils_routing_refines.
  - apply dashboard_routing_candidates.
Qed.

(** C5 as stated fails on the dashboard's routing: no prefix of [zz2505] is
    in the table, yet an exchange is returned; and the prefix [TA] is in
    the table for CZCE, yet SHFE is returned. *)
Lemma dashboard_routing_defaults_to_SHFE :
  route_by_prefix "zz" = None
  ∧ route_by_prefix (product_code "zz2505") = None
  ∧ Dashboard.get_exchange_by_symbol "zz2505" = SHFE
  ∧ route_by_prefix "TA" = Some CZCE
  ∧ Dashboard.get_exchange_by_symbol "TA2505" = SHFE.
Proof. repeat split; vm_compute; reflexivity. Qed.

(** The table's lower-case keys cannot be reached from the upper-cased
    product code. *)
Example data_utils_routing_rb2505 :
  FUTURE_EXCHANGE_MAP !! "rb" = Some SHFE
  ∧ DataUtils.get_exchange_by_symbol "rb2505" = None.
Proof. split; vm_compute; reflexivity. Qed.

(** ** The day walk *)

Section DayWalk.
Context {C : Type}.

Lemma not_weekend (d : Calendar.datetime) :
  Calendar.is_weekend d = false → weekday_only d.
Proof.
  unfold Calendar.is_weekend, weekday_only. intros H.
  apply bool_decide_eq_false in H. set_solver.
Qed.

Lemma minus_days_ordinal (d d' : Calendar.datetime) (k : nat) :
  Calendar.minus_days d k = Ok d' →
  Calendar.ordinal d' = (Calendar.ordinal d - Z.of_nat k)%Z.
Proof.
  unfold Calendar.minus_days. case_match; intros [= <-]; reflexivity.
Qed.

Lemma data_utils_walk_trace (w : World C) (symbol : string)
  (exchange : exchange) (variety_code : string) (offsets : list nat) :
  trace_ok (now w) offsets
    (DataUtils.day_walk w symbol exchange variety_code offsets).2.
Proof.
  induction offsets as [|k rest IH].
  - split; constructor.
  - cbn [DataUtils.day_walk Dashboard.day_walk].
    destruct (Calendar.minus_days (now w) k) as [target|e] eqn:Hminus.
    2:{ split; [apply sublist_nil_l | constructor]. }
    pose proof (minus_days_ordinal _ _ _ Hminus) as Hord.
    destruct IH as [IHsub IHall].
    destruct (Calendar.is_weekend target) eqn:Hweekend.
    { split; [rewrite fmap_cons; by apply sublist_cons | done]. }
    apply not_weekend in Hweekend.
    destruct (DataUtils.probe w symbol exchange variety_code _).
    + cbn [snd]. split.
      * rewrite !fmap_cons, Hord. apply sublist_skip, sublist_nil_l.
      * apply Forall_cons_2; [exact Hweekend | constructor].
    + destruct (DataUtils.day_walk w symbol exchange variety_code rest)
        as [r queried]. cbn [snd] in *. split.
      * rewrite !fmap_cons, Hord. by apply sublist_skip.
      * apply Forall_cons_2; [exact Hweekend | exact IHall].
Qed.

Lemma dashboard_walk_trace `{EqDecision C} (cell_str : C → string)
  (w : World C) (symbol : string)
  (exchange : exchange) (variety_code : string) (offsets : list nat) :
  trace_ok (now w) offsets
    (Dashboard.day_walk cell_str w symbol exchange variety_code offsets).2.
Proof.
  induction offsets as [|k rest IH].
  - split; constructor.
  - cbn [DataUtils.day_walk Dashboard.day_walk].
    destruct (Calendar.minus_days (now w) k) as [target|e] eqn:Hminus.
    2:{ split; [apply sublist_nil_l | constructor]. }
    pose proof (minus_days_ordinal _ _ _ Hminus) as Hord.
    destruct IH as [IHsub IHall].
    destruct (Calendar.is_weekend target) eqn:Hweekend.
    { split; [rewrite fmap_cons; by apply sublist_cons | done]. }
    apply not_weekend in Hweekend.
    destruct (Dashboard.probe cell_str w symbol exchange variety_code _).
    + cbn [snd]. split.
      * rewrite !fmap_cons, Hord. apply sublist_skip, sublist_nil_l.
      * apply Forall_cons_2; [exact Hweekend | constructor].
    + destruct (Dashboard.day_walk cell_str w symbol exchange variety_code rest)
        as [r queried]. cbn [snd] in *. split.
      * rewrite !fmap_cons, Hord. by apply sublist_skip.
      * apply Forall_cons_2; [exact Hweekend | exact IHall].
Qed.

Lemma py_range_length (a b : nat) : length (py_range a b) = (b - a)%nat.
Proof. unfold py_range. apply length_seq. Qed.

(** A trace over a range of offsets below [max_days] is short, free of
    repeated days and free of weekends. *)
Lemma trace_ok_bounds (now : Calendar.datetime) (a : nat)
  (queried : list Calendar.datetime) :
  trace_ok now (py_range a max_days) queried →
  (length queried ≤ 30)%nat
  ∧ NoDup (Calendar.ordinal <$> queried)
  ∧ Forall weekday_only queried.
Proof.
  intros [Hsub Hall]. split; [|split]; [| |exact Hall].
  - apply sublist_length in Hsub.
    rewrite !length_fmap, py_range_length in Hsub.
    unfold max_days in Hsub. lia.
  - eapply sublist_NoDup; [|exact Hsub].
    apply NoDup_fmap_2_strong; [|apply NoDup_seq].
    intros x y _ _ Hxy. lia.
Qed.

End DayWalk.

Lemma data_utils_queried_trace {C} (w : World C) (symbol data_type : string) :
  trace_ok (now w) DataUtils.day_offsets
    (DataUtils.queried_dates w symbol data_type).
Proof.
  unfold DataUtils.queried_dates, DataUtils.run.
  destruct (DataUtils.get_exchange_by_symbol symbol) as [exchange|].
  - pose proof (data_utils_walk_trace w symbol exchange (product_code symbol)
                  DataUtils.day_offsets) as H.
    destruct (DataUtils.day_walk _ _ _ _ _) as [walked queried]. exact H.
  - simpl. split; [apply sublist_nil_l | constructor].
Qed.

Lemma dashboard_queried_trace {C} `{EqDecision C} (cell_str : C → string)
  (w : World C) (symbol data_type : string) :
  trace_ok (now w) (Dashboard.day_offsets w)
    (Dashboard.queried_dates cell_str w symbol data_type).
Proof.
  unfold Dashboard.queried_dates, Dashboard.run.
  pose proof (dashboard_walk_trace cell_str w symbol
                (Dashboard.get_exchange_by_symbol symbol)
                (product_code symbol) (Dashboard.day_offsets w)) as H.
  destruct (Dashboard.day_walk _ _ _ _ _ _) as [walked queried]. exact H.
Qed.

(** C4: in every execution of [get_holding_rank_data], in either file, the
    endpoint is called for at most 30 dates, no calendar day is asked for
    twice, and no date asked for is a Saturday (weekday 5) or a Sunday
    (weekday 6). *)
Theorem day_walk_queries_bounded {C} `{EqDecision C} (cell_str : C → string)
  (w : World C) (symbol data_type : string) :
  let du := DataUtils.queried_dates w symbol data_type in
  let dash := Dashboard.queried_dates cell_str w symbol data_type in
  ((length du ≤ 30)%nat
   ∧ NoDup (Calendar.ordinal <$> du)
   ∧ Forall (fun d => Calendar.weekday d ≠ 5%Z ∧ Calendar.weekday d ≠ 6%Z) du)
  ∧ ((length dash ≤ 30)%nat
     ∧ NoDup (Calendar.ordinal <$> dash)
     ∧ Forall (fun d => Calendar.weekday d ≠ 5%Z ∧ Calendar.weekday d ≠ 6%Z) dash).
Proof.
  split.
  - eapply trace_ok_bounds. apply data_utils_queried_trace.
  - eapply trace_ok_bounds. apply (dashboard_queried_trace cell_str).
Qed.

(** ** The starting offset *)

Lemma before_cutoff_minutes (d : Calendar.datetime) :
  clock_reading d →
  Calendar.lt d (Calendar.replace_time d 16 30) = true
  ↔ (minute_of_day d < 990)%Z.
Proof.
  intros (Hm & Hs & Hus). unfold Calendar.lt, Calendar.replace_time, minute_of_day.
  destruct d as [o h m s us]; simpl in *.
  rewrite !orb_true_iff, !andb_true_iff, !orb_true_iff, !andb_true_iff,
    !orb_true_iff, !andb_true_iff, !Z.ltb_lt, !Z.eqb_eq.
  rewrite orb_true_iff, andb_true_iff, Z.ltb_lt, Z.eqb_eq. lia.
Qed.

Lemma dashboard_start_day (d : Calendar.datetime) :
  clock_reading d →
  Dashboard.start_day d
  = if decide (minute_of_day d < 990)%Z then 1%nat else 0%nat.
Proof.
  intros Hclock. unfold Dashboard.start_day.
  pose proof (before_cutoff_minutes d Hclock) as Hiff.
  destruct (Calendar.lt d _); case_decide; try reflexivity.
  - exfalso. apply H, Hiff. reflexivity.
  - destruct Hiff as [_ Hiff]. discriminate (Hiff H).
Qed.

Lemma Forall_of_sublist {A} (P : A → Prop) (l k : list A) :
  sublist l k → Forall P k → Forall P l.
Proof.
  induction 1 as [|x l k _ IH|x l k _ IH]; intros Hk.
  - constructor.
  - apply Forall_cons in Hk as [Hx Hk]. apply Forall_cons_2; auto.
  - apply Forall_cons in Hk as [_ Hk]. auto.
Qed.

Lemma trace_ok_before (now : Calendar.datetime) (a b : nat)
  (queried : list Calendar.datetime) :
  (1 ≤ a)%nat →
  trace_ok now (py_range a b) queried →
  Forall (fun d => (Calendar.ordinal d < Calendar.ordinal now)%Z) queried.
Proof.
  intros Ha [Hsub _].
  assert (Forall (fun z => (z < Calendar.ordinal now)%Z)
            (Calendar.ordinal <$> queried)) as H.
  { eapply Forall_of_sublist; [exact Hsub|].
    apply Forall_fmap, Forall_forall. intros k Hk.
    apply elem_of_seq in Hk. simpl. lia. }
  by apply Forall_fmap in H.
Qed.

(** On a weekday, for a symbol it can route, the walk of [data_utils.py]
    asks for today's date first, whatever the time. *)
Lemma data_utils_first_query_today {C} (w : World C) (symbol data_type : string)
  (e : exchange) :
  DataUtils.get_exchange_by_symbol symbol = Some e →
  Calendar.is_weekend (now w) = false →
  (1 ≤ Calendar.ordinal (now w))%Z →
  hd_error (Calendar.ordinal <$> DataUtils.queried_dates w symbol data_type)
  = Some (Calendar.ordinal (now w)).
Proof.
  intros Hroute Hweekday Hday.
  unfold DataUtils.queried_dates, DataUtils.run. rewrite Hroute.
  change DataUtils.day_offsets with (0%nat :: py_range 1 max_days).
  generalize (py_range 1 max_days) as rest. intros rest.
  cbn [DataUtils.day_walk]. unfold Calendar.minus_days.
  replace (Calendar.ordinal (now w) - Z.of_nat 0)%Z
    with (Calendar.ordinal (now w)) by lia.
  destruct (Calendar.ordinal (now w) <? 1)%Z eqn:Hlt;
    [apply Z.ltb_lt in Hlt; lia|].
  assert (Calendar.mkDatetime (Calendar.ordinal (now w)) (Calendar.hour (now w))
            (Calendar.minute (now w)) (Calendar.second (now w))
            (Calendar.microsecond (now w)) = now w) as -> by (by destruct (now w)).
  rewrite Hweekday.
  destruct (DataUtils.probe w symbol e (product_code symbol) _); [reflexivity|].
  destruct (DataUtils.day_walk w symbol e (product_code symbol) _). reflexivity.
Qed.

(** C1, as the code has it.  In [dashboard_v6.get_holding_rank_data] the
    walk starts at offset 1 when the clock reads earlier than 16:30 and at
    offset 0 otherwise, and before 16:30 no query is made for today or any
    later day.  [data_utils.get_holding_rank_data] has no cutoff: its walk
    starts at offset 0 whatever the time, and on a weekday, for a symbol it
    can route, the first date it asks for is today. *)
Theorem start_offset_by_cutoff {C} `{EqDecision C} (cell_str : C → string)
  (w : World C) (symbol data_type : string) :
  clock_reading (now w) →
  hd_error (Dashboard.day_offsets w)
  = Some (if decide (minute_of_day (now w) < 990)%Z then 1%nat else 0%nat)
  ∧ ((minute_of_day (now w) < 990)%Z →
     Forall (fun d => (Calendar.ordinal d < Calendar.ordinal (now w))%Z)
       (Dashboard.queried_dates cell_str w symbol data_type))
  ∧ hd_error DataUtils.day_offsets = Some 0%nat
  ∧ (is_Some (DataUtils.get_exchange_by_symbol symbol) →
     Calendar.is_weekend (now w) = false →
     (1 ≤ Calendar.ordinal (now w))%Z →
     hd_error (Calendar.ordinal <$> DataUtils.queried_dates w symbol data_type)
     = Some (Calendar.ordinal (now w))).
Proof.
  intros Hclock. pose proof (dashboard_start_day (now w) Hclock) as Hstart.
  split; [|split; [|split]].
  - unfold Dashboard.day_offsets. rewrite Hstart.
    case_decide; reflexivity.
  - intros Hbefore.
    apply (trace_ok_before (now w) 1 max_days); [lia|].
    pose proof (dashboard_queried_trace cell_str w symbol data_type) as Htrace.
    unfold Dashboard.day_offsets in Htrace. rewrite Hstart in Htrace.
    by rewrite decide_True in Htrace.
  - reflexivity.
  - intros [e Hroute]. by apply data_utils_first_query_today with e.
Qed.

Lemma start_offset_by_cutoff_witness :
  hd_error (Dashboard.day_offsets sample_world) = Some 1%nat
  ∧ Forall (fun d => (Calendar.ordinal d < 739923)%Z)
      (Dashboard.queried_dates (fun c => c) sample_world "TA2505" "多单持仓")
  ∧ hd_error (Calendar.ordinal
                <$> DataUtils.queried_dates sample_world "TA2505" "多单持仓")
    = Some 739923%Z.
Proof.
  assert (clock_reading (now sample_world)) as Hclock
    by (vm_compute; intuition discriminate).
  destruct (start_offset_by_cutoff (fun c => c) sample_world
              "TA2505" "多单持仓" Hclock) as (Hhd & Hbefore & _ & Htoday).
  split; [|split].
  - exact Hhd.
  - apply Hbefore. vm_compute. reflexivity.
  - apply Htoday; [by exists CZCE; vm_compute | vm_compute; reflexivity
                  | vm_compute; discriminate].
Defined.

(** C1 as stated fails on [data_utils.py]: at 10:00 on Tuesday 2026-11-03,
    before the cutoff, its walk starts at offset 0 and the first date it
    asks the endpoint for is today (ordinal 739923). *)
Lemma data_utils_walk_starts_today :
  (minute_of_day (now sample_world) < 990)%Z
  ∧ hd_error DataUtils.day_offsets = Some 0%nat
  ∧ Calendar.ordinal <$> DataUtils.queried_dates sample_world "TA2505" "多单持仓"
    = [739923; 739922; 739919]%Z
  ∧ Calendar.ordinal <$> Dashboard.queried_dates (fun c => c) sample_world
                           "TA2505" "多单持仓"
    = [739922; 739919]%Z.
Proof. repeat split; vm_compute; reflexivity. Qed.

(** ** The shape of the returned triple *)

Lemma set_columns_ok {C} (df df' : DataFrame C) (names : list string) :
  set_columns df names = Ok df' →
  columns df' = names ∧ index_len df' = index_len df.
Proof.
  unfold set_columns.
  destruct (length names =? length (col_data df))%nat eqn:Hlen; [|discriminate].
  intros [= <-]. apply Nat.eqb_eq in Hlen. split; [|reflexivity].
  unfold columns. cbn [col_data]. apply fst_zip.
  rewrite length_fmap. lia.
Qed.

Lemma select_and_rename_ok {C} (df df' : DataFrame C) (labels : list string) :
  select_and_rename df labels = Ok df' →
  columns df' = STANDARD_COLUMNS ∧ index_len df' = index_len df.
Proof.
  unfold select_and_rename, getitem_list.
  destruct (select df labels) as [cs|e]; [|discriminate].
  cbn [mbind result_bind]. intros H.
  apply set_columns_ok in H. exact H.
Qed.

Lemma head_success_shape {C} (rank_df df : DataFrame C) (data_date : string) :
  empty rank_df = false →
  columns df = STANDARD_COLUMNS →
  index_len df = index_len rank_df →
  success_shape (head 20 df, Some data_date, @None string).
Proof.
  intros Hne Hcols Hidx. unfold success_shape. cbn [fst snd].
  assert (columns (head 20 df) = STANDARD_COLUMNS) as Hcols'.
  { unfold columns, head in *. cbn [col_data]. rewrite <- Hcols.
    rewrite <- list_fmap_compose. reflexivity. }
  unfold empty in Hne. apply orb_false_iff in Hne as [Hrows _].
  apply Nat.eqb_neq in Hrows.
  repeat split.
  - unfold empty. apply orb_false_iff. split.
    + apply Nat.eqb_neq. unfold head. cbn [index_len]. lia.
    + apply Nat.eqb_neq. unfold columns in Hcols'.
      rewrite <- (length_fmap fst), Hcols'. discriminate.
  - exact Hcols'.
  - unfold len, head. cbn [index_len]. lia.
Qed.

Lemma failure_is_failure_shape {C} (msg : string) :
  failure_shape (@failure C msg).
Proof. split; [reflexivity | discriminate]. Qed.

Lemma bind_inl_ok {C} (r : result (DataFrame C)) (df' : DataFrame C) :
  (df ← r; Ok (@inl _ string df)) = Ok (inl df') → r = Ok df'.
Proof. destruct r; cbn; congruence. Qed.

Lemma data_utils_normalize_ok {C} (data_type : string)
  (rank_df df : DataFrame C) :
  DataUtils.normalize data_type rank_df = Ok (inl df) →
  columns df = STANDARD_COLUMNS ∧ index_len df = index_len rank_df.
Proof.
  unfold DataUtils.normalize. intros H.
  split_conditions H;
    apply bind_inl_ok in H; eapply select_and_rename_ok; exact H.
Qed.

Lemma try_possible_ok {C} `{EqDecision C} (rank_df df : DataFrame C)
  (possible_columns : list (list string)) (missing : string) :
  Dashboard.try_possible rank_df possible_columns missing = Ok (inl df) →
  columns df = STANDARD_COLUMNS ∧ index_len df = index_len rank_df.
Proof.
  induction possible_columns as [|cols rest IH]; cbn [Dashboard.try_possible].
  - discriminate.
  - destruct (forallb _ cols); [|exact IH].
    intros H. apply bind_inl_ok in H. eapply select_and_rename_ok; exact H.
Qed.

Lemma dashboard_normalize_ok {C} `{EqDecision C} (data_type : string)
  (rank_df df : DataFrame C) :
  Dashboard.normalize data_type rank_df = Ok (inl df) →
  columns df = STANDARD_COLUMNS ∧ index_len df = index_len rank_df.
Proof.
  unfold Dashboard.normalize. intros H.
  split_conditions H;
    first [ apply bind_inl_ok in H; eapply select_and_rename_ok; exact H
          | eapply try_possible_ok; exact H ].
Qed.

(** Whatever the loop found, the rest of the body answers with a triple
    of one of the two shapes. *)
Lemma finish_shape {C} (symbol : string)
  (normalize : DataFrame C → result (DataFrame C + string)) :
  (∀ rank_df df, normalize rank_df = Ok (inl df) →
     columns df = STANDARD_COLUMNS ∧ index_len df = index_len rank_df) →
  ∀ found t,
    match found with
    | None => Ok (failure ("未获取到" +:+ symbol +:+ "的持仓排名数据"))
    | Some (rank_df, data_date) =>
        if empty rank_df
        then Ok (failure ("未获取到" +:+ symbol +:+ "的持仓排名数据"))
        else
          normalized ← normalize rank_df;
          match normalized with
          | inr msg => Ok (failure msg)
          | inl rank_df => Ok (head 20 rank_df, Some data_date, None)
          end
    end = Ok t →
    success_shape t ∨ failure_shape t.
Proof.
  intros Hnorm [[rank_df data_date]|] t.
  2:{ intros [= <-]. right. apply failure_is_failure_shape. }
  destruct (empty rank_df) eqn:Hempty.
  { intros [= <-]. right. apply failure_is_failure_shape. }
  destruct (normalize rank_df) as [[df|msg]|e] eqn:Hn; cbn; intros [= <-].
  - left. destruct (Hnorm _ _ Hn) as [Hcols Hidx].
    by eapply head_success_shape.
  - right. apply failure_is_failure_shape.
Qed.

Lemma data_utils_reply_shape {C} (w : World C) (symbol data_type : string) :
  let t := DataUtils.get_holding_rank_data w symbol data_type in
  success_shape t ∨ failure_shape t.
Proof.
  unfold DataUtils.get_holding_rank_data, DataUtils.run.
  destruct (DataUtils.get_exchange_by_symbol symbol) as [exchange|]; cbn [fst].
  2:{ right. apply failure_is_failure_shape. }
  destruct (DataUtils.day_walk _ _ _ _ _) as [[found|e] queried]; cbn [fst mbind result_bind].
  2:{ right. apply failure_is_failure_shape. }
  destruct (DataUtils.finish symbol data_type found) as [t|e] eqn:Hfinish.
  2:{ right. apply failure_is_failure_shape. }
  eapply (finish_shape symbol (DataUtils.normalize data_type));
    [apply data_utils_normalize_ok | exact Hfinish].
Qed.

Lemma dashboard_reply_shape {C} `{EqDecision C} (cell_str : C → string)
  (w : World C) (symbol data_type : string) :
  let t := Dashboard.get_holding_rank_data cell_str w symbol data_type in
  success_shape t ∨ failure_shape t.
Proof.
  unfold Dashboard.get_holding_rank_data, Dashboard.run.
  destruct (Dashboard.day_walk _ _ _ _ _ _) as [[found|e] queried]; cbn [fst mbind result_bind].
  2:{ right. apply failure_is_failure_shape. }
  destruct (Dashboard.finish symbol data_type found) as [t|e] eqn:Hfinish.
  2:{ right. apply failure_is_failure_shape. }
  eapply (finish_shape symbol (Dashboard.normalize data_type));
    [apply dashboard_normalize_ok | exact Hfinish].
Qed.

(** C2: for every symbol, data type, clock reading and behaviour of the
    endpoint, [get_holding_rank_data] (in either file) returns a triple,
    and the triple holds either a non-empty table and no error message, or
    an empty table and an error message.  The function is total: every
    exception raised in its body is turned into the second kind. *)
Theorem table_and_error_exclusive {C} `{EqDecision C} (cell_str : C → string)
  (w : World C) (symbol data_type : string) :
  (∀ df date err,
     DataUtils.get_holding_rank_data w symbol data_type = (df, date, err) →
     (empty df = false ∧ err = None) ∨ (empty df = true ∧ err ≠ None))
  ∧ (∀ df date err,
       Dashboard.get_holding_rank_data cell_str w symbol data_type
       = (df, date, err) →
       (empty df = false ∧ err = None) ∨ (empty df = true ∧ err ≠ None)).
Proof.
  split; intros df date err Heq.
  - destruct (data_utils_reply_shape w symbol data_type) as [H|H];
      rewrite Heq in H; [left | right]; unfold success_shape, failure_shape in H;
      cbn [fst snd] in H; tauto.
  - destruct (dashboard_reply_shape cell_str w symbol data_type) as [H|H];
      rewrite Heq in H; [left | right]; unfold success_shape, failure_shape in H;
      cbn [fst snd] in H; tauto.
Qed.

Lemma table_and_error_exclusive_witness :
  empty (DataUtils.get_holding_rank_data sample_world "TA2505" "多单持仓").1.1 = false
  ∧ empty (Dashboard.get_holding_rank_data (fun c => c) sample_world
             "rb2505" "成交量").1.1 = true.
Proof.
  destruct (table_and_error_exclusive (fun c => c) sample_world
              "TA2505" "多单持仓") as [Hdu _].
  destruct (table_and_error_exclusive (fun c => c) sample_world
              "rb2505" "成交量") as [_ Hdash].
  split.
  - destruct (DataUtils.get_holding_rank_data sample_world "TA2505" "多单持仓")
      as [[df date] err] eqn:Heq.
    destruct (Hdu df date err eq_refl) as [[Hne _]|[_ Herr]]; [exact Hne|].
    exfalso. apply Herr.
    assert (err = (DataUtils.get_holding_rank_data sample_world
                     "TA2505" "多单持仓").2) as -> by (rewrite Heq; reflexivity).
    vm_compute. reflexivity.
  - destruct (Dashboard.get_holding_rank_data (fun c => c) sample_world
                "rb2505" "成交量") as [[df date] err] eqn:Heq.
    destruct (Hdash df date err eq_refl) as [[_ Herr]|[He _]]; [|exact He].
    exfalso.
    assert (err = (Dashboard.get_holding_rank_data (fun c => c) sample_world
                     "rb2505" "成交量").2) as Herr' by (rewrite Heq; reflexivity).
    rewrite Herr in Herr'. vm_compute in Herr'. discriminate.
Defined.

(** C3: whenever [get_holding_rank_data] (in either file) returns no error
    message, the columns of the returned table are exactly 名次, 会员简称,
    数值, 增减, in this order, and the table has at most 20 rows. *)
Theorem success_has_standard_columns {C} `{EqDecision C} (cell_str : C → string)
  (w : World C) (symbol data_type : string) :
  (∀ df date,
     DataUtils.get_holding_rank_data w symbol data_type = (df, date, None) →
     columns df = ["名次"; "会员简称"; "数值"; "增减"] ∧ (len df ≤ 20)%nat)
  ∧ (∀ df date,
       Dashboard.get_holding_rank_data cell_str w symbol data_type
       = (df, date, None) →
       columns df = ["名次"; "会员简称"; "数值"; "增减"] ∧ (len df ≤ 20)%nat).
Proof.
  split; intros df date Heq.
  - destruct (data_utils_reply_shape w symbol data_type) as [H|H];
      rewrite Heq in H; unfold success_shape, failure_shape in H;
      cbn [fst snd] in H; [tauto | exfalso; tauto].
  - destruct (dashboard_reply_shape cell_str w symbol data_type) as [H|H];
      rewrite Heq in H; unfold success_shape, failure_shape in H;
      cbn [fst snd] in H; [tauto | exfalso; tauto].
Qed.

Lemma success_has_standard_columns_witness :
  columns (head 20 (mkDataFrame 25
                      (zip STANDARD_COLUMNS (col_data sample_frame).*2)))
  = ["名次"; "会员简称"; "数值"; "增减"]
  ∧ (len (head 20 (mkDataFrame 25
                     (zip STANDARD_COLUMNS (col_data sample_frame).*2))) ≤ 20)%nat.
Proof.
  destruct (success_has_standard_columns (fun c => c) sample_world
              "TA2505" "多单持仓") as [Hdu _].
  apply (Hdu _ (Some "20261030")). vm_compute. reflexivity.
Defined.

(** ** The model registry *)

Section Registry.
Import ModelManager.

Abbreviation actives d :=
  (length (filter (fun kv : string * AIModel => is_active kv.2 = true) d)).

Abbreviation replace key v :=
  (fun kv : string * AIModel => if decide (kv.1 = key) then (key, v) else kv).

Lemma actives_clear_all (d : list (string * AIModel)) :
  actives (clear_all d) = 0%nat.
Proof.
  unfold clear_all. induction d as [|kv d IH]; [reflexivity|].
  cbn [map]. rewrite filter_cons_False; [exact IH | cbn; discriminate].
Qed.

Lemma keys_clear_all (d : list (string * AIModel)) : (clear_all d).*1 = d.*1.
Proof.
  unfold clear_all. induction d as [|kv d IH]; [reflexivity|].
  cbn. by rewrite IH.
Qed.

Lemma keys_replace (key : string) (v : AIModel) (d : list (string * AIModel)) :
  (map (replace key v) d).*1 = d.*1.
Proof.
  induction d as [|kv d IH]; [reflexivity|].
  cbn. rewrite IH. case_decide; cbn; congruence.
Qed.

Lemma replace_absent (key : string) (v : AIModel) (d : list (string * AIModel)) :
  key ∉ d.*1 → map (replace key v) d = d.
Proof.
  induction d as [|kv d IH]; [reflexivity|].
  cbn. intros Hnotin. apply not_elem_of_cons in Hnotin as [Hne Hnotin].
  rewrite IH by exact Hnotin. case_decide; congruence.
Qed.

Lemma actives_replace (key : string) (v : AIModel) (d : list (string * AIModel)) :
  NoDup d.*1 →
  (actives (map (replace key v) d)
   ≤ actives d + (if is_active v then 1 else 0))%nat.
Proof.
  induction d as [|kv d IH]; intros Hnodup.
  - cbn. lia.
  - cbn [fmap list_fmap] in Hnodup. apply NoDup_cons in Hnodup as [Hnotin Hnodup].
    specialize (IH Hnodup). cbn [map].
    destruct (decide (kv.1 = key)) as [Heq|Hne].
    + rewrite replace_absent by congruence.
      rewrite !filter_cons. cbn [snd].
      repeat case_decide; destruct (is_active v); cbn [length]; try lia; congruence.
    + rewrite !filter_cons. case_decide; cbn [length]; lia.
Qed.

Lemma actives_dict_set (key : string) (v : AIModel) (d : list (string * AIModel)) :
  NoDup d.*1 →
  (actives (dict_set key v d)
   ≤ actives d + (if is_active v then 1 else 0))%nat.
Proof.
  intros Hnodup. unfold dict_set. destruct (has_key key d).
  - by apply actives_replace.
  - rewrite filter_app, length_app, filter_cons, filter_nil. cbn [snd].
    case_decide as Hv; [rewrite Hv|]; cbn [length]; destruct (is_active v); lia.
Qed.

Lemma keys_dict_set (key : string) (v : AIModel) (d : list (string * AIModel)) :
  NoDup d.*1 → NoDup (dict_set key v d).*1.
Proof.
  intros Hnodup. unfold dict_set, has_key. case_bool_decide as Hin.
  - by rewrite keys_replace.
  - rewrite fmap_app. apply NoDup_app. split; [exact Hnodup|].
    split; [|apply NoDup_singleton].
    intros k Hk Hk'. apply list_elem_of_singleton in Hk'. cbn in Hk'. congruence.
Qed.

Lemma keys_dict_del (key : string) (d : list (string * AIModel)) :
  NoDup d.*1 → NoDup (dict_del key d).*1.
Proof.
  intros Hnodup. unfold dict_del.
  eapply sublist_NoDup; [exact Hnodup|].
  apply fmap_sublist, sublist_filter.
Qed.

Lemma actives_dict_del (key : string) (d : list (string * AIModel)) :
  (actives (dict_del key d) ≤ actives d)%nat.
Proof.
  unfold dict_del. induction d as [|kv d IH]; [reflexivity|].
  rewrite !filter_cons. repeat case_decide; cbn [length];
    rewrite ?filter_cons; repeat case_decide; cbn [length]; try lia; congruence.
Qed.

(** Deleting a key whose model is active frees its place. *)
Lemma actives_dict_del_active (key : string) (m : AIModel)
  (d : list (string * AIModel)) :
  dict_get key d = Some m → is_active m = true →
  (actives (dict_del key d) + 1 ≤ actives d)%nat.
Proof.
  unfold dict_del. induction d as [|[k v] d IH]; [discriminate|].
  cbn [dict_get]. intros Hget Hactive. rewrite !filter_cons. cbn [fst snd].
  destruct (decide (k = key)) as [->|Hne].
  - injection Hget as ->. rewrite decide_False by (intros H; by apply H).
    rewrite decide_True by exact Hactive. cbn [length].
    pose proof (actives_dict_del key d) as Hle. unfold dict_del in Hle. lia.
  - rewrite decide_True by exact Hne. rewrite filter_cons. cbn [snd].
    specialize (IH Hget Hactive). case_decide; cbn [length]; lia.
Qed.

Lemma dict_get_replace_other (key other : string) (v : AIModel)
  (d : list (string * AIModel)) :
  key ≠ other →
  dict_get other (map (replace key v) d) = dict_get other d.
Proof.
  intros Hne. induction d as [|[k m] d IH]; [reflexivity|].
  cbn [map dict_get fst]. destruct (decide (k = key)) as [->|Hk].
  - cbn [dict_get]. rewrite !decide_False by exact Hne. exact IH.
  - cbn [dict_get]. rewrite IH. reflexivity.
Qed.

Lemma dict_get_dict_set_other (key other : string) (v : AIModel)
  (d : list (string * AIModel)) :
  key ≠ other → is_Some (dict_get other d) →
  dict_get other (dict_set key v d) = dict_get other d.
Proof.
  intros Hne [m Hm]. unfold dict_set. destruct (has_key key d).
  - by apply dict_get_replace_other.
  - induction d as [|[k m'] d IH]; [discriminate|].
    cbn [dict_get app] in *. case_decide; [reflexivity|]. by apply IH.
Qed.

Lemma add_model_keeps (saved : bool) (model : AIModel) (self : state) :
  is_active model = false →
  well_keyed self → (active_count self ≤ 1)%nat →
  well_keyed (add_model saved model self).1
  ∧ (active_count (add_model saved model self).1 ≤ 1)%nat.
Proof.
  unfold well_keyed, active_count, add_model. intros Hinactive Hkeys Hcount.
  destruct (has_key (id model) (models self)) eqn:Hhas; [by split|].
  cbn [fst models].
  destruct (models self) as [|kv d] eqn:Hd.
  - rewrite bool_decide_eq_true_2 by reflexivity.
    split; [apply keys_dict_set; constructor|].
    unfold dict_set, has_key.
    rewrite bool_decide_eq_false_2 by apply not_elem_of_nil.
    cbn [app]. rewrite filter_cons_True by reflexivity. cbn. lia.
  - rewrite bool_decide_eq_false_2 by discriminate.
    split; [by apply keys_dict_set|].
    pose proof (actives_dict_set (id model) model (kv :: d) Hkeys) as Hle.
    rewrite Hinactive in Hle. lia.
Qed.

Lemma update_model_keeps (saved : bool) (model_id : string)
  (updated_model : AIModel) (self : state) :
  well_keyed self → (active_count self ≤ 1)%nat →
  well_keyed (update_model saved model_id updated_model self).1
  ∧ (active_count (update_model saved model_id updated_model self).1 ≤ 1)%nat.
Proof.
  unfold well_keyed, active_count, update_model. intros Hkeys Hcount.
  destruct (has_key model_id (models self)); cbn [negb]; [|by split].
  destruct (is_active (with_id model_id updated_model)) eqn:Hactive;
    cbn [fst models].
  - assert (NoDup (clear_all (models self)).*1) as Hkeys'
      by (by rewrite keys_clear_all).
    split; [by apply keys_dict_set|].
    pose proof (actives_dict_set model_id
                  (with_is_active true (with_id model_id updated_model))
                  _ Hkeys') as Hle.
    rewrite actives_clear_all in Hle. cbn in Hle. lia.
  - split; [by apply keys_dict_set|].
    pose proof (actives_dict_set model_id (with_id model_id updated_model)
                  _ Hkeys) as Hle.
    rewrite Hactive in Hle. lia.
Qed.

Lemma delete_model_keeps (saved : bool) (model_id : string) (self : state) :
  well_keyed self → (active_count self ≤ 1)%nat →
  well_keyed (delete_model saved model_id self).1
  ∧ (active_count (delete_model saved model_id self).1 ≤ 1)%nat.
Proof.
  unfold well_keyed, active_count, delete_model. intros Hkeys Hcount.
  destruct (dict_get model_id (models self)) as [model|] eqn:Hget; [|by split].
  pose proof (actives_dict_del model_id (models self)) as Hdel.
  destruct (is_active model) eqn:Hactive.
  2:{ cbn [fst models]. split; [by apply keys_dict_del | lia]. }
  destruct (models self) as [|[first_model_id first_model] [|kv d]] eqn:Hd;
    try (cbn [fst models]; split; [by apply keys_dict_del | lia]).
  destruct (decide (first_model_id ≠ model_id)) as [Hne|Heq];
    cbn [fst models]; [|split; [by apply keys_dict_del | lia]].
  split; [by apply keys_dict_del, keys_dict_set|].
  set (d' := dict_set first_model_id (with_is_active true first_model)
               ((first_model_id, first_model) :: kv :: d)).
  assert (dict_get model_id d' = Some model) as Hget'.
  { unfold d'. rewrite dict_get_dict_set_other; [exact Hget | exact Hne | eauto]. }
  pose proof (actives_dict_del_active model_id model d' Hget' Hactive) as H1.
  pose proof (actives_dict_set first_model_id (with_is_active true first_model)
                _ Hkeys) as H2.
  fold d' in H2. cbn [is_active with_is_active] in H2. lia.
Qed.

Lemma set_active_model_keeps (saved : bool) (model_id : string) (self : state) :
  well_keyed self → (active_count self ≤ 1)%nat →
  well_keyed (set_active_model saved model_id self).1
  ∧ (active_count (set_active_model saved model_id self).1 ≤ 1)%nat.
Proof.
  unfold well_keyed, active_count, set_active_model. intros Hkeys Hcount.
  destruct (has_key model_id (models self)); cbn [negb]; [|by split].
  destruct (dict_get model_id (clear_all (models self))) as [selected|];
    [|by split].
  cbn [fst models].
  assert (NoDup (clear_all (models self)).*1) as Hkeys'
    by (by rewrite keys_clear_all).
  split; [by apply keys_dict_set|].
  pose proof (actives_dict_set model_id (with_is_active true selected)
                _ Hkeys') as Hle.
  rewrite actives_clear_all in Hle. cbn in Hle. lia.
Qed.

(** The invariant survives every sequence of calls in which [add_model]
    is never handed a model that is already flagged active. *)
Lemma registry_invariant_without_active_add
  (calls : list (bool * call)) (self : state) :
  Forall (fun sc => adds_inactive sc.2) calls →
  well_keyed self → (active_count self ≤ 1)%nat →
  well_keyed (run calls self) ∧ (active_count (run calls self) ≤ 1)%nat.
Proof.
  unfold run. revert self.
  induction calls as [|[saved c] calls IH]; intros self Hcalls Hkeys Hcount.
  - by split.
  - apply Forall_cons in Hcalls as [Hc Hcalls]. cbn [foldl].
    assert (well_keyed (step saved c self)
            ∧ (active_count (step saved c self) ≤ 1)%nat) as [Hk Ha].
    { destruct c; cbn [step fst snd].
      - by apply add_model_keeps.
      - by apply update_model_keeps.
      - by apply delete_model_keeps.
      - by apply set_active_model_keeps. }
    by apply IH.
Qed.

End Registry.

Lemma registry_invariant_without_active_add_witness :
  (ModelManager.active_count
     (ModelManager.run
        [ (true, ModelManager.AddModel (sample_model "b" false));
          (true, ModelManager.SetActiveModel "b");
          (true, ModelManager.DeleteModel "a");
          (false, ModelManager.UpdateModel "b" (sample_model "x" true)) ]
        registry_one_active) ≤ 1)%nat.
Proof.
  apply registry_invariant_without_active_add.
  - repeat constructor.
  - unfold well_keyed. cbn. apply NoDup_singleton.
  - vm_compute. lia.
Defined.

(** C6 fails on the code: [add_model] stores the model as given, with its
    flag, unless the registry is empty.  From a registry with one active
    model, adding a model built with [is_active=True] leaves two stored
    models active. *)
Theorem add_model_second_active :
  well_keyed registry_one_active
  ∧ ModelManager.active_count registry_one_active = 1%nat
  ∧ ModelManager.active_count
      (ModelManager.run
         [(true, ModelManager.AddModel (sample_model "b" true))]
         registry_one_active) = 2%nat.
Proof.
  split; [|split]; [|reflexivity|reflexivity].
  unfold well_keyed. cbn. apply NoDup_singleton.
Qed.

(** ** The put/call ratio *)

Lemma demo_frame_not_empty (symbol commodity_name : string) :
  none_or_empty (Some (demo_frame symbol commodity_name)) = false.
Proof. reflexivity. Qed.

(** The retry loop always leaves a non-empty frame behind: the service's,
    or the demonstration frame after the last failed attempt. *)
Lemma fetch_loop_not_empty (ow : OptionWorld) (symbol commodity_name : string)
  (fuel retry_count : nat) (option_df : option (DataFrame ocell)) :
  (max_retries - retry_count ≤ fuel)%nat →
  (retry_count < max_retries)%nat ∨ none_or_empty option_df = false →
  ∃ df, fetch_loop ow symbol commodity_name fuel retry_count option_df = Some df
        ∧ empty df = false.
Proof.
  revert retry_count option_df.
  induction fuel as [|fuel IH]; intros retry_count option_df Hfuel Hstate.
  - cbn [fetch_loop]. destruct Hstate as [Hlt|Hne]; [lia|].
    destruct option_df as [df|]; [eauto | discriminate].
  - cbn [fetch_loop].
    destruct (retry_count <? max_retries)%nat eqn:Hlt;
      [apply Nat.ltb_lt in Hlt | apply Nat.ltb_ge in Hlt].
    2:{ cbn [andb]. destruct Hstate as [?|Hne]; [lia|].
        destruct option_df as [df|]; [eauto | discriminate]. }
    destruct (none_or_empty option_df) eqn:Hempty; cbn [andb].
    2:{ destruct option_df as [df|]; [eauto | discriminate]. }
    assert (∀ od, ∃ df,
              (if (S retry_count <? max_retries)%nat
               then fetch_loop ow symbol commodity_name fuel (S retry_count) od
               else fetch_loop ow symbol commodity_name fuel (S retry_count)
                      (Some (demo_frame symbol commodity_name))) = Some df
              ∧ empty df = false) as Hfailed.
    { intros od. destruct (S retry_count <? max_retries)%nat eqn:Hnext.
      - apply Nat.ltb_lt in Hnext. apply IH; [lia | left; lia].
      - apply IH; [lia | right; apply demo_frame_not_empty]. }
    destruct (option_api ow commodity_name symbol retry_count) as [r|e].
    + destruct (none_or_empty r) eqn:Hr; [apply Hfailed|].
      apply IH; [lia | right; exact Hr].
    + apply Hfailed.
Qed.

(** The frame [get_option_pcr] goes on with after its retry loop is never
    missing and never empty. *)
Lemma fetch_option_df_not_empty (ow : OptionWorld) (symbol : string) :
  ∃ df, fetch_option_df ow symbol = Some df ∧ empty df = false.
Proof.
  unfold fetch_option_df. apply fetch_loop_not_empty; [lia | left].
  unfold max_retries. lia.
Qed.

Lemma Qeq_bool_pos (q : Q) : (0 < q)%Q → Qeq_bool q 0 = false.
Proof.
  intros Hq. destruct (Qeq_bool q 0) eqn:H; [|reflexivity].
  apply Qeq_bool_iff in H. lra.
Qed.

Lemma Qlt_bool_pos (q : Q) : (0 < q)%Q → Qlt_bool 0 q = true.
Proof.
  intros Hq. unfold Qlt_bool. destruct (Qle_bool q 0) eqn:H; [|reflexivity].
  apply Qle_bool_iff in H. lra.
Qed.

(** C9: on every option snapshot whose call volume [c] and put volume [p]
    are both positive, [data_utils.get_option_pcr] answers [c / p] and the
    dashboard's [get_option_pcr] answers [p / c].  The two are reciprocal;
    the dashboard's is the put/call ratio of the glossary, and the other one
    agrees with it only when the two volumes are equal. *)
Theorem pcr_directions_opposite (ow : OptionWorld) (symbol : string)
  (option_df : DataFrame ocell) (c p : Q) :
  fetch_option_df ow symbol = Some option_df →
  quote_volumes option_df = Ok (FNum c, FNum p) →
  (0 < c)%Q → (0 < p)%Q →
  DataUtils.get_option_pcr ow symbol = mkPcr (FNum (c / p)) "options"
  ∧ Dashboard.get_option_pcr ow symbol = mkPcr (FNum (p / c)) "options"
  ∧ ((c / p) * (p / c) == 1)%Q
  ∧ (p / c == glossary_pcr p c)%Q
  ∧ ((c / p == glossary_pcr p c)%Q ↔ (c == p)%Q).
Proof.
  intros Hfetch Hvolumes Hc Hp.
  destruct (fetch_option_df_not_empty ow symbol) as (df & Hdf & Hne).
  rewrite Hfetch in Hdf. injection Hdf as <-.
  split; [|split; [|split; [|split]]].
  - unfold DataUtils.get_option_pcr. rewrite Hfetch, Hne, Hvolumes.
    cbn [mbind result_bind feq fdiv]. rewrite !Qeq_bool_pos by exact Hp.
    reflexivity.
  - unfold Dashboard.get_option_pcr. rewrite Hfetch, Hne, Hvolumes.
    cbn [mbind result_bind fgt flt fdiv]. rewrite Qlt_bool_pos by exact Hc.
    rewrite Qeq_bool_pos by exact Hc. reflexivity.
  - field. split; lra.
  - reflexivity.
  - unfold glossary_pcr. split; intros Heq.
    + assert (c * c == p * p)%Q as Hsq.
      { assert (c == (c / p) * p)%Q as H1 by (field; lra).
        assert (p == (p / c) * c)%Q as H2 by (field; lra).
        rewrite H1 at 1. rewrite Heq. rewrite H2 at 3. field. lra. }
      nra.
    + rewrite Heq. reflexivity.
Qed.

Lemma pcr_directions_opposite_witness :
  DataUtils.get_option_pcr sample_option_world "SHFE.rb2505"
  = mkPcr (FNum (15 / 60)) "options"
  ∧ Dashboard.get_option_pcr sample_option_world "SHFE.rb2505"
    = mkPcr (FNum (60 / 15)) "options".
Proof.
  destruct (pcr_directions_opposite sample_option_world "SHFE.rb2505"
              sample_quotes 15 60) as (Hdu & Hdash & _).
  - vm_compute. reflexivity.
  - vm_compute. reflexivity.
  - reflexivity.
  - reflexivity.
  - split; [exact Hdu | exact Hdash].
Defined.
(** ** Position size *)



Section PositionSize.
Import SpecFloat TechnicalCalculator.








End PositionSize.




(** ** Indicator ranges *)

Section Indicators.
Import TechnicalCalculator.


Lemma Forall_zip_with_both {A B D} (P : A → Prop) (Q : B → Prop)
  (R : D → Prop) (f : A → B → D) (l : list A) (k : list B) :
  (∀ x y, P x → Q y → R (f x y)) →
  Forall P l → Forall Q k → Forall R (zip_with f l k).
Proof.
  intros Hf Hl. revert k. induction Hl as [|x l Hx Hl IH]; intros k Hk.
  - constructor.
  - destruct Hk as [|y k Hy Hk]; cbn; constructor; auto.
Qed.



Lemma Qsum_nonneg (qs : list Q) :
  Forall (fun q => (0 <= q)%Q) qs → (0 <= Qsum qs)%Q.
Proof.
  unfold Qsum. induction 1 as [|q qs Hq _ IH]; cbn; [lra|].
  change (foldr Qplus 0%Q qs) with (Qsum qs) in *. unfold Qsum in *. lra.
Qed.

Lemma count_pos (q : Q) (qs : list Q) : (0 < count (q :: qs))%Q.
Proof.
  unfold count. change 0%Q with (inject_Z 0). rewrite <- Zlt_Qlt.
  cbn [length]. lia.
Qed.

Lemma mean_nonneg (qs : list Q) :
  Forall (fun q => (0 <= q)%Q) qs → nan_or_nonneg (mean qs).
Proof.
  intros Hqs. destruct qs as [|q qs]; [exact I|]. cbn [mean nan_or_nonneg].
  apply Qle_shift_div_l; [apply count_pos|].
  pose proof (Qsum_nonneg _ Hqs). lra.
Qed.

Lemma window_at_nonneg (n i : nat) (xs : series) (qs : list Q) :
  Forall nonneg_or_missing xs →
  window_at n i xs = Some qs →
  Forall (fun q => (0 <= q)%Q) qs.
Proof.
  unfold window_at. intros Hxs. destruct (i + 1 <? n)%nat; [discriminate|].
  intros Hwin. apply mapM_Some_1 in Hwin.
  eapply Forall2_Forall_r; [exact Hwin|].
  apply Forall_take, Forall_drop.
  eapply Forall_impl; [exact Hxs|].
  intros [| |q] Hv y; cbn; intros [= <-]. exact Hv.
Qed.

(** Every value a rolling aggregation yields is missing or is the
    aggregate of a window of non-negative observations. *)
Lemma rolling_yields (P : fval → Prop) (window : Z) (agg : list Q → fval)
  (xs ys : series) :
  P FNaN →
  (∀ qs, Forall (fun q => (0 <= q)%Q) qs → P (agg qs)) →
  Forall nonneg_or_missing xs →
  rolling window agg xs = Ok ys →
  Forall P ys.
Proof.
  intros Hnan Hagg Hxs. unfold rolling.
  destruct (window <? 0)%Z; [discriminate|]. intros [= <-].
  apply Forall_fmap, Forall_forall. intros i _. cbn.
  destruct (window_at (Z.to_nat window) i xs) as [qs|] eqn:Hwin; [|exact Hnan].
  apply Hagg. by eapply window_at_nonneg.
Qed.










Section Bands.
Variable sqrt_fl : Q → Q.
Hypothesis sqrt_fl_nonneg : ∀ x, (0 <= sqrt_fl x)%Q.




End Bands.

End Indicators.




(** ** Indicators on a series without rows *)

Section EmptyBars.
Import TechnicalCalculator.

Lemma labelled_absent (df : DataFrame fval) (label : string) :
  label ∉ columns df → labelled label df = [].
Proof.
  unfold labelled, columns. induction (col_data df) as [|c cs IH]; [done|].
  cbn [fmap list_fmap]. intros Hnotin.
  apply not_elem_of_cons in Hnotin as [Hne Hnotin].
  rewrite filter_cons_False by congruence. by apply IH.
Qed.

Lemma getitem_empty_bars (df : DataFrame fval) (label : string) :
  empty_bars df → label ∈ columns df → getitem_series df label = Ok [].
Proof.
  intros (_ & Hrows & Hnodup). unfold getitem_series, labelled, empty_bars, columns in *.
  induction (col_data df) as [|c cs IH]; intros Hin.
  - by apply elem_of_nil in Hin.
  - cbn [fmap list_fmap] in *. apply NoDup_cons in Hnodup as [Hnotin Hnodup].
    apply Forall_cons in Hrows as [Hc Hrows].
    rewrite filter_cons. case_decide as Hlabel.
    + pose proof (labelled_absent (mkDataFrame 0 cs) label) as Habsent.
      unfold labelled, columns in Habsent. cbn [col_data] in Habsent.
      rewrite Habsent by congruence. by rewrite Hc.
    + apply elem_of_cons in Hin as [Hin|Hin]; [congruence|]. by apply IH.
Qed.

Lemma columns_setitem (df : DataFrame fval) (label : string) (values : series) :
  columns (setitem df label values)
  = if has_column label df then columns df else (columns df ++ [label])%list.
Proof.
  unfold setitem, columns. destruct (has_column label df); cbn [col_data].
  - induction (col_data df) as [|c cs IH]; [done|].
    cbn. rewrite <- IH. case_decide; cbn; congruence.
  - by rewrite fmap_app.
Qed.

Lemma setitem_empty_bars (labels : list string) (df : DataFrame fval)
  (label : string) :
  bars_with labels df → bars_with (label :: labels) (setitem df label []).
Proof.
  intros [(Hidx & Hrows & Hnodup) Hlabels].
  assert (∀ l, l ∈ columns df → l ∈ columns (setitem df label [])) as Hkeep.
  { intros l Hl. rewrite columns_setitem.
    destruct (has_column label df); [done|]. apply elem_of_app. by left. }
  split; [split; [|split]|].
  - unfold setitem. by destruct (has_column label df).
  - unfold setitem. destruct (has_column label df); cbn [col_data].
    + apply Forall_fmap. eapply Forall_impl; [exact Hrows|].
      intros c Hc. cbn. by case_decide.
    + apply Forall_app. split; [done|]. by repeat constructor.
  - rewrite columns_setitem. unfold has_column. case_bool_decide as Hin; [done|].
    apply NoDup_app. split; [done|]. split; [|apply NoDup_singleton].
    intros l Hl Hl'. apply list_elem_of_singleton in Hl'. congruence.
  - apply Forall_cons_2.
    + rewrite columns_setitem. unfold has_column. case_bool_decide as Hin; [done|].
      apply elem_of_app. right. by apply list_elem_of_singleton.
    + eapply Forall_impl; [exact Hlabels|]. auto.
Qed.

Lemma getitem_bars_with (labels : list string) (df : DataFrame fval)
  (label : string) :
  bars_with labels df → label ∈ labels → getitem_series df label = Ok [].
Proof.
  intros [Hempty Hlabels] Hin. apply getitem_empty_bars; [done|].
  by eapply Forall_forall in Hlabels.
Qed.

Lemma bars_with_weaken (labels labels' : list string) (df : DataFrame fval) :
  bars_with labels df → labels' ⊆ labels → bars_with labels' df.
Proof.
  intros [Hempty Hlabels] Hsub. split; [done|].
  apply Forall_forall. intros l Hl. eapply Forall_forall in Hlabels; eauto.
Qed.

Lemma rolling_nil (window : Z) (agg : list Q → fval) :
  (0 ≤ window)%Z → rolling window agg [] = Ok [].
Proof.
  intros Hw. unfold rolling.
  destruct (window <? 0)%Z eqn:H; [apply Z.ltb_lt in H; lia | reflexivity].
Qed.

Lemma ewm_mean_nil (span : Z) : (1 ≤ span)%Z → ewm_mean span [] = Ok [].
Proof.
  intros Hs. unfold ewm_mean.
  destruct (span <? 1)%Z eqn:H; [apply Z.ltb_lt in H; lia | reflexivity].
Qed.

Lemma rsi_series_nil (window : Z) : (0 ≤ window)%Z → rsi_series window [] = Ok [].
Proof.
  intros Hw. unfold rsi_series. cbn [diff shift1 zip_with gains losses map].
  rewrite !rolling_nil by exact Hw. reflexivity.
Qed.

Lemma select_empty_bars (df : DataFrame fval) (labels : list string) :
  empty_bars df → Forall (fun l => l ∈ columns df) labels →
  ∃ cs, select df labels = Ok cs ∧ Forall (fun c => c.2 = []) cs.
Proof.
  intros Hempty. induction 1 as [|l ls Hl _ IH].
  - exists []. by split.
  - destruct IH as (rest & Hrest & Hrows). cbn [select].
    assert (Forall (fun c => c.2 = []) (labelled l df)) as Hl_rows.
    { destruct Hempty as (_ & Hall & _). unfold labelled.
      apply Forall_forall. intros c Hc.
      apply list_elem_of_filter in Hc as [_ Hc].
      by eapply Forall_forall in Hall. }
    destruct (labelled l df) as [|c cs] eqn:Hlab.
    + exfalso. apply list_elem_of_fmap in Hl as (c & -> & Hc).
      assert (c ∈ labelled c.1 df) as Hin
        by (unfold labelled; by apply list_elem_of_filter).
      rewrite Hlab in Hin. by apply elem_of_nil in Hin.
    + rewrite Hrest. cbn [mbind result_bind]. eexists. split; [reflexivity|].
      by apply Forall_app.
Qed.

Lemma foldl_zip_with_nil (f : fval → fval → fval) (cs : list (list fval)) :
  foldl (zip_with f) [] cs = [].
Proof. induction cs as [|c cs IH]; [done|]. exact IH. Qed.

Lemma row_max_nil (cs : list (string * list fval)) :
  Forall (fun c => c.2 = []) cs → row_max (mkDataFrame 0 cs) = [].
Proof.
  intros Hrows. unfold row_max. cbn [col_data index_len].
  destruct cs as [|c cs]; [reflexivity|]. cbn [fmap list_fmap].
  apply Forall_cons in Hrows as [-> _]. apply foldl_zip_with_nil.
Qed.

Lemma drop_empty_bars (labels : list string) (df : DataFrame fval)
  (dropped : list string) :
  bars_with labels df →
  Forall (fun l => l ∈ columns df) dropped →
  ∃ df', drop_columns df dropped = Ok df'
         ∧ bars_with (filter (fun l => l ∉ dropped) labels) df'.
Proof.
  intros [(Hidx & Hrows & Hnodup) Hlabels] Hdropped. unfold drop_columns.
  destruct (find _ dropped) as [l|] eqn:Hfind.
  { exfalso. apply find_some in Hfind as [Hl Hmiss].
    eapply Forall_forall in Hdropped; [|by apply list_elem_of_In].
    unfold has_column in Hmiss. by rewrite bool_decide_eq_true_2 in Hmiss. }
  eexists. split; [reflexivity|]. split; [split; [|split]|]; cbn [index_len col_data].
  - exact Hidx.
  - eapply Forall_of_sublist; [apply sublist_filter | exact Hrows].
  - unfold columns. cbn [col_data].
    eapply sublist_NoDup; [exact Hnodup|]. apply fmap_sublist, sublist_filter.
  - apply Forall_forall. intros l Hl.
    apply list_elem_of_filter in Hl as [Hkeep Hl].
    eapply Forall_forall in Hlabels; [|exact Hl].
    unfold columns in *. cbn [col_data].
    apply list_elem_of_fmap in Hlabels as (c & -> & Hc).
    apply list_elem_of_fmap. exists c. split; [done|].
    by apply list_elem_of_filter.
Qed.

Lemma calculate_ma_empty (labels : list string) (df : DataFrame fval)
  (window : Z) (column : string) (name : option string) :
  bars_with labels df → (0 ≤ window)%Z → column ∈ labels →
  ∃ df', calculate_ma df window column name = Ok df'
         ∧ bars_with (or_default name ("ma" +:+ pretty window) :: labels) df'.
Proof.
  intros Hdf Hw Hcol. unfold calculate_ma.
  rewrite (getitem_bars_with _ _ _ Hdf Hcol). cbn [mbind result_bind].
  rewrite rolling_nil by exact Hw. cbn [mbind result_bind].
  eexists. split; [reflexivity|]. by apply setitem_empty_bars.
Qed.

Lemma calculate_volume_ma_empty (labels : list string) (df : DataFrame fval)
  (window : Z) (column : string) (name : option string) :
  bars_with labels df → (0 ≤ window)%Z → column ∈ labels →
  ∃ df', calculate_volume_ma df window column name = Ok df'
         ∧ bars_with (or_default name ("vol_ma" +:+ pretty window) :: labels) df'.
Proof.
  intros Hdf Hw Hcol. unfold calculate_volume_ma.
  rewrite (getitem_bars_with _ _ _ Hdf Hcol). cbn [mbind result_bind].
  rewrite rolling_nil by exact Hw. cbn [mbind result_bind].
  eexists. split; [reflexivity|]. by apply setitem_empty_bars.
Qed.

Lemma calculate_rsi_empty (labels : list string) (df : DataFrame fval)
  (window : Z) (column name : string) :
  bars_with labels df → (0 ≤ window)%Z → column ∈ labels →
  ∃ df', calculate_rsi df window column name = Ok df'
         ∧ bars_with (name :: labels) df'.
Proof.
  intros Hdf Hw Hcol. unfold calculate_rsi.
  rewrite (getitem_bars_with _ _ _ Hdf Hcol). cbn [mbind result_bind].
  rewrite rsi_series_nil by exact Hw. cbn [mbind result_bind].
  eexists. split; [reflexivity|]. by apply setitem_empty_bars.
Qed.

Lemma calculate_macd_empty (labels : list string) (df : DataFrame fval)
  (fast_period slow_period signal_period : Z) (column prefix : string) :
  bars_with labels df →
  (1 ≤ fast_period)%Z → (1 ≤ slow_period)%Z → (1 ≤ signal_period)%Z →
  column ∈ labels →
  ∃ df', calculate_macd df fast_period slow_period signal_period column prefix
         = Ok df'
         ∧ bars_with ((prefix +:+ "_hist") :: (prefix +:+ "_signal")
                      :: (prefix +:+ "_line") :: (prefix +:+ "_slow")
                      :: (prefix +:+ "_fast") :: labels) df'.
Proof.
  intros Hdf Hfast Hslow Hsignal Hcol. unfold calculate_macd.
  rewrite (getitem_bars_with _ _ _ Hdf Hcol). cbn [mbind result_bind].
  rewrite ewm_mean_nil by exact Hfast. cbn [mbind result_bind].
  pose proof (setitem_empty_bars _ _ (prefix +:+ "_fast") Hdf) as H1.
  read_with getitem_bars_with H1. rewrite ewm_mean_nil by exact Hslow. cbn [mbind result_bind].
  pose proof (setitem_empty_bars _ _ (prefix +:+ "_slow") H1) as H2.
  read_with getitem_bars_with H2. read_with getitem_bars_with H2. cbn [zip_with].
  pose proof (setitem_empty_bars _ _ (prefix +:+ "_line") H2) as H3.
  read_with getitem_bars_with H3. rewrite ewm_mean_nil by exact Hsignal. cbn [mbind result_bind].
  pose proof (setitem_empty_bars _ _ (prefix +:+ "_signal") H3) as H4.
  read_with getitem_bars_with H4. read_with getitem_bars_with H4. cbn [zip_with].
  eexists. split; [reflexivity|]. by apply setitem_empty_bars.
Qed.

Lemma calculate_atr_empty (labels : list string) (df : DataFrame fval)
  (window : Z) (name : string) :
  bars_with labels df → (0 ≤ window)%Z →
  "high" ∈ labels → "low" ∈ labels → "close" ∈ labels →
  ∃ df', calculate_atr df window name = Ok df'
         ∧ bars_with (filter (fun l => l ∉ ["tr1"; "tr2"; "tr3"; "tr"])
                        (name :: labels)) df'.
Proof.
  intros Hdf Hw Hhigh Hlow Hclose. unfold calculate_atr.
  read_with getitem_bars_with Hdf. read_with getitem_bars_with Hdf. cbn [zip_with].
  pose proof (setitem_empty_bars _ _ "tr1" Hdf) as H1.
  read_with getitem_bars_with H1. read_with getitem_bars_with H1. cbn [shift1 zip_with map].
  pose proof (setitem_empty_bars _ _ "tr2" H1) as H2.
  read_with getitem_bars_with H2. read_with getitem_bars_with H2. cbn [shift1 zip_with map].
  pose proof (setitem_empty_bars _ _ "tr3" H2) as H3.
  destruct (select_empty_bars
              (setitem (setitem (setitem df "tr1" []) "tr2" []) "tr3" [])
              ["tr1"; "tr2"; "tr3"]) as (cs & Hcs & Hrows).
  { apply H3. }
  { destruct H3 as [_ H3]. apply Forall_forall. intros l Hl.
    eapply Forall_forall in H3; [exact H3|].
    rewrite !elem_of_cons in *. rewrite elem_of_nil in Hl. tauto. }
  unfold getitem_list. rewrite Hcs. cbn [mbind result_bind].
  destruct H3 as [[Hidx3 Hrest3] Hlab3]. rewrite Hidx3.
  rewrite row_max_nil by exact Hrows.
  assert (bars_with ("tr3" :: "tr2" :: "tr1" :: labels)
            (setitem (setitem (setitem df "tr1" []) "tr2" []) "tr3" []))
    as H3 by (split; [split|]; assumption).
  pose proof (setitem_empty_bars _ _ "tr" H3) as H4.
  read_with getitem_bars_with H4. rewrite rolling_nil by exact Hw. cbn [mbind result_bind].
  pose proof (setitem_empty_bars _ _ name H4) as H5.
  destruct (drop_empty_bars _ _ ["tr1"; "tr2"; "tr3"; "tr"] H5)
    as (df' & Hdrop & Hdf').
  { destruct H5 as [_ H5]. apply Forall_forall. intros l Hl.
    eapply Forall_forall in H5; [exact H5|].
    rewrite !elem_of_cons in *. rewrite elem_of_nil in Hl. tauto. }
  exists df'. split; [exact Hdrop|].
  eapply bars_with_weaken; [exact Hdf'|].
  intros l Hl. apply list_elem_of_filter in Hl as [Hkeep Hl].
  apply list_elem_of_filter. split; [exact Hkeep|].
  rewrite !elem_of_cons in *. tauto.
Qed.

Lemma calculate_bollinger_bands_empty (sqrt_fl : Q → Q) (labels : list string)
  (df : DataFrame fval) (window : Z) (num_std : Q) (column prefix : string) :
  bars_with labels df → (0 ≤ window)%Z → column ∈ labels →
  ∃ df', calculate_bollinger_bands sqrt_fl df window num_std column prefix
         = Ok df'
         ∧ bars_with ((prefix +:+ "_lower") :: (prefix +:+ "_upper")
                      :: (prefix +:+ "_mid") :: labels) df'.
Proof.
  intros Hdf Hw Hcol. unfold calculate_bollinger_bands.
  rewrite (getitem_bars_with _ _ _ Hdf Hcol). cbn [mbind result_bind].
  rewrite rolling_nil by exact Hw. cbn [mbind result_bind].
  pose proof (setitem_empty_bars _ _ (prefix +:+ "_mid") Hdf) as H1.
  read_with getitem_bars_with H1. read_with getitem_bars_with H1.
  rewrite rolling_nil by exact Hw. cbn [mbind result_bind map zip_with].
  pose proof (setitem_empty_bars _ _ (prefix +:+ "_upper") H1) as H2.
  read_with getitem_bars_with H2. cbn [zip_with].
  eexists. split; [reflexivity|]. by apply setitem_empty_bars.
Qed.

Lemma empty_bars_with_columns (df : DataFrame fval) :
  empty_bars df → bars_with (columns df) df.
Proof. intros H. split; [exact H|]. by apply Forall_forall. Qed.

(** [calculate_all] on an empty frame that has the four input columns. *)
Lemma calculate_all_empty (sqrt_fl : Q → Q) (df : DataFrame fval) :
  bars_with ["close"; "high"; "low"; "volume"] df →
  ∃ df', calculate_all sqrt_fl df = Ok df'
         ∧ bars_with
             (DERIVED_COLUMNS ++ ["close"; "high"; "low"; "volume"]) df'.
Proof.
  intros H0. unfold calculate_all.
  destruct (calculate_ma_empty _ df 20 "close" None H0) as (d1 & -> & H1);
    [lia | in_labels |]. cbn [mbind result_bind].
  destruct (calculate_ma_empty _ d1 50 "close" (Some "ma50") H1) as (d2 & -> & H2);
    [lia | in_labels |]. cbn [mbind result_bind].
  destruct (calculate_ma_empty _ d2 200 "close" (Some "ma200") H2) as (d3 & -> & H3);
    [lia | in_labels |]. cbn [mbind result_bind].
  destruct (calculate_atr_empty _ d3 14 "atr" H3) as (d4 & -> & H4);
    [lia | in_labels .. |]. cbn [mbind result_bind].
  eapply bars_with_weaken
    with (labels' := ["atr"; "ma200"; "ma50"; "ma20";
                      "close"; "high"; "low"; "volume"]) in H4;
    [|by apply (bool_decide_unpack _); vm_compute].
  destruct (calculate_macd_empty _ d4 12 26 9 "close" "macd" H4) as (d5 & -> & H5);
    [lia | lia | lia | in_labels |]. cbn [mbind result_bind].
  destruct (calculate_rsi_empty _ d5 14 "close" "rsi" H5) as (d6 & -> & H6);
    [lia | in_labels |]. cbn [mbind result_bind].
  destruct (calculate_bollinger_bands_empty sqrt_fl _ d6 20 2 "close" "bb" H6)
    as (d7 & -> & H7); [lia | in_labels |]. cbn [mbind result_bind].
  destruct (calculate_volume_ma_empty _ d7 20 "volume" None H7) as (d8 & -> & H8);
    [lia | in_labels |].
  exists d8. split; [reflexivity|].
  eapply bars_with_weaken; [exact H8|].
  by apply (bool_decide_unpack _); vm_compute.
Qed.

End EmptyBars.

(** C8, as the code has it: no indicator calculator checks for an empty
    series.  Called on a bar frame without rows that has the columns it
    reads, each of the six calculators, and [calculate_all], raises nothing
    and returns the frame with the derived columns added, all without rows.
    (A calculator raises only for a missing input column or an invalid
    window.) *)
Theorem indicators_accept_empty_series (sqrt_fl : Q → Q) (df : DataFrame fval) :
  empty_bars df →
  (∀ window column name,
     (0 ≤ window)%Z → column ∈ columns df →
     ∃ df', TechnicalCalculator.calculate_ma df window column name = Ok df'
            ∧ empty_bars df')
  ∧ (∀ window name,
       (0 ≤ window)%Z →
       "high" ∈ columns df → "low" ∈ columns df → "close" ∈ columns df →
       ∃ df', TechnicalCalculator.calculate_atr df window name = Ok df'
              ∧ empty_bars df')
  ∧ (∀ fast_period slow_period signal_period column prefix,
       (1 ≤ fast_period)%Z → (1 ≤ slow_period)%Z → (1 ≤ signal_period)%Z →
       column ∈ columns df →
       ∃ df', TechnicalCalculator.calculate_macd
                df fast_period slow_period signal_period column prefix = Ok df'
              ∧ empty_bars df')
  ∧ (∀ window column name,
       (0 ≤ window)%Z → column ∈ columns df →
       ∃ df', TechnicalCalculator.calculate_rsi df window column name = Ok df'
              ∧ empty_bars df')
  ∧ (∀ window num_std column prefix,
       (0 ≤ window)%Z → column ∈ columns df →
       ∃ df', TechnicalCalculator.calculate_bollinger_bands
                sqrt_fl df window num_std column prefix = Ok df'
              ∧ empty_bars df')
  ∧ (∀ window column name,
       (0 ≤ window)%Z → column ∈ columns df →
       ∃ df', TechnicalCalculator.calculate_volume_ma df window column name
              = Ok df'
              ∧ empty_bars df')
  ∧ (Forall (fun l => l ∈ columns df) ["close"; "high"; "low"; "volume"] →
     ∃ df', TechnicalCalculator.calculate_all sqrt_fl df = Ok df'
            ∧ empty_bars df'
            ∧ Forall (fun l => l ∈ columns df') DERIVED_COLUMNS).
Proof.
  intros Hempty. pose proof (empty_bars_with_columns df Hempty) as Hdf.
  repeat split.
  - intros window column name Hw Hcol.
    destruct (calculate_ma_empty _ df window column name Hdf Hw Hcol)
      as (df' & Hcalc & [Hdf' _]). eauto.
  - intros window name Hw Hhigh Hlow Hclose.
    destruct (calculate_atr_empty _ df window name Hdf Hw Hhigh Hlow Hclose)
      as (df' & Hcalc & [Hdf' _]). eauto.
  - intros fast slow signal column prefix Hfast Hslow Hsignal Hcol.
    destruct (calculate_macd_empty _ df fast slow signal column prefix
                Hdf Hfast Hslow Hsignal Hcol) as (df' & Hcalc & [Hdf' _]). eauto.
  - intros window column name Hw Hcol.
    destruct (calculate_rsi_empty _ df window column name Hdf Hw Hcol)
      as (df' & Hcalc & [Hdf' _]). eauto.
  - intros window num_std column prefix Hw Hcol.
    destruct (calculate_bollinger_bands_empty sqrt_fl _ df window num_std
                column prefix Hdf Hw Hcol) as (df' & Hcalc & [Hdf' _]). eauto.
  - intros window column name Hw Hcol.
    destruct (calculate_volume_ma_empty _ df window column name Hdf Hw Hcol)
      as (df' & Hcalc & [Hdf' _]). eauto.
  - intros Hcols.
    destruct (calculate_all_empty sqrt_fl df (conj Hempty Hcols))
      as (df' & Hcalc & [Hdf' Hlabels]).
    exists df'. split; [exact Hcalc|]. split; [exact Hdf'|].
    apply Forall_app in Hlabels as [Hderived _]. exact Hderived.
Qed.

Lemma no_bars_empty : empty_bars no_bars.
Proof.
  split; [reflexivity|]. split; [by repeat constructor|].
  by apply (bool_decide_unpack _); vm_compute.
Qed.

Lemma indicators_accept_empty_series_witness :
  ∃ df', TechnicalCalculator.calculate_all sample_sqrt no_bars = Ok df'
         ∧ empty_bars df'
         ∧ Forall (fun l => l ∈ columns df') DERIVED_COLUMNS.
Proof.
  destruct (indicators_accept_empty_series sample_sqrt no_bars no_bars_empty)
    as (_ & _ & _ & _ & _ & _ & Hall).
  apply Hall. by apply (bool_decide_unpack _); vm_compute.
Defined.

(** C8 as stated fails: a bar frame with the five OHLCV columns and no row
    goes through every calculator without an exception; [calculate_ma], for
    one, returns it with an empty [ma20] column. *)
Lemma indicators_return_on_no_bars :
  empty no_bars = true
  ∧ TechnicalCalculator.calculate_ma no_bars 20 "close" None
    = Ok (mkDataFrame 0
            [ ("open", []); ("high", []); ("low", []); ("close", []);
              ("volume", []); ("ma20", []) ])
  ∧ is_ok (TechnicalCalculator.calculate_atr no_bars 14 "atr") = true
  ∧ is_ok (TechnicalCalculator.calculate_macd no_bars 12 26 9 "close" "macd")
    = true
  ∧ is_ok (TechnicalCalculator.calculate_rsi no_bars 14 "close" "rsi") = true
  ∧ is_ok (TechnicalCalculator.calculate_bollinger_bands
             sample_sqrt no_bars 20 2 "close" "bb") = true
  ∧ is_ok (TechnicalCalculator.calculate_volume_ma no_bars 20 "volume" None)
    = true
  ∧ is_ok (TechnicalCalculator.calculate_all sample_sqrt no_bars) = true.
Proof. repeat split; vm_compute; reflexivity. Qed.

(** ** Which exchanges the two routing functions can reach *)

Lemma lower_char_not_upper (c : ascii) :
  is_upper_letter (PyStr.lower_char c) = false.
Proof. destruct c as [[] [] [] [] [] [] [] []]; vm_compute; reflexivity. Qed.

Lemma upper_char_not_lower (c : ascii) :
  is_lower_letter (PyStr.upper_char c) = false.
Proof. destruct c as [[] [] [] [] [] [] [] []]; vm_compute; reflexivity. Qed.

Lemma head_lower (s : string) : head_is is_upper_letter (PyStr.lower s) = false.
Proof. destruct s; [reflexivity | apply lower_char_not_upper]. Qed.

Lemma head_upper (s : string) : head_is is_lower_letter (PyStr.upper s) = false.
Proof. destruct s; [reflexivity | apply upper_char_not_lower]. Qed.

Lemma head_take (test : ascii → bool) (n : nat) (s : string) :
  head_is test s = false → head_is test (PyStr.take n s) = false.
Proof. destruct n, s; cbn; auto. Qed.

(** Every key of the table starts with a lower-case letter when it maps to
    SHFE or DCE and with an upper-case letter otherwise. *)
Lemma table_key_case (k : string) (e : exchange) :
  FUTURE_EXCHANGE_MAP !! k = Some e →
  (head_is is_lower_letter k = true ∧ (e = SHFE ∨ e = DCE))
  ∨ (head_is is_upper_letter k = true ∧ (e = CZCE ∨ e = CFFEX)).
Proof.
  unfold FUTURE_EXCHANGE_MAP. intros H. apply elem_of_list_to_map_2 in H.
  repeat (apply elem_of_cons in H as [H|H];
          [injection H as -> ->; first [left; split; [reflexivity | auto]
                                       | right; split; [reflexivity | auto]]|]).
  by apply elem_of_nil in H.
Qed.

Lemma data_utils_routes_upper (symbol : string) :
  DataUtils.get_exchange_by_symbol symbol ∈ [None; Some CZCE; Some CFFEX].
Proof.
  assert (∀ k e, head_is is_lower_letter k = false →
                 FUTURE_EXCHANGE_MAP !! k = Some e →
                 Some e ∈ [None; Some CZCE; Some CFFEX]) as Hkey.
  { intros k e Hhead Hlookup.
    destruct (table_key_case k e Hlookup) as [[Hlow _]|[_ [-> | ->]]];
      [congruence | in_labels ..]. }
  pose proof (head_upper (PyStr.before_first_digit symbol)) as Hcode.
  fold (product_code symbol) in Hcode.
  unfold DataUtils.get_exchange_by_symbol.
  generalize dependent (product_code symbol). intros code Hcode.
  destruct (FUTURE_EXCHANGE_MAP !! code) as [e|] eqn:H0; [by eapply Hkey|].
  destruct (2 <=? String.length code)%nat.
  - destruct (FUTURE_EXCHANGE_MAP !! PyStr.take 2 code) as [e|] eqn:H2.
    { eapply Hkey; [|exact H2]. by apply head_take. }
    destruct (FUTURE_EXCHANGE_MAP !! PyStr.take 1 code) as [e|] eqn:H1.
    { eapply Hkey; [|exact H1]. by apply head_take. }
    in_labels.
  - destruct (FUTURE_EXCHANGE_MAP !! PyStr.take 1 code) as [e|] eqn:H1.
    { eapply Hkey; [|exact H1]. by apply head_take. }
    in_labels.
Qed.

Lemma dashboard_routes_lower (symbol : string) :
  Dashboard.get_exchange_by_symbol symbol ∈ [SHFE; DCE].
Proof.
  assert (∀ k e, head_is is_upper_letter k = false →
                 FUTURE_EXCHANGE_MAP !! k = Some e →
                 e ∈ [SHFE; DCE]) as Hkey.
  { intros k e Hhead Hlookup.
    destruct (table_key_case k e Hlookup) as [[_ [-> | ->]]|[Hup _]];
      [in_labels .. | congruence]. }
  unfold Dashboard.get_exchange_by_symbol.
  repeat match goal with
         | |- context [if ?b then _ else _] => destruct b
         | |- context [FUTURE_EXCHANGE_MAP !! ?k] =>
             let H := fresh "H" in
             destruct (FUTURE_EXCHANGE_MAP !! k) eqn:H;
             [eapply Hkey; [apply head_lower | exact H]|]
         end; in_labels.
Qed.

(** [data_utils.get_exchange_by_symbol] looks up upper-cased keys only, so
    it never answers SHFE or DCE; the definition in force in
    [dashboard_v6.py] looks up lower-cased keys only, so it never answers
    CZCE or CFFEX. *)
Lemma routing_reachable_exchanges (symbol : string) :
  DataUtils.get_exchange_by_symbol symbol
  ∈ [None; Some CZCE; Some CFFEX]
  ∧ Dashboard.get_exchange_by_symbol symbol ∈ [SHFE; DCE].
Proof.
  split; [apply data_utils_routes_upper | apply dashboard_routes_lower].
Qed.

(** ** The model registry: look-ups, deletion and loading *)

Section RegistryQueries.
Import ModelManager.

Abbreviation actives d :=
  (length (filter (fun kv : string * AIModel => is_active kv.2 = true) d)).

Abbreviation replace key v :=
  (fun kv : string * AIModel => if decide (kv.1 = key) then (key, v) else kv).

Lemma dict_get_None {V} (key : string) (d : list (string * V)) :
  dict_get key d = None ↔ key ∉ d.*1.
Proof.
  induction d as [|[k v] d IH]; cbn [dict_get].
  - split; [intros _; apply not_elem_of_nil | reflexivity].
  - cbn [fmap list_fmap fst]. rewrite not_elem_of_cons.
    case_decide as Hk; [subst k|].
    + split; [discriminate | intros [Hne _]; congruence].
    + rewrite IH. split; [intros Hnotin; split; congruence | tauto].
Qed.

Lemma has_key_dict_get {V} (key : string) (d : list (string * V)) :
  has_key key d = false ↔ dict_get key d = None.
Proof.
  unfold has_key. rewrite dict_get_None.
  case_bool_decide; split; try tauto; discriminate.
Qed.

Lemma has_key_Some {V} (key : string) (v : V) (d : list (string * V)) :
  dict_get key d = Some v → has_key key d = true.
Proof.
  intros Hget. destruct (has_key key d) eqn:Hhas; [reflexivity|].
  apply has_key_dict_get in Hhas. congruence.
Qed.

Lemma dict_get_app_fresh {V} (key : string) (v : V) (d : list (string * V)) :
  dict_get key d = None → dict_get key (d ++ [(key, v)]) = Some v.
Proof.
  induction d as [|[k v'] d IH]; cbn [dict_get app].
  - intros _. by rewrite decide_True.
  - case_decide; [discriminate | exact IH].
Qed.

Lemma dict_get_app_other {V} (key other : string) (v : V)
  (d : list (string * V)) :
  key ≠ other → dict_get other (d ++ [(key, v)]) = dict_get other d.
Proof.
  intros Hne. induction d as [|[k v'] d IH]; cbn [dict_get app].
  - by rewrite decide_False.
  - by rewrite IH.
Qed.

Lemma dict_get_replace_same (key : string) (v v' : AIModel)
  (d : list (string * AIModel)) :
  dict_get key d = Some v' → dict_get key (map (replace key v) d) = Some v.
Proof.
  induction d as [|[k m] d IH]; [discriminate|].
  cbn [dict_get map fst]. destruct (decide (k = key)) as [->|Hk].
  - intros _. cbn [dict_get]. by rewrite decide_True.
  - intros Hget. cbn [dict_get]. rewrite decide_False by exact Hk. by apply IH.
Qed.

Lemma dict_get_dict_set_same (key : string) (v : AIModel)
  (d : list (string * AIModel)) :
  dict_get key (dict_set key v d) = Some v.
Proof.
  unfold dict_set. destruct (has_key key d) eqn:Hhas.
  - destruct (dict_get key d) as [v'|] eqn:Hget.
    + by eapply dict_get_replace_same.
    + apply has_key_dict_get in Hget. congruence.
  - apply dict_get_app_fresh. by apply has_key_dict_get.
Qed.

Lemma dict_get_dict_set_ne (key other : string) (v : AIModel)
  (d : list (string * AIModel)) :
  key ≠ other → dict_get other (dict_set key v d) = dict_get other d.
Proof.
  intros Hne. unfold dict_set. destruct (has_key key d).
  - by apply dict_get_replace_other.
  - by apply dict_get_app_other.
Qed.

Lemma dict_get_dict_del_same (key : string) (d : list (string * AIModel)) :
  dict_get key (dict_del key d) = None.
Proof.
  apply dict_get_None. unfold dict_del. intros Hin.
  apply list_elem_of_fmap in Hin as ([k v] & -> & Hin).
  apply list_elem_of_filter in Hin as [Hne _]. by apply Hne.
Qed.

Lemma dict_get_dict_del_other (key other : string)
  (d : list (string * AIModel)) :
  key ≠ other → dict_get other (dict_del key d) = dict_get other d.
Proof.
  intros Hne. unfold dict_del. induction d as [|[k v] d IH]; [reflexivity|].
  rewrite filter_cons. cbn [fst dict_get].
  destruct (decide (k ≠ key)) as [Hk|Hk].
  - cbn [dict_get]. by rewrite IH.
  - rewrite IH. rewrite decide_False; [reflexivity|].
    intros ->. apply Hk. congruence.
Qed.

Lemma keys_dict_del_filter (key : string) (d : list (string * AIModel)) :
  (dict_del key d).*1 = filter (fun k => k ≠ key) d.*1.
Proof.
  unfold dict_del. induction d as [|[k v] d IH]; [reflexivity|].
  cbn [fmap list_fmap fst]. rewrite !filter_cons. cbn [fst].
  case_decide; cbn [fmap list_fmap fst]; by rewrite <- IH.
Qed.

Lemma dict_get_clear_all (key : string) (d : list (string * AIModel)) :
  dict_get key (clear_all d) = with_is_active false <$> dict_get key d.
Proof.
  unfold clear_all. induction d as [|[k v] d IH]; [reflexivity|].
  cbn [map dict_get fst snd]. case_decide; [reflexivity | exact IH].
Qed.

Lemma actives_stored (key : string) (v : AIModel)
  (d : list (string * AIModel)) :
  dict_get key d = Some v → is_active v = true → (1 ≤ actives d)%nat.
Proof.
  induction d as [|[k m] d IH]; [discriminate|].
  cbn [dict_get]. rewrite filter_cons. cbn [snd].
  case_decide as Hk.
  - intros [= ->] Hactive. rewrite decide_True by exact Hactive. cbn. lia.
  - intros Hget Hactive. specialize (IH Hget Hactive).
    case_decide; cbn [length]; lia.
Qed.

(** For a stored id, [set_active_model] returns the outcome of the
    save, leaves the requested model as the only active one, makes
    [get_active_model] return it, and clears the flag of every other
    model without touching the rest of it. *)
Theorem set_active_model_selects (saved : bool) (model_id : string)
  (self : state) (m : AIModel) :
  well_keyed self →
  get_model model_id self = Some m →
  (set_active_model saved model_id self).2 = saved
  ∧ get_model model_id (set_active_model saved model_id self).1
    = Some (with_is_active true m)
  ∧ get_active_model (set_active_model saved model_id self).1
    = Some (with_is_active true m)
  ∧ active_count (set_active_model saved model_id self).1 = 1%nat
  ∧ ∀ other, other ≠ model_id →
      get_model other (set_active_model saved model_id self).1
      = with_is_active false <$> get_model other self.
Proof.
  unfold well_keyed, get_model, get_active_model, active_count,
    set_active_model.
  intros Hkeys Hget. rewrite (has_key_Some _ _ _ Hget). cbn [negb].
  rewrite dict_get_clear_all, Hget. cbn [fmap option_fmap option_map].
  cbn [fst snd models active_model].
  change (with_is_active true (with_is_active false m))
    with (with_is_active true m).
  assert (is_active (with_is_active true m) = true) as Hselected
    by reflexivity.
  revert Hselected. generalize (with_is_active true m) as selected.
  intros selected Hselected.
  split; [reflexivity|]. split; [apply dict_get_dict_set_same|].
  split; [reflexivity|]. split.
  - assert (NoDup (clear_all (models self)).*1) as Hkeys'
      by (by rewrite keys_clear_all).
    pose proof (actives_dict_set model_id selected _ Hkeys') as Hle.
    rewrite actives_clear_all, Hselected in Hle.
    pose proof (actives_stored model_id selected
                  (dict_set model_id selected (clear_all (models self)))
                  (dict_get_dict_set_same _ _ _) Hselected) as Hge.
    lia.
  - intros other Hne. rewrite dict_get_dict_set_ne by congruence.
    apply dict_get_clear_all.
Qed.

(** Adding a model under an id that is not stored returns the
    outcome of the save and stores the model whether or not the save
    succeeded: [get_model] finds it (flagged active when the registry was
    empty), it comes last in [get_all_models], and every other id reads as
    before. *)
Theorem add_model_then_get (saved : bool) (model : AIModel) (self : state) :
  get_model (id model) self = None →
  (add_model saved model self).2 = saved
  ∧ get_model (id model) (add_model saved model self).1
    = Some (if bool_decide (models self = [])
            then with_is_active true model else model)
  ∧ get_all_models (add_model saved model self).1
    = (get_all_models self
       ++ [if bool_decide (models self = [])
           then with_is_active true model else model])%list
  ∧ ∀ other, other ≠ id model →
      get_model other (add_model saved model self).1 = get_model other self.
Proof.
  unfold get_model, get_all_models, add_model. intros Hget.
  pose proof Hget as Hhas. apply has_key_dict_get in Hhas. rewrite Hhas.
  assert (id (if bool_decide (models self = [])
              then with_is_active true model else model) = id model) as Hid
    by (by case_bool_decide).
  cbn [fst snd models]. rewrite Hid.
  split; [reflexivity|]. split; [apply dict_get_dict_set_same|]. split.
  - unfold dict_set. rewrite Hhas. by rewrite fmap_app.
  - intros other Hne. apply dict_get_dict_set_ne. congruence.
Qed.

Lemma delete_model_shape (saved : bool) (model_id : string) (self : state)
  (m : AIModel) :
  dict_get model_id (models self) = Some m →
  ∃ d' a,
    delete_model saved model_id self
    = (mkState (dict_del model_id d') a, saved)
    ∧ d'.*1 = (models self).*1
    ∧ (is_active m = false → d' = models self ∧ a = active_model self).
Proof.
  intros Hget. unfold delete_model. rewrite Hget.
  destruct (is_active m) eqn:Hactive;
    [|by exists (models self), (active_model self)].
  destruct (models self) as [|[first_model_id first_model] [|kv d]] eqn:Hd.
  - by exists [], None.
  - by exists [(first_model_id, first_model)], None.
  - destruct (decide (first_model_id ≠ model_id)).
    + exists (dict_set first_model_id (with_is_active true first_model)
                ((first_model_id, first_model) :: kv :: d)),
             (Some (with_is_active true first_model)).
      split; [reflexivity|]. split; [|discriminate].
      unfold dict_set.
      rewrite (has_key_Some first_model_id first_model)
        by (cbn [dict_get]; by rewrite decide_True).
      apply keys_replace.
    + by exists ((first_model_id, first_model) :: kv :: d), None.
Qed.

(** Deleting a stored model returns the outcome of the save; the id
    is no longer found, the other ids stay in their order, and when the
    deleted model was not the active one no other model changes and
    [get_active_model] answers as before. *)
Theorem delete_model_forgets (saved : bool) (model_id : string)
  (self : state) (m : AIModel) :
  get_model model_id self = Some m →
  (delete_model saved model_id self).2 = saved
  ∧ get_model model_id (delete_model saved model_id self).1 = None
  ∧ (models (delete_model saved model_id self).1).*1
    = filter (fun k => k ≠ model_id) (models self).*1
  ∧ (is_active m = false →
     models (delete_model saved model_id self).1
     = dict_del model_id (models self)
     ∧ get_active_model (delete_model saved model_id self).1
       = get_active_model self).
Proof.
  unfold get_model, get_active_model. intros Hget.
  destruct (delete_model_shape saved model_id self m Hget)
    as (d' & a & -> & Hsame & Hinactive).
  cbn [fst snd models active_model].
  split; [reflexivity|]. split; [apply dict_get_dict_del_same|].
  split; [by rewrite keys_dict_del_filter, Hsame|].
  intros Hm. by destruct (Hinactive Hm) as [-> ->].
Qed.

(** Deleting the active model: when it is stored under the first key
    of the registry no model is active afterwards and [get_active_model]
    is [None], even when other models remain; otherwise the model under
    the first key becomes the active one. *)
Theorem delete_active_model_successor (saved : bool) (model_id : string)
  (self : state) (m : AIModel) (first_id : string) (first : AIModel)
  (rest : list (string * AIModel)) :
  well_keyed self → (active_count self ≤ 1)%nat →
  models self = (first_id, first) :: rest →
  get_model model_id self = Some m → is_active m = true →
  if decide (first_id = model_id)
  then active_count (delete_model saved model_id self).1 = 0%nat
       ∧ get_active_model (delete_model saved model_id self).1 = None
       ∧ (models (delete_model saved model_id self).1).*1 = rest.*1
  else get_model first_id (delete_model saved model_id self).1
       = Some (with_is_active true first)
       ∧ get_active_model (delete_model saved model_id self).1
         = Some (with_is_active true first)
       ∧ active_count (delete_model saved model_id self).1 = 1%nat.
Proof.
  intros Hkeys Hcount Hmodels Hget Hactive.
  pose proof (delete_model_keeps saved model_id self Hkeys Hcount)
    as [_ Hle].
  revert Hle. unfold well_keyed, get_model, get_active_model, active_count,
    delete_model in *.
  rewrite Hget, Hactive, Hmodels in *.
  destruct (decide (first_id = model_id)) as [->|Hne].
  - assert (∀ a, (actives (models (mkState
                    (dict_del model_id ((model_id, first) :: rest)) a,
                    saved).1) = 0%nat)
                 ∧ (models (mkState
                      (dict_del model_id ((model_id, first) :: rest)) a,
                      saved).1).*1 = rest.*1) as Hgone.
    { intros a. cbn [fst models]. split.
      - pose proof (actives_dict_del_active model_id m _ Hget Hactive). lia.
      - rewrite keys_dict_del_filter. cbn [fmap list_fmap fst].
        rewrite filter_cons, decide_False by (intros H; by apply H).
        apply NoDup_cons in Hkeys as [Hnotin _].
        clear -Hnotin. induction rest as [|[k v] rest IH]; [reflexivity|].
        cbn [fmap list_fmap fst] in *. apply not_elem_of_cons in Hnotin as [? ?].
        rewrite filter_cons, decide_True by congruence. by rewrite IH. }
    destruct rest as [|kv d].
    + intros _. destruct (Hgone None) as [H0 Hk]. by split; [|split].
    + rewrite decide_False by (intros H; by apply H).
      intros _. destruct (Hgone None) as [H0 Hk]. by split; [|split].
  - destruct rest as [|kv d].
    { cbn [dict_get] in Hget. rewrite decide_False in Hget by exact Hne.
      discriminate. }
    rewrite decide_True by exact Hne. cbn [fst models active_model].
    intros Hle.
    assert (dict_get first_id
              (dict_del model_id
                 (dict_set first_id (with_is_active true first)
                    ((first_id, first) :: kv :: d)))
            = Some (with_is_active true first)) as Hfirst.
    { rewrite dict_get_dict_del_other by congruence.
      apply dict_get_dict_set_same. }
    split; [exact Hfirst|]. split; [reflexivity|].
    pose proof (actives_stored _ _ _ Hfirst eq_refl). lia.
Qed.

(** Replacing the active model by a version flagged inactive leaves
    no stored model active, while [get_active_model] keeps answering as
    before the call (with the replaced model). *)
Theorem update_model_inactive_over_active (saved : bool)
  (model_id : string) (updated_model : AIModel) (self : state)
  (a : AIModel) :
  well_keyed self → (active_count self ≤ 1)%nat →
  get_model model_id self = Some a → is_active a = true →
  is_active updated_model = false →
  get_model model_id (update_model saved model_id updated_model self).1
  = Some (with_id model_id updated_model)
  ∧ active_count (update_model saved model_id updated_model self).1 = 0%nat
  ∧ get_active_model (update_model saved model_id updated_model self).1
    = get_active_model self.
Proof.
  unfold well_keyed, get_model, get_active_model, active_count, update_model.
  intros Hkeys Hcount Hget Hactive Hinactive.
  rewrite (has_key_Some _ _ _ Hget). cbn [negb].
  assert (is_active (with_id model_id updated_model) = false) as ->
    by exact Hinactive.
  cbn [fst models active_model].
  split; [apply dict_get_dict_set_same|]. split; [|reflexivity].
  pose proof (actives_dict_del_active model_id a _ Hget Hactive) as Hdel.
  assert (actives (dict_set model_id (with_id model_id updated_model)
                     (models self))
          = actives (dict_del model_id (models self))) as ->; [|lia].
  unfold dict_set, dict_del. rewrite (has_key_Some _ _ _ Hget).
  clear -Hinactive. induction (models self) as [|[k v] d IH]; [reflexivity|].
  cbn [map fst]. rewrite !filter_cons. cbn [fst snd].
  destruct (decide (k = model_id)) as [->|Hk].
  - repeat case_decide; cbn [snd is_active with_id] in *;
      try congruence; exact IH.
  - rewrite (decide_True (P := k ≠ model_id)) by exact Hk.
    rewrite filter_cons. cbn [snd].
    case_decide; cbn [length]; by rewrite IH.
Qed.

(** The keys of the registry are the ids of the models stored under
    them. *)
Lemma keyed_replace (key : string) (v : AIModel)
  (d : list (string * AIModel)) :
  id v = key → Forall (fun kv => id kv.2 = kv.1) d →
  Forall (fun kv => id kv.2 = kv.1) (map (replace key v) d).
Proof.
  intros Hid Hd. induction Hd as [|kv d Hkv Hd IH]; [constructor|].
  cbn [map]. constructor; [case_decide; [exact Hid | exact Hkv] | exact IH].
Qed.

Lemma keyed_dict_set (key : string) (v : AIModel)
  (d : list (string * AIModel)) :
  id v = key → Forall (fun kv => id kv.2 = kv.1) d →
  Forall (fun kv => id kv.2 = kv.1) (dict_set key v d).
Proof.
  intros Hid Hd. unfold dict_set. destruct (has_key key d).
  - by apply keyed_replace.
  - apply Forall_app. split; [exact Hd|]. by repeat constructor.
Qed.

Lemma keyed_clear_all (d : list (string * AIModel)) :
  Forall (fun kv => id kv.2 = kv.1) d →
  Forall (fun kv => id kv.2 = kv.1) (clear_all d).
Proof.
  intros Hd. unfold clear_all.
  induction Hd as [|kv d Hkv Hd IH]; [constructor|].
  cbn [map]. by constructor.
Qed.

Lemma keyed_dict_del (key : string) (d : list (string * AIModel)) :
  Forall (fun kv => id kv.2 = kv.1) d →
  Forall (fun kv => id kv.2 = kv.1) (dict_del key d).
Proof.
  intros Hd. unfold dict_del.
  eapply Forall_of_sublist; [apply sublist_filter | exact Hd].
Qed.

Lemma keyed_stored (key : string) (v : AIModel)
  (d : list (string * AIModel)) :
  Forall (fun kv => id kv.2 = kv.1) d → dict_get key d = Some v → id v = key.
Proof.
  intros Hd. induction Hd as [|[k m] d Hkv Hd IH]; [discriminate|].
  cbn [dict_get]. case_decide as Hk; [|exact IH].
  intros [= <-]. cbn in Hkv. congruence.
Qed.

Lemma step_keeps_keys (saved : bool) (c : call) (self : state) :
  well_keyed self → keys_are_ids self →
  well_keyed (step saved c self) ∧ keys_are_ids (step saved c self).
Proof.
  unfold well_keyed, keys_are_ids. intros Hkeys Hids.
  destruct c as [model|model_id updated_model|model_id|model_id];
    cbn [step].
  - unfold add_model. destruct (has_key (id model) (models self));
      [by split|].
    cbn [fst models]. split; [by apply keys_dict_set|].
    apply keyed_dict_set; [reflexivity | exact Hids].
  - unfold update_model. destruct (has_key model_id (models self));
      cbn [negb]; [|by split].
    destruct (is_active (with_id model_id updated_model));
      cbn [fst models].
    + split; [apply keys_dict_set; by rewrite keys_clear_all|].
      apply keyed_dict_set; [reflexivity | by apply keyed_clear_all].
    + split; [by apply keys_dict_set|].
      apply keyed_dict_set; [reflexivity | exact Hids].
  - unfold delete_model.
    destruct (dict_get model_id (models self)) as [model|]; [|by split].
    destruct (is_active model);
      [|cbn [fst models]; split;
        [by apply keys_dict_del | by apply keyed_dict_del]].
    destruct (models self) as [|[first_model_id first_model] [|kv d]] eqn:Hd;
      try (cbn [fst models]; split;
           [by apply keys_dict_del | by apply keyed_dict_del]).
    destruct (decide (first_model_id ≠ model_id));
      cbn [fst models];
      [|split; [by apply keys_dict_del | by apply keyed_dict_del]].
    split; [by apply keys_dict_del, keys_dict_set|].
    apply keyed_dict_del, keyed_dict_set; [|exact Hids].
    apply Forall_cons in Hids as [Hfirst _]. exact Hfirst.
  - unfold set_active_model. destruct (has_key model_id (models self));
      cbn [negb]; [|by split].
    destruct (dict_get model_id (clear_all (models self)))
      as [selected|] eqn:Hget; [|by split].
    cbn [fst models].
    split; [apply keys_dict_set; by rewrite keys_clear_all|].
    apply keyed_dict_set; [|by apply keyed_clear_all].
    cbn [id with_is_active].
    eapply keyed_stored; [|exact Hget]. by apply keyed_clear_all.
Qed.

(** Whatever calls are made, and whether or not they are handed
    active models, the registry stays a well-formed dict of models: its
    keys are distinct and each model is stored under its own id. *)
Theorem registry_keys_are_ids (calls : list (bool * call)) (self : state) :
  well_keyed self → keys_are_ids self →
  well_keyed (run calls self) ∧ keys_are_ids (run calls self).
Proof.
  unfold run. revert self.
  induction calls as [|[saved c] calls IH]; intros self Hkeys Hids.
  - by split.
  - cbn [foldl fst snd].
    destruct (step_keeps_keys saved c self Hkeys Hids) as [Hk Hi].
    by apply IH.
Qed.

End RegistryQueries.

Section RegistryLoading.
Import ModelManager.
Variable default_api_key : string.

Abbreviation actives d :=
  (length (filter (fun kv : string * AIModel => is_active kv.2 = true) d)).

Abbreviation keyed d :=
  (Forall (fun kv : string * AIModel => id kv.2 = kv.1) d).

Lemma keys_clear_others (model_id : string) (d : list (string * AIModel)) :
  (clear_others model_id d).*1 = d.*1.
Proof.
  unfold clear_others. induction d as [|kv d IH]; [reflexivity|].
  cbn [map fmap list_fmap]. case_decide; cbn [fst]; f_equal; exact IH.
Qed.

Lemma keyed_clear_others (model_id : string) (d : list (string * AIModel)) :
  keyed d → keyed (clear_others model_id d).
Proof.
  intros Hd. unfold clear_others.
  induction Hd as [|kv d Hkv Hd IH]; [constructor|].
  cbn [map]. constructor; [by case_decide | exact IH].
Qed.

Lemma actives_clear_others_absent (model_id : string)
  (d : list (string * AIModel)) :
  keyed d → model_id ∉ d.*1 → actives (clear_others model_id d) = 0%nat.
Proof.
  intros Hd. unfold clear_others.
  induction Hd as [|[k m] d Hkv Hd IH]; [reflexivity|].
  cbn [fmap list_fmap fst snd] in *. intros Hnotin.
  apply not_elem_of_cons in Hnotin as [Hne Hnotin].
  cbn [map snd]. rewrite decide_True by congruence.
  rewrite filter_cons_False by (cbn; discriminate). by apply IH.
Qed.

Lemma actives_clear_others (model_id : string) (v : AIModel)
  (d : list (string * AIModel)) :
  NoDup d.*1 → keyed d →
  dict_get model_id d = Some v → is_active v = true →
  actives (clear_others model_id d) = 1%nat.
Proof.
  intros Hnodup Hd. revert Hnodup.
  induction Hd as [|[k m] d Hkv Hd IH]; [discriminate|].
  cbn [fmap list_fmap fst snd dict_get] in *. intros Hnodup.
  apply NoDup_cons in Hnodup as [Hnotin Hnodup].
  unfold clear_others. cbn [map snd]. case_decide as Hk.
  - subst k. intros [= ->] Hactive.
    rewrite decide_False by (intros H; congruence).
    rewrite filter_cons_True by exact Hactive. cbn [length].
    f_equal. apply actives_clear_others_absent; [exact Hd|].
    by rewrite <- Hk.
  - intros Hget Hactive. rewrite decide_True by congruence.
    rewrite filter_cons_False by (cbn; discriminate). by apply IH.
Qed.

Lemma keys_dict_set_elem (key k : string) (v : AIModel)
  (d : list (string * AIModel)) :
  k ∈ (dict_set key v d).*1 ↔ k = key ∨ k ∈ d.*1.
Proof.
  unfold dict_set, has_key. case_bool_decide as Hin.
  - rewrite keys_replace. split; [tauto | intros [->|?]; tauto].
  - rewrite fmap_app, elem_of_app. cbn [fmap list_fmap fst].
    rewrite list_elem_of_singleton. tauto.
Qed.

Lemma actives_app_one (v : AIModel) (key : string)
  (d : list (string * AIModel)) :
  actives (d ++ [(key, v)])%list
  = (actives d + (if is_active v then 1 else 0))%nat.
Proof.
  rewrite filter_app, length_app, filter_cons, filter_nil. cbn [snd].
  case_decide as Hv; [rewrite Hv | destruct (is_active v)];
    cbn [length]; congruence.
Qed.

(** What the loading loop keeps: distinct keys, each model under its own
    id, at most one model active. *)
Lemma load_entries_keeps (ms : list AIModel) (self : state) :
  well_keyed self → keys_are_ids self → (active_count self ≤ 1)%nat →
  (load_entries (Some <$> ms) self).2 = true
  ∧ well_keyed (load_entries (Some <$> ms) self).1
  ∧ keys_are_ids (load_entries (Some <$> ms) self).1
  ∧ (active_count (load_entries (Some <$> ms) self).1 ≤ 1)%nat.
Proof.
  unfold well_keyed, keys_are_ids, active_count. revert self.
  induction ms as [|m ms IH]; intros self Hkeys Hids Hcount; [done|].
  cbn [fmap list_fmap load_entries].
  pose proof (keys_dict_set (id m) m _ Hkeys) as Hkeys'.
  pose proof (keyed_dict_set (id m) m _ eq_refl Hids) as Hids'.
  destruct (is_active m) eqn:Hactive; apply IH; cbn [models].
  - by rewrite keys_clear_others.
  - by apply keyed_clear_others.
  - erewrite actives_clear_others;
      [lia | exact Hkeys' | exact Hids' | apply dict_get_dict_set_same
      | exact Hactive].
  - exact Hkeys'.
  - exact Hids'.
  - pose proof (actives_dict_set (id m) m _ Hkeys) as Hle.
    rewrite Hactive in Hle. lia.
Qed.

Lemma load_entries_active_model (ms : list AIModel) (self : state) :
  active_model (load_entries (Some <$> ms) self).1
  = match last (filter (fun m => is_active m = true) ms) with
    | Some m => Some m
    | None => active_model self
    end.
Proof.
  revert self. induction ms as [|m ms IH]; intros self; [reflexivity|].
  cbn [fmap list_fmap load_entries]. rewrite IH, filter_cons.
  destruct (is_active m) eqn:Hactive.
  - rewrite decide_True by reflexivity. rewrite last_cons.
    by destruct (last _).
  - rewrite decide_False by discriminate. reflexivity.
Qed.

Lemma load_entries_keys (ms : list AIModel) (self : state) (k : string) :
  k ∈ (models (load_entries (Some <$> ms) self).1).*1
  ↔ k ∈ (models self).*1 ∨ k ∈ id <$> ms.
Proof.
  revert self. induction ms as [|m ms IH]; intros self.
  - cbn. rewrite elem_of_nil. tauto.
  - cbn [fmap list_fmap load_entries]. rewrite IH, elem_of_cons.
    destruct (is_active m); cbn [models];
      rewrite ?keys_clear_others, keys_dict_set_elem; tauto.
Qed.

(** A configuration file whose entries are all accepted yields a
    well-formed registry with at most one active model, whatever flags
    the file holds; it holds exactly the ids of the file, and
    [get_active_model] is the last entry of the file flagged active
    ([None] when there is none). *)
Theorem load_models_well_formed (ms : list AIModel) (self : state) :
  well_keyed (load_models default_api_key (Entries (Some <$> ms)) self)
  ∧ keys_are_ids (load_models default_api_key (Entries (Some <$> ms)) self)
  ∧ (active_count
       (load_models default_api_key (Entries (Some <$> ms)) self) ≤ 1)%nat
  ∧ get_active_model
      (load_models default_api_key (Entries (Some <$> ms)) self)
    = last (filter (fun m => is_active m = true) ms)
  ∧ ∀ k, is_Some (get_model k
                    (load_models default_api_key
                       (Entries (Some <$> ms)) self))
         ↔ k ∈ id <$> ms.
Proof.
  unfold load_models, get_active_model, get_model.
  pose proof (load_entries_keeps ms (mkState [] None)) as Hkeeps.
  pose proof (load_entries_active_model ms (mkState [] None)) as Hactive.
  pose proof (load_entries_keys ms (mkState [] None)) as Hstored.
  destruct (load_entries (Some <$> ms) (mkState [] None)) as [loaded ok].
  cbn [fst snd] in *.
  destruct Hkeeps as (-> & Hkeys & Hids & Hcount).
  - unfold well_keyed. cbn. constructor.
  - unfold keys_are_ids. cbn. constructor.
  - unfold active_count. cbn. lia.
  - split; [exact Hkeys|]. split; [exact Hids|]. split; [exact Hcount|].
    split.
    + rewrite Hactive. cbn [active_model]. by destruct (last _).
    + intros k. rewrite <- not_eq_None_Some, dict_get_None, Hstored.
      cbn [models fmap list_fmap]. rewrite elem_of_nil.
      destruct (decide (k ∈ id <$> ms)); tauto.
Qed.

Lemma load_entries_malformed (pre : list AIModel)
  (post : list (option AIModel)) (self : state) :
  load_entries ((Some <$> pre) ++ None :: post)%list self
  = ((load_entries (Some <$> pre) self).1, false).
Proof.
  revert self. induction pre as [|m pre IH]; intros self; [reflexivity|].
  cbn [fmap list_fmap app load_entries]. apply IH.
Qed.

Lemma load_entries_one_active (pre : list AIModel) (self : state) :
  well_keyed self → keys_are_ids self →
  NoDup (id <$> pre) →
  (∀ k, k ∈ id <$> pre → k ∉ (models self).*1) →
  active_count self = 1%nat ∨ Exists (fun m => is_active m = true) pre →
  active_count (load_entries (Some <$> pre) self).1 = 1%nat.
Proof.
  unfold well_keyed, keys_are_ids, active_count. revert self.
  induction pre as [|m pre IH]; intros self Hkeys Hids Hnodup Hfresh Hsome.
  - destruct Hsome as [Hone|Hex]; [exact Hone | by apply Exists_nil in Hex].
  - cbn [fmap list_fmap] in Hnodup, Hfresh.
    apply NoDup_cons in Hnodup as [Hm Hnodup].
    cbn [fmap list_fmap load_entries].
    pose proof (keys_dict_set (id m) m _ Hkeys) as Hkeys'.
    pose proof (keyed_dict_set (id m) m _ eq_refl Hids) as Hids'.
    assert (∀ k, k ∈ id <$> pre → k ∉ (dict_set (id m) m (models self)).*1)
      as Hfresh'.
    { intros k Hk. rewrite keys_dict_set_elem. intros [->|Hin]; [done|].
      eapply Hfresh; [|exact Hin]. by apply elem_of_cons; right. }
    destruct (is_active m) eqn:Hactive; apply IH; cbn [models];
      try (by rewrite ?keys_clear_others);
      try (by apply keyed_clear_others); try done.
    + left. eapply actives_clear_others;
        [exact Hkeys' | exact Hids' | apply dict_get_dict_set_same
        | exact Hactive].
    + unfold dict_set, has_key.
      rewrite bool_decide_eq_false_2
        by (apply Hfresh; apply elem_of_cons; by left).
      rewrite actives_app_one, Hactive, Nat.add_0_r.
      destruct Hsome as [Hone|Hex]; [by left | right].
      apply Exists_cons in Hex as [Hex|Hex]; [congruence | exact Hex].
Qed.

(** An entry the [AIModel] constructor rejects, met after an entry flagged
    active, leaves two active models: the one loaded before it and the
    default model that the error handler adds on top. *)
Theorem load_models_malformed_entry (pre : list AIModel)
  (post : list (option AIModel)) (self : state) :
  NoDup (id <$> pre) →
  "siliconflow-default" ∉ id <$> pre →
  Exists (fun m => is_active m = true) pre →
  active_count
    (load_models default_api_key
       (Entries ((Some <$> pre) ++ None :: post)%list) self) = 2%nat
  ∧ get_active_model
      (load_models default_api_key
         (Entries ((Some <$> pre) ++ None :: post)%list) self)
    = Some (default_model default_api_key).
Proof.
  intros Hnodup Hdefault Hex. unfold load_models, get_active_model.
  rewrite load_entries_malformed. cbn [fst snd].
  pose proof (load_entries_one_active pre (mkState [] None)) as Hone.
  pose proof (load_entries_keys pre (mkState [] None)
                "siliconflow-default") as Hstored.
  cbn [models fmap list_fmap] in Hstored. rewrite elem_of_nil in Hstored.
  unfold create_default_config, active_count in *.
  cbn [models active_model]. split; [|reflexivity].
  unfold dict_set, has_key. cbn [id default_model].
  rewrite bool_decide_eq_false_2 by tauto.
  rewrite actives_app_one. cbn [is_active default_model].
  rewrite Hone; [reflexivity | | | exact Hnodup | | by right].
  - unfold well_keyed. cbn. constructor.
  - unfold keys_are_ids. cbn. constructor.
  - intros k _. cbn. apply not_elem_of_nil.
Qed.

End RegistryLoading.

Lemma set_active_model_selects_witness :
  ModelManager.active_count
    (ModelManager.set_active_model false "c" registry_of_three).1 = 1%nat
  ∧ ModelManager.get_active_model
      (ModelManager.set_active_model false "c" registry_of_three).1
    = Some (sample_model "c" true).
Proof.
  assert (well_keyed registry_of_three) as Hkeys by by_evaluation.
  destruct (set_active_model_selects false "c" registry_of_three
              (sample_model "c" false) Hkeys eq_refl)
    as (_ & _ & Hactive & Hcount & _).
  split; [exact Hcount | exact Hactive].
Defined.

Lemma add_model_then_get_witness :
  ModelManager.get_model "d"
    (ModelManager.add_model false (sample_model "d" true) registry_of_three).1
  = Some (sample_model "d" true).
Proof.
  destruct (add_model_then_get false (sample_model "d" true)
              registry_of_three eq_refl) as (_ & Hget & _).
  exact Hget.
Defined.

Lemma delete_model_forgets_witness :
  ModelManager.get_model "c"
    (ModelManager.delete_model true "c" registry_of_three).1 = None
  ∧ (ModelManager.models
       (ModelManager.delete_model true "c" registry_of_three).1).*1
    = ["a"; "b"].
Proof.
  destruct (delete_model_forgets true "c" registry_of_three
              (sample_model "c" false) eq_refl) as (_ & Hget & Hkeys & _).
  split; [exact Hget | exact Hkeys].
Defined.

Lemma delete_active_model_successor_witness :
  ModelManager.get_active_model
    (ModelManager.delete_model true "b" registry_of_three).1
  = Some (sample_model "a" true)
  ∧ ModelManager.active_count
      (ModelManager.delete_model true "a"
         (ModelManager.set_active_model true "a" registry_of_three).1).1
    = 0%nat.
Proof.
  assert (well_keyed registry_of_three) as Hkeys by by_evaluation.
  assert (ModelManager.active_count registry_of_three ≤ 1)%nat as Hcount
    by (vm_compute; lia).
  pose proof (delete_active_model_successor true "b" registry_of_three
                (sample_model "b" true) "a" (sample_model "a" false)
                _ Hkeys Hcount eq_refl eq_refl eq_refl) as Hb.
  assert (well_keyed
            (ModelManager.set_active_model true "a" registry_of_three).1)
    as Hkeys' by by_evaluation.
  assert (ModelManager.active_count
            (ModelManager.set_active_model true "a" registry_of_three).1
          ≤ 1)%nat as Hcount' by (vm_compute; lia).
  pose proof (delete_active_model_successor true "a"
                (ModelManager.set_active_model true "a" registry_of_three).1
                (sample_model "a" true) "a" (sample_model "a" true)
                _ Hkeys' Hcount' eq_refl eq_refl eq_refl) as Ha.
  rewrite decide_False in Hb by discriminate.
  rewrite decide_True in Ha by reflexivity.
  destruct Hb as (_ & Hb & _). destruct Ha as (Ha & _).
  split; [exact Hb | exact Ha].
Defined.

Lemma update_model_inactive_over_active_witness :
  ModelManager.active_count
    (ModelManager.update_model true "b" (sample_model "b" false)
       registry_of_three).1 = 0%nat
  ∧ ModelManager.get_active_model
      (ModelManager.update_model true "b" (sample_model "b" false)
         registry_of_three).1
    = Some (sample_model "b" true).
Proof.
  assert (well_keyed registry_of_three) as Hkeys by by_evaluation.
  assert (ModelManager.active_count registry_of_three ≤ 1)%nat as Hcount
    by (vm_compute; lia).
  destruct (update_model_inactive_over_active true "b"
              (sample_model "b" false) registry_of_three
              (sample_model "b" true) Hkeys Hcount eq_refl eq_refl eq_refl)
    as (_ & Hnone & Hactive).
  split; [exact Hnone | exact Hactive].
Defined.

Lemma registry_keys_are_ids_witness :
  keys_are_ids
    (ModelManager.run
       [ (true, ModelManager.AddModel (sample_model "d" true));
         (false, ModelManager.UpdateModel "a" (sample_model "z" true));
         (true, ModelManager.DeleteModel "b") ]
       registry_of_three).
Proof.
  assert (well_keyed registry_of_three) as Hkeys by by_evaluation.
  assert (keys_are_ids registry_of_three) as Hids
    by (repeat constructor).
  exact (proj2 (registry_keys_are_ids _ _ Hkeys Hids)).
Defined.

Lemma load_models_malformed_entry_witness :
  ModelManager.active_count
    (ModelManager.load_models "sk-0000"
       (ModelManager.Entries
          ((Some <$> sample_entries) ++ [None])%list)
       (ModelManager.mkState [] None)) = 2%nat.
Proof.
  refine (proj1 (load_models_malformed_entry "sk-0000" sample_entries []
                   (ModelManager.mkState [] None) _ _ _)).
  - by_evaluation.
  - by_evaluation.
  - apply Exists_cons. by left.
Defined.

(** ** The ranking fetchers: what a success is made of *)

Section Fetchers.
Context {C : Type} `{EqDecision C} (cell_str : C → string).

Lemma data_utils_probe_date (w : World C) (symbol : string)
  (e : exchange) (variety_code date : string)
  (df : DataFrame C) (data_date : string) :
  DataUtils.probe w symbol e variety_code date = Some (df, data_date) →
  data_date = date.
Proof.
  unfold DataUtils.probe.
  destruct (rank_api w e date variety_code) as [[[|[c first] rest]|]|];
    try discriminate.
  destruct (dict_get symbol rest); by intros [= _ <-].
Qed.

(** A successful probe of [data_utils.py] comes from a reply with at
    least one contract, and hands on the symbol's own frame, or the
    first frame of the reply when the symbol is not among its keys. *)
Lemma data_utils_probe_source (w : World C) (symbol : string)
  (e : exchange) (variety_code date : string)
  (found : DataFrame C * string) :
  replies_are_dicts w →
  DataUtils.probe w symbol e variety_code date = Some found →
  ∃ first_contract first_df rest,
    rank_api w e date variety_code
    = Returns (Some ((first_contract, first_df) :: rest))
    ∧ found
      = (default first_df
           (dict_get symbol ((first_contract, first_df) :: rest)), date).
Proof.
  intros Hdicts. unfold DataUtils.probe.
  destruct (rank_api w e date variety_code) as [[[|[c first] rest]|]|]
    eqn:Hreply; try discriminate.
  apply Hdicts in Hreply. cbn [fmap list_fmap fst] in Hreply.
  apply NoDup_cons in Hreply as [Hfirst _].
  intros Hfound. exists c, first, rest. split; [reflexivity|].
  cbn [dict_get]. case_decide as Hc.
  - subst c. apply dict_get_None in Hfirst. rewrite Hfirst in Hfound.
    by injection Hfound as <-.
  - destruct (dict_get symbol rest); by injection Hfound as <-.
Qed.

(** A successful probe of [dashboard_v6.py] hands on a frame with rows,
    columns and at least five rows, dated as asked. *)
Lemma dashboard_probe_usable (w : World C) (symbol : string)
  (e : exchange) (variety_code date : string)
  (df : DataFrame C) (data_date : string) :
  Dashboard.probe cell_str w symbol e variety_code date
  = Some (df, data_date) →
  data_date = date ∧ Dashboard.usable df = true.
Proof.
  unfold Dashboard.probe, Dashboard.usable.
  destruct (rank_api w e date variety_code) as [[[|kv rest]|]|];
    try discriminate.
  destruct (dict_get symbol _) as [own|].
  - destruct (negb (empty own)) eqn:Hne; [|discriminate].
    destruct (5 <=? len own)%nat eqn:Hlen; [|discriminate].
    destruct (Dashboard.date_field_found _ _ _ _) as [found|];
      [|discriminate].
    destruct (found || _); [|discriminate].
    intros [= <- <-]. by rewrite Hne, Hlen.
  - destruct (find _ _) as [contract|] eqn:Hfind; [|discriminate].
    apply find_some in Hfind as [_ Husable].
    destruct (dict_get contract _) as [other|]; [|discriminate].
    intros [= <- <-]. split; [reflexivity | exact Husable].
Qed.

Lemma data_utils_walk_found (w : World C) (symbol : string) (e : exchange)
  (variety_code : string) (offsets : list nat)
  (found : DataFrame C * string) (queried : list Calendar.datetime) :
  DataUtils.day_walk w symbol e variety_code offsets
  = (Ok (Some found), queried) →
  ∃ d, last queried = Some d
       ∧ DataUtils.probe w symbol e variety_code (Calendar.strftime_Ymd d)
         = Some found.
Proof.
  revert queried. induction offsets as [|k rest IH]; intros queried.
  - discriminate.
  - cbn [DataUtils.day_walk].
    destruct (Calendar.minus_days (now w) k) as [target|]; [|discriminate].
    destruct (Calendar.is_weekend target); [apply IH|].
    destruct (DataUtils.probe w symbol e variety_code _) as [found'|]
      eqn:Hprobe.
    + intros [= <- <-]. by exists target.
    + destruct (DataUtils.day_walk w symbol e variety_code rest)
        as [r q]. intros [= -> <-].
      destruct (IH q eq_refl) as (d & Hlast & Hd).
      exists d. split; [|exact Hd].
      rewrite last_cons, Hlast. reflexivity.
Qed.

Lemma dashboard_walk_found (w : World C) (symbol : string) (e : exchange)
  (variety_code : string) (offsets : list nat)
  (found : DataFrame C * string) (queried : list Calendar.datetime) :
  Dashboard.day_walk cell_str w symbol e variety_code offsets
  = (Ok (Some found), queried) →
  ∃ d, last queried = Some d
       ∧ Dashboard.probe cell_str w symbol e variety_code
           (Calendar.strftime_Ymd d) = Some found.
Proof.
  revert queried. induction offsets as [|k rest IH]; intros queried.
  - discriminate.
  - cbn [Dashboard.day_walk].
    destruct (Calendar.minus_days (now w) k) as [target|]; [|discriminate].
    destruct (Calendar.is_weekend target); [apply IH|].
    destruct (Dashboard.probe cell_str w symbol e variety_code _)
      as [found'|] eqn:Hprobe.
    + intros [= <- <-]. by exists target.
    + destruct (Dashboard.day_walk cell_str w symbol e variety_code rest)
        as [r q]. intros [= -> <-].
      destruct (IH q eq_refl) as (d & Hlast & Hd).
      exists d. split; [|exact Hd].
      rewrite last_cons, Hlast. reflexivity.
Qed.

(** What a triple without error message was computed from. *)
Lemma data_utils_success (w : World C) (symbol data_type : string)
  (df : DataFrame C) (date : option string) :
  DataUtils.get_holding_rank_data w symbol data_type = (df, date, None) →
  ∃ e rank_df data_date renamed,
    DataUtils.get_exchange_by_symbol symbol = Some e
    ∧ DataUtils.day_walk w symbol e (product_code symbol)
        DataUtils.day_offsets
      = (Ok (Some (rank_df, data_date)),
         DataUtils.queried_dates w symbol data_type)
    ∧ empty rank_df = false
    ∧ DataUtils.normalize data_type rank_df = Ok (inl renamed)
    ∧ df = head 20 renamed
    ∧ date = Some data_date.
Proof.
  unfold DataUtils.get_holding_rank_data, DataUtils.queried_dates,
    DataUtils.run.
  destruct (DataUtils.get_exchange_by_symbol symbol) as [e|];
    [|discriminate].
  destruct (DataUtils.day_walk _ _ _ _ _)
    as [[[[rank_df data_date]|]|] queried] eqn:Hwalk;
    cbn [fst snd mbind result_bind DataUtils.finish]; try discriminate.
  destruct (empty rank_df) eqn:Hempty; [discriminate|].
  destruct (DataUtils.normalize data_type rank_df) as [[renamed|msg]|]
    eqn:Hnorm; cbn [mbind result_bind]; try discriminate.
  intros [= <- <-]. by exists e, rank_df, data_date, renamed.
Qed.

Lemma dashboard_success (w : World C) (symbol data_type : string)
  (df : DataFrame C) (date : option string) :
  Dashboard.get_holding_rank_data cell_str w symbol data_type
  = (df, date, None) →
  ∃ rank_df data_date renamed,
    Dashboard.day_walk cell_str w symbol
      (Dashboard.get_exchange_by_symbol symbol) (product_code symbol)
      (Dashboard.day_offsets w)
    = (Ok (Some (rank_df, data_date)),
       Dashboard.queried_dates cell_str w symbol data_type)
    ∧ empty rank_df = false
    ∧ Dashboard.normalize data_type rank_df = Ok (inl renamed)
    ∧ df = head 20 renamed
    ∧ date = Some data_date.
Proof.
  unfold Dashboard.get_holding_rank_data, Dashboard.queried_dates,
    Dashboard.run.
  destruct (Dashboard.day_walk _ _ _ _ _ _)
    as [[[[rank_df data_date]|]|] queried] eqn:Hwalk;
    cbn [fst snd mbind result_bind Dashboard.finish]; try discriminate.
  destruct (empty rank_df) eqn:Hempty; [discriminate|].
  destruct (Dashboard.normalize data_type rank_df) as [[renamed|msg]|]
    eqn:Hnorm; cbn [mbind result_bind]; try discriminate.
  intros [= <- <-]. by exists rank_df, data_date, renamed.
Qed.

Lemma trace_ok_range (now : Calendar.datetime) (a : nat)
  (queried : list Calendar.datetime) :
  trace_ok now (py_range a max_days) queried →
  Forall (fun d => (Calendar.ordinal now - 29 ≤ Calendar.ordinal d
                    ≤ Calendar.ordinal now)%Z) queried.
Proof.
  intros [Hsub _].
  assert (Forall (fun z => (Calendar.ordinal now - 29 ≤ z
                            ≤ Calendar.ordinal now)%Z)
            (Calendar.ordinal <$> queried)) as H'.
  { eapply Forall_of_sublist; [exact Hsub|].
    apply Forall_fmap, Forall_forall. intros k Hk.
    apply elem_of_seq in Hk. unfold max_days in Hk. simpl. lia. }
  by apply Forall_fmap in H'.
Qed.

Lemma last_query_is_recent (now : Calendar.datetime) (a : nat)
  (queried : list Calendar.datetime) (d : Calendar.datetime) :
  trace_ok now (py_range a max_days) queried →
  last queried = Some d →
  weekday_only d
  ∧ (Calendar.ordinal now - 29 ≤ Calendar.ordinal d
     ≤ Calendar.ordinal now)%Z.
Proof.
  intros Htrace Hlast. apply last_Some_elem_of in Hlast.
  pose proof (trace_ok_range _ _ _ Htrace) as Hrange.
  destruct Htrace as [_ Hdays].
  rewrite Forall_forall in Hrange, Hdays. split; auto.
Qed.

(** In either file, the date returned with a table is the date of the
    last query the walk made: a weekday, not later than today and at most
    29 days back. *)
Theorem success_date_is_last_query (w : World C)
  (symbol data_type : string) :
  (∀ df date,
     DataUtils.get_holding_rank_data w symbol data_type = (df, date, None) →
     ∃ d, last (DataUtils.queried_dates w symbol data_type) = Some d
          ∧ date = Some (Calendar.strftime_Ymd d)
          ∧ weekday_only d
          ∧ (Calendar.ordinal (now w) - 29 ≤ Calendar.ordinal d
             ≤ Calendar.ordinal (now w))%Z)
  ∧ (∀ df date,
       Dashboard.get_holding_rank_data cell_str w symbol data_type
       = (df, date, None) →
       ∃ d, last (Dashboard.queried_dates cell_str w symbol data_type)
            = Some d
            ∧ date = Some (Calendar.strftime_Ymd d)
            ∧ weekday_only d
            ∧ (Calendar.ordinal (now w) - 29 ≤ Calendar.ordinal d
               ≤ Calendar.ordinal (now w))%Z).
Proof.
  split; intros df date Hsuccess.
  - destruct (data_utils_success _ _ _ _ _ Hsuccess)
      as (e & rank_df & data_date & renamed & _ & Hwalk & _ & _ & _ & ->).
    destruct (data_utils_walk_found _ _ _ _ _ _ _ Hwalk)
      as (d & Hlast & Hprobe).
    apply data_utils_probe_date in Hprobe as ->.
    exists d. split; [exact Hlast|]. split; [reflexivity|].
    eapply last_query_is_recent; [|exact Hlast].
    apply data_utils_queried_trace.
  - destruct (dashboard_success _ _ _ _ _ Hsuccess)
      as (rank_df & data_date & renamed & Hwalk & _ & _ & _ & ->).
    destruct (dashboard_walk_found _ _ _ _ _ _ _ Hwalk)
      as (d & Hlast & Hprobe).
    apply dashboard_probe_usable in Hprobe as [-> _].
    exists d. split; [exact Hlast|]. split; [reflexivity|].
    eapply last_query_is_recent; [|exact Hlast].
    apply (dashboard_queried_trace cell_str).
Qed.

(** Where the table of [data_utils.get_holding_rank_data] comes from:
    the reply to the last query held at least one contract, and the
    table is the first 20 rows of the symbol's frame in that reply, or,
    when the symbol is not among its keys, of the first frame of the
    reply, with the columns of the requested data type renamed. *)
Theorem data_utils_success_source (w : World C)
  (symbol data_type : string) (df : DataFrame C) (date : option string) :
  replies_are_dicts w →
  DataUtils.get_holding_rank_data w symbol data_type = (df, date, None) →
  ∃ e d first_contract first_df rest renamed,
    DataUtils.get_exchange_by_symbol symbol = Some e
    ∧ last (DataUtils.queried_dates w symbol data_type) = Some d
    ∧ rank_api w e (Calendar.strftime_Ymd d) (product_code symbol)
      = Returns (Some ((first_contract, first_df) :: rest))
    ∧ DataUtils.normalize data_type
        (default first_df
           (dict_get symbol ((first_contract, first_df) :: rest)))
      = Ok (inl renamed)
    ∧ df = head 20 renamed.
Proof.
  intros Hdicts Hsuccess.
  destruct (data_utils_success _ _ _ _ _ Hsuccess)
    as (e & rank_df & data_date & renamed
        & Hroute & Hwalk & _ & Hnorm & -> & _).
  destruct (data_utils_walk_found _ _ _ _ _ _ _ Hwalk)
    as (d & Hlast & Hprobe).
  apply data_utils_probe_source in Hprobe
    as (first_contract & first_df & rest & Hreply & [= -> _]);
    [|exact Hdicts].
  by exists e, d, first_contract, first_df, rest, renamed.
Qed.

(** A table returned by [dashboard_v6.get_holding_rank_data] has at
    least 5 and at most 20 rows: frames with fewer than five rows are
    passed over by the walk. *)
Theorem dashboard_success_row_count (w : World C)
  (symbol data_type : string) (df : DataFrame C) (date : option string) :
  Dashboard.get_holding_rank_data cell_str w symbol data_type
  = (df, date, None) →
  (5 ≤ len df ≤ 20)%nat.
Proof.
  intros Hsuccess.
  destruct (dashboard_success _ _ _ _ _ Hsuccess)
    as (rank_df & data_date & renamed & Hwalk & _ & Hnorm & -> & _).
  destruct (dashboard_walk_found _ _ _ _ _ _ _ Hwalk)
    as (d & _ & Hprobe).
  apply dashboard_probe_usable in Hprobe as [_ Husable].
  apply dashboard_normalize_ok in Hnorm as [_ Hidx].
  unfold Dashboard.usable in Husable.
  apply andb_true_iff in Husable as [_ Hlen]. apply Nat.leb_le in Hlen.
  unfold len, head in *. cbn [index_len]. lia.
Qed.

Lemma data_utils_walk_ext (w w' : World C) (symbol : string)
  (e : exchange) (variety_code : string) (offsets : list nat) :
  now w = now w' →
  (∀ date vars, rank_api w e date vars = rank_api w' e date vars) →
  DataUtils.day_walk w symbol e variety_code offsets
  = DataUtils.day_walk w' symbol e variety_code offsets.
Proof.
  intros Hnow Hapi. induction offsets as [|k rest IH]; [reflexivity|].
  cbn [DataUtils.day_walk]. unfold DataUtils.probe.
  rewrite <- Hnow, IH.
  destruct (Calendar.minus_days (now w) k); [|reflexivity].
  by rewrite Hapi.
Qed.

Lemma dashboard_walk_ext (w w' : World C) (symbol : string)
  (e : exchange) (variety_code : string) (offsets : list nat) :
  now w = now w' →
  (∀ date vars, rank_api w e date vars = rank_api w' e date vars) →
  Dashboard.day_walk cell_str w symbol e variety_code offsets
  = Dashboard.day_walk cell_str w' symbol e variety_code offsets.
Proof.
  intros Hnow Hapi. induction offsets as [|k rest IH]; [reflexivity|].
  cbn [Dashboard.day_walk]. unfold Dashboard.probe.
  rewrite <- Hnow, IH.
  destruct (Calendar.minus_days (now w) k); [|reflexivity].
  by rewrite Hapi.
Qed.

(** The endpoints each fetcher can read.  [data_utils.py] only ever
    calls the CZCE and the CFFEX endpoint, [dashboard_v6.py] only the
    SHFE and the DCE endpoint: two services that agree on those (and two
    clocks that agree) give the same triple and the same queries, for
    every symbol, whatever the other endpoints would answer. *)
Theorem fetchers_read_two_endpoints (w w' : World C)
  (symbol data_type : string) :
  now w = now w' →
  ((∀ date vars, rank_api w CZCE date vars = rank_api w' CZCE date vars) →
   (∀ date vars, rank_api w CFFEX date vars = rank_api w' CFFEX date vars) →
   DataUtils.get_holding_rank_data w symbol data_type
   = DataUtils.get_holding_rank_data w' symbol data_type
   ∧ DataUtils.queried_dates w symbol data_type
     = DataUtils.queried_dates w' symbol data_type)
  ∧ ((∀ date vars, rank_api w SHFE date vars = rank_api w' SHFE date vars) →
     (∀ date vars, rank_api w DCE date vars = rank_api w' DCE date vars) →
     Dashboard.get_holding_rank_data cell_str w symbol data_type
     = Dashboard.get_holding_rank_data cell_str w' symbol data_type
     ∧ Dashboard.queried_dates cell_str w symbol data_type
       = Dashboard.queried_dates cell_str w' symbol data_type).
Proof.
  intros Hnow. split; intros H1 H2.
  - assert (DataUtils.run w symbol data_type
            = DataUtils.run w' symbol data_type) as Hrun.
    { unfold DataUtils.run.
      pose proof (data_utils_routes_upper symbol) as Hroute.
      destruct (DataUtils.get_exchange_by_symbol symbol) as [e|];
        [|reflexivity].
      rewrite (data_utils_walk_ext w w'); [reflexivity | exact Hnow|].
      rewrite !elem_of_cons in Hroute.
      destruct Hroute as [?|[[= ->]|[[= ->]|Hnil]]];
        [discriminate | exact H1 | exact H2 | by apply elem_of_nil in Hnil]. }
    unfold DataUtils.get_holding_rank_data, DataUtils.queried_dates.
    by rewrite Hrun.
  - assert (Dashboard.run cell_str w symbol data_type
            = Dashboard.run cell_str w' symbol data_type) as Hrun.
    { unfold Dashboard.run, Dashboard.day_offsets.
      pose proof (dashboard_routes_lower symbol) as Hroute.
      rewrite <- Hnow.
      rewrite (dashboard_walk_ext w w'); [reflexivity | exact Hnow|].
      rewrite !elem_of_cons in Hroute.
      destruct Hroute as [->|[->|Hnil]];
        [exact H1 | exact H2 | by apply elem_of_nil in Hnil]. }
    unfold Dashboard.get_holding_rank_data, Dashboard.queried_dates.
    by rewrite Hrun.
Qed.


End Fetchers.

Lemma sample_replies_are_dicts : replies_are_dicts sample_world.
Proof.
  intros e date vars reply. cbn [rank_api sample_world].
  case_decide; intros [= <-]. apply NoDup_singleton.
Qed.

Lemma data_utils_success_source_witness :
  ∃ e d first_contract first_df rest renamed,
    DataUtils.get_exchange_by_symbol "TA2505" = Some e
    ∧ last (DataUtils.queried_dates sample_world "TA2505" "多单持仓") = Some d
    ∧ rank_api sample_world e (Calendar.strftime_Ymd d) (product_code "TA2505")
      = Returns (Some ((first_contract, first_df) :: rest))
    ∧ DataUtils.normalize "多单持仓"
        (default first_df
           (dict_get "TA2505" ((first_contract, first_df) :: rest)))
      = Ok (inl renamed)
    ∧ (DataUtils.get_holding_rank_data sample_world "TA2505" "多单持仓").1.1
      = head 20 renamed.
Proof.
  apply (data_utils_success_source sample_world "TA2505" "多单持仓"
           _ (Some "20261030") sample_replies_are_dicts).
  vm_compute. reflexivity.
Defined.

Lemma dashboard_success_row_count_witness :
  (5 ≤ len (Dashboard.get_holding_rank_data (fun c => c) sample_world
              "TA2505" "多单持仓").1.1 ≤ 20)%nat.
Proof.
  apply (dashboard_success_row_count (fun c => c) sample_world
           "TA2505" "多单持仓" _ (Some "20261030")).
  vm_compute. reflexivity.
Defined.

Lemma fetchers_read_two_endpoints_witness :
  DataUtils.get_holding_rank_data sample_world "TA2505" "多单持仓"
  = DataUtils.get_holding_rank_data sample_world_two_endpoints
      "TA2505" "多单持仓".
Proof.
  destruct (fetchers_read_two_endpoints (fun c => c) sample_world
              sample_world_two_endpoints "TA2505" "多单持仓" eq_refl)
    as [Hdu _].
  apply Hdu; intros date vars; reflexivity.
Defined.


Lemma success_date_is_last_query_witness :
  ∃ d,
    last (DataUtils.queried_dates sample_world "TA2505" "多单持仓") = Some d
    ∧ (DataUtils.get_holding_rank_data sample_world "TA2505" "多单持仓").1.2
      = Some (Calendar.strftime_Ymd d)
    ∧ weekday_only d.
Proof.
  destruct (success_date_is_last_query (fun c => c) sample_world
              "TA2505" "多单持仓") as [Hdate _].
  destruct (Hdate
              (DataUtils.get_holding_rank_data sample_world
                 "TA2505" "多单持仓").1.1
              (Some "20261030"))
    as (d & Hlast & Hd & Hweekday & _); [vm_compute; reflexivity|].
  exists d. split; [exact Hlast|]. split; [|exact Hweekday].
  rewrite <- Hd. vm_compute. reflexivity.
Defined.

(** ** The put/call ratio: the retry loop and the default values *)

(** The retry loop makes at most three attempts and keeps the first reply
    that is a frame with rows and columns; when there is none it goes on
    with the demonstration frame. *)
Lemma fetch_loop_attempts (ow : OptionWorld) (symbol commodity_name : string) :
  fetch_loop ow symbol commodity_name max_retries 0 None
  = Some (default (demo_frame symbol commodity_name)
            (first_usable ow commodity_name symbol)).
Proof.
  unfold first_usable, max_retries. cbn [omap list_omap fetch_loop].
  cbn [Nat.ltb Nat.leb andb none_or_empty].
  destruct (option_api ow commodity_name symbol 0) as [[df0|]|e0];
    cbn [usable_reply none_or_empty];
    [destruct (empty df0) eqn:H0; [|by rewrite ?H0, ?andb_false_r]| |];
    (destruct (option_api ow commodity_name symbol 1) as [[df1|]|e1];
     cbn [usable_reply none_or_empty]; rewrite ?H0; cbn [andb];
     [destruct (empty df1) eqn:H1; [|by rewrite ?H1, ?andb_false_r]| |];
     (destruct (option_api ow commodity_name symbol 2) as [[df2|]|e2];
      cbn [usable_reply none_or_empty]; rewrite ?H1, ?H0; cbn [andb];
      [destruct (empty df2) eqn:H2; [|by rewrite ?H2, ?andb_false_r]| |];
      reflexivity)).
Qed.

(** The frame [get_option_pcr] computes on, in either file: the first of
    at most three replies of the option service that is a non-empty frame,
    and the built-in demonstration frame when none of the three is. *)
Theorem fetch_option_df_outcome (ow : OptionWorld) (symbol : string) :
  let contract := after_last_dot (PyStr.lower symbol) in
  let commodity_name :=
    default "黄金期权" (commodity_map !! PyStr.take 2 contract) in
  fetch_option_df ow symbol
  = Some (default (demo_frame contract commodity_name)
            (first_usable ow commodity_name contract))
  ∧ ∃ df, fetch_option_df ow symbol = Some df ∧ empty df = false.
Proof.
  intros contract commodity_name. split; [apply fetch_loop_attempts|].
  unfold fetch_option_df. apply fetch_loop_not_empty; [lia | left].
  unfold max_retries. lia.
Qed.

Lemma open_interest_fallback_type (ow : OptionWorld) (symbol : string)
  (r : pcr_dict) :
  Dashboard.open_interest_fallback ow symbol = Ok (Some r) →
  type r = "open_interest".
Proof.
  unfold Dashboard.open_interest_fallback.
  destruct (minute_api ow _) as [[df|]|]; try discriminate.
  destruct (empty df); [discriminate|].
  destruct (set_columns df _) as [df'|]; [|discriminate].
  cbn [mbind result_bind]. destruct (existsb _ _); [|discriminate].
  destruct (find _ _) as [hold_col|]; [|discriminate].
  destruct (getitem_series df' hold_col) as [series|]; [|discriminate].
  cbn [mbind result_bind]. destruct (numeric series); [|discriminate].
  cbn [mbind result_bind]. by intros [= <-].
Qed.

(** When none of the three attempts yields a non-empty frame,
    [data_utils.get_option_pcr] answers, for every symbol, with the ratio
    1000/800 = 1.25 of the demonstration frame, typed "options"; the
    dashboard's [get_option_pcr] never answers with type "options" then. *)
Theorem option_service_down (ow : OptionWorld) (symbol : string) :
  (∀ name contract k, usable_reply (option_api ow name contract k) = None) →
  (∃ q, DataUtils.get_option_pcr ow symbol = mkPcr (FNum q) "options"
        ∧ (q == 5 / 4)%Q)
  ∧ type (Dashboard.get_option_pcr ow symbol) ∈ ["open_interest"; "default"].
Proof.
  intros Hdown.
  assert (∃ contract name,
            fetch_option_df ow symbol = Some (demo_frame contract name))
    as (contract & name & Hfetch).
  { eexists _, _. unfold fetch_option_df. rewrite fetch_loop_attempts.
    unfold first_usable. cbn [omap list_omap]. by rewrite !Hdown. }
  split.
  - exists (1000 # 800)%Q. split; [|reflexivity].
    unfold DataUtils.get_option_pcr. rewrite Hfetch.
    vm_compute. reflexivity.
  - unfold Dashboard.get_option_pcr. rewrite Hfetch.
    assert (quote_volumes (demo_frame contract name)
            = Raise (KeyError "看涨合约-买量")) as Hquote
      by (vm_compute; reflexivity).
    cbn [empty demo_frame index_len col_data length Nat.eqb orb].
    fold (demo_frame contract name). rewrite Hquote.
    cbn [mbind result_bind].
    destruct (Dashboard.open_interest_fallback ow _) as [[r|]|] eqn:Hoi.
    + apply open_interest_fallback_type in Hoi. rewrite Hoi. in_labels.
    + cbn [type]. in_labels.
    + cbn [type]. in_labels.
Qed.

Lemma option_service_down_witness :
  ∃ q, DataUtils.get_option_pcr silent_option_world "rb2605"
       = mkPcr (FNum q) "options" ∧ (q == 5 / 4)%Q.
Proof.
  refine (proj1 (option_service_down silent_option_world "rb2605" _)).
  intros name contract k. reflexivity.
Defined.

(** The defaults on a snapshot without volume differ between the two
    files: with a put volume of zero [data_utils.get_option_pcr] answers
    0, and with a call volume that is not positive the dashboard's
    [get_option_pcr] answers 1.0, both typed "options". *)
Theorem pcr_zero_volume_defaults (ow : OptionWorld) (symbol : string)
  (option_df : DataFrame ocell) (c p : fval) :
  fetch_option_df ow symbol = Some option_df →
  quote_volumes option_df = Ok (c, p) →
  (feq p (FNum 0) = true →
   DataUtils.get_option_pcr ow symbol = mkPcr (FNum 0) "options")
  ∧ (fgt c (FNum 0) = false →
     Dashboard.get_option_pcr ow symbol = mkPcr (FNum 1) "options").
Proof.
  intros Hfetch Hvolumes.
  assert (empty option_df = false) as Hne.
  { pose proof (fetch_loop_not_empty ow
                  (after_last_dot (PyStr.lower symbol))
                  (default "黄金期权"
                     (commodity_map
                        !! PyStr.take 2 (after_last_dot (PyStr.lower symbol))))
                  max_retries 0 None) as (df & Hdf & Hdf').
    - lia.
    - left. unfold max_retries. lia.
    - unfold fetch_option_df in Hfetch. rewrite Hfetch in Hdf.
      by injection Hdf as ->. }
  split; intros Hzero.
  - unfold DataUtils.get_option_pcr. rewrite Hfetch, Hne, Hvolumes.
    cbn [mbind result_bind]. by rewrite Hzero.
  - unfold Dashboard.get_option_pcr. rewrite Hfetch, Hne, Hvolumes.
    cbn [mbind result_bind]. by rewrite Hzero.
Qed.

Lemma pcr_zero_volume_defaults_witness :
  DataUtils.get_option_pcr quiet_option_world "ag2602"
  = mkPcr (FNum 0) "options"
  ∧ Dashboard.get_option_pcr quiet_option_world "ag2602"
    = mkPcr (FNum 1) "options".
Proof.
  destruct (pcr_zero_volume_defaults quiet_option_world "ag2602"
              quiet_quotes (FNum 0) (FNum 0)) as [Hdu Hdash].
  - vm_compute. reflexivity.
  - vm_compute. reflexivity.
  - split; [apply Hdu | apply Hdash]; reflexivity.
Defined.

(** ** Position size: the error case and the rounding *)

Lemma Qlt_bool_iff (x y : Q) : Qlt_bool x y = true ↔ (x < y)%Q.
Proof.
  unfold Qlt_bool. destruct (Qle_bool y x) eqn:H; cbn [negb].
  - apply Qle_bool_iff in H. split; [discriminate | lra].
  - split; [intros _ | reflexivity].
    destruct (Qlt_le_dec x y) as [Hlt|Hle]; [exact Hlt|].
    apply Qle_bool_iff in Hle. congruence.
Qed.





(** ** Indicator values: averages, the MACD columns, the ends of the RSI *)

Section IndicatorValues.
Import TechnicalCalculator.









(** *** The exponential averages of the MACD *)





(** *** The ends of the RSI scale *)

Lemma length_shift1 (xs : series) : length (shift1 xs) = length xs.
Proof.
  destruct xs as [|x xs]; [reflexivity|]. unfold shift1. cbn [length].
  rewrite removelast_firstn_len, length_take. cbn [length]. lia.
Qed.





Lemma Qsum_nil_zero : (Qsum [] == 0)%Q.
Proof. reflexivity. Qed.


End IndicatorValues.




(** ** How the calculators extend a frame

    A frame is followed through the calculators as its columns [cd] and
    the columns [extra] appended since; a label that is in neither is
    appended by an assignment. *)

Section FrameAlgebra.
Import TechnicalCalculator.

Implicit Types (n : nat) (cd extra : list (string * list fval)).
Implicit Types (l k : string) (v : list fval).

Lemma labelled_frame_app n cd extra l :
  labelled l (mkDataFrame n (cd ++ extra))
  = (labelled l (mkDataFrame n cd) ++ labelled l (mkDataFrame n extra))%list.
Proof. unfold labelled. cbn [col_data]. apply filter_app. Qed.

Lemma labelled_fresh n cd l : l ∉ cd.*1 → labelled l (mkDataFrame n cd) = [].
Proof. apply (labelled_absent (mkDataFrame n cd)). Qed.

Lemma labelled_one_other n k l v :
  k ≠ l → labelled l (mkDataFrame n [(k, v)]) = [].
Proof.
  intros Hne. unfold labelled. cbn [col_data].
  by rewrite filter_cons_False by (cbn; congruence).
Qed.

Lemma labelled_snoc_here n cd extra l v :
  l ∉ cd.*1 → l ∉ extra.*1 →
  labelled l (mkDataFrame n (cd ++ (extra ++ [(l, v)]))) = [(l, v)].
Proof.
  intros Hcd Hextra.
  rewrite (labelled_frame_app n cd), (labelled_frame_app n extra).
  rewrite !labelled_fresh by assumption.
  unfold labelled. cbn [col_data]. by rewrite filter_cons_True.
Qed.

Lemma labelled_snoc_other n cd extra k l v :
  k ≠ l →
  labelled l (mkDataFrame n (cd ++ (extra ++ [(k, v)])))
  = labelled l (mkDataFrame n (cd ++ extra)).
Proof.
  intros Hne.
  rewrite (labelled_frame_app n cd (extra ++ _)), (labelled_frame_app n extra),
    (labelled_frame_app n cd extra).
  by rewrite labelled_one_other, app_nil_r.
Qed.

Lemma getitem_snoc_here n cd extra l v :
  l ∉ cd.*1 → l ∉ extra.*1 →
  getitem_series (mkDataFrame n (cd ++ (extra ++ [(l, v)]))) l = Ok v.
Proof.
  intros Hcd Hextra. unfold getitem_series.
  by rewrite labelled_snoc_here.
Qed.

Lemma getitem_snoc_other n cd extra k l v :
  k ≠ l →
  getitem_series (mkDataFrame n (cd ++ (extra ++ [(k, v)]))) l
  = getitem_series (mkDataFrame n (cd ++ extra)) l.
Proof.
  intros Hne. unfold getitem_series. by rewrite labelled_snoc_other.
Qed.

Lemma getitem_base n cd extra l :
  l ∉ extra.*1 →
  getitem_series (mkDataFrame n (cd ++ extra)) l
  = getitem_series (mkDataFrame n cd) l.
Proof.
  intros Hextra. unfold getitem_series.
  by rewrite labelled_frame_app, (labelled_fresh n extra), app_nil_r.
Qed.

Lemma setitem_snoc n cd extra l v :
  l ∉ cd.*1 → l ∉ extra.*1 →
  setitem (mkDataFrame n (cd ++ extra)) l v
  = mkDataFrame n (cd ++ (extra ++ [(l, v)])).
Proof.
  intros Hcd Hextra. unfold setitem, has_column, columns.
  cbn [col_data index_len].
  rewrite bool_decide_eq_false_2; [by rewrite app_assoc|].
  rewrite fmap_app, not_elem_of_app. by split.
Qed.

Lemma has_column_snoc n cd extra l :
  l ∈ extra.*1 → has_column l (mkDataFrame n (cd ++ extra)) = true.
Proof.
  intros Hin. unfold has_column, columns. cbn [col_data].
  apply bool_decide_eq_true_2. rewrite fmap_app, elem_of_app. by right.
Qed.

Lemma filter_keep_all {A} (P : A → Prop) `{∀ x, Decision (P x)}
  (xs : list A) :
  Forall P xs → filter P xs = xs.
Proof.
  induction 1 as [|x xs Hx _ IH]; [reflexivity|].
  by rewrite filter_cons_True, IH.
Qed.

Lemma drop_columns_snoc n cd extra (labels : list string) :
  Forall (fun t => t ∈ extra.*1) labels →
  Forall (fun t => t ∉ cd.*1) labels →
  drop_columns (mkDataFrame n (cd ++ extra)) labels
  = Ok (mkDataFrame n (cd ++ filter (fun c => c.1 ∉ labels) extra)).
Proof.
  intros Hpresent Hfresh. unfold drop_columns.
  destruct (find _ labels) as [t|] eqn:Hfind.
  { exfalso. apply find_some in Hfind as [Ht Hmiss].
    apply list_elem_of_In in Ht.
    eapply Forall_forall in Hpresent; [|exact Ht].
    by rewrite has_column_snoc in Hmiss. }
  cbn [index_len col_data]. rewrite filter_app. do 3 f_equal.
  apply filter_keep_all, Forall_forall. intros c Hc Hin.
  eapply Forall_forall in Hfresh; [|exact Hin].
  apply Hfresh, list_elem_of_fmap. by exists c.
Qed.

Lemma rolling_Ok (window : Z) (agg : list Q → fval) (xs : series) :
  (0 ≤ window)%Z →
  rolling window agg xs = Ok (rolling_values window agg xs).
Proof.
  intros Hw. unfold rolling.
  destruct (window <? 0)%Z eqn:H; [apply Z.ltb_lt in H; lia | reflexivity].
Qed.

Lemma ewm_mean_Ok (span : Z) (xs : series) :
  (1 ≤ span)%Z →
  ewm_mean span xs = Ok (ewm_go (2 / (inject_Z span + 1)) FNaN 1 xs).
Proof.
  intros Hs. unfold ewm_mean.
  destruct (span <? 1)%Z eqn:H; [apply Z.ltb_lt in H; lia | reflexivity].
Qed.

(** Settles that a label is none of the labels of a list that ends in
    known entries, and that two labels differ. *)
Ltac fresh_label :=
  rewrite ?fmap_app, ?not_elem_of_app; cbn [fmap list_fmap fst];
  rewrite ?not_elem_of_cons;
  repeat split;
  first [ assumption
        | apply not_elem_of_nil
        | congruence
        | (intros Hsame; apply (inj (String.app _)) in Hsame; discriminate) ].

(** [calculate_ma] and [calculate_volume_ma] append one column. *)
Lemma calculate_ma_appends n cd extra (window : Z) (column : string)
  (name : option string) (prices : series) :
  getitem_series (mkDataFrame n (cd ++ extra)) column = Ok prices →
  (0 ≤ window)%Z →
  or_default name ("ma" +:+ pretty window) ∉ cd.*1 →
  or_default name ("ma" +:+ pretty window) ∉ extra.*1 →
  calculate_ma (mkDataFrame n (cd ++ extra)) window column name
  = Ok (mkDataFrame n
          (cd ++ (extra ++ [(or_default name ("ma" +:+ pretty window),
                             rolling_values window mean prices)]))).
Proof.
  intros Hread Hw Hcd Hextra. unfold calculate_ma.
  rewrite Hread. cbn [mbind result_bind].
  rewrite rolling_Ok by exact Hw. cbn [mbind result_bind].
  by rewrite setitem_snoc.
Qed.

Lemma calculate_volume_ma_appends n cd extra (window : Z) (column : string)
  (name : option string) (volumes : series) :
  getitem_series (mkDataFrame n (cd ++ extra)) column = Ok volumes →
  (0 ≤ window)%Z →
  or_default name ("vol_ma" +:+ pretty window) ∉ cd.*1 →
  or_default name ("vol_ma" +:+ pretty window) ∉ extra.*1 →
  calculate_volume_ma (mkDataFrame n (cd ++ extra)) window column name
  = Ok (mkDataFrame n
          (cd ++ (extra ++ [(or_default name ("vol_ma" +:+ pretty window),
                             rolling_values window mean volumes)]))).
Proof.
  intros Hread Hw Hcd Hextra. unfold calculate_volume_ma.
  rewrite Hread. cbn [mbind result_bind].
  rewrite rolling_Ok by exact Hw. cbn [mbind result_bind].
  by rewrite setitem_snoc.
Qed.

(** [calculate_rsi] appends one column. *)
Lemma calculate_rsi_appends n cd extra (window : Z) (column name : string)
  (prices : series) :
  getitem_series (mkDataFrame n (cd ++ extra)) column = Ok prices →
  (0 ≤ window)%Z →
  name ∉ cd.*1 → name ∉ extra.*1 →
  calculate_rsi (mkDataFrame n (cd ++ extra)) window column name
  = Ok (mkDataFrame n
          (cd ++ (extra
                  ++ [(name,
                       map rsi_of_rs
                         (zip_with fdiv
                            (rolling_values window mean (gains (diff prices)))
                            (rolling_values window mean
                               (losses (diff prices)))))]))).
Proof.
  intros Hread Hw Hcd Hextra. unfold calculate_rsi, rsi_series.
  rewrite Hread. cbn [mbind result_bind].
  rewrite !rolling_Ok by exact Hw. cbn [mbind result_bind].
  by rewrite setitem_snoc.
Qed.

(** [calculate_atr] appends one column: its temporary columns are gone
    when it returns. *)
Lemma calculate_atr_appends n cd extra (window : Z) (name : string)
  (high low close : series) :
  getitem_series (mkDataFrame n (cd ++ extra)) "high" = Ok high →
  getitem_series (mkDataFrame n (cd ++ extra)) "low" = Ok low →
  getitem_series (mkDataFrame n (cd ++ extra)) "close" = Ok close →
  (0 ≤ window)%Z →
  Forall (fun t => (t ∉ cd.*1) ∧ (t ∉ extra.*1)) (name :: TEMPORARY_COLUMNS) →
  name ∉ TEMPORARY_COLUMNS →
  calculate_atr (mkDataFrame n (cd ++ extra)) window name
  = Ok (mkDataFrame n
          (cd ++ (extra
                  ++ [(name,
                       rolling_values window mean
                         (true_range high low close))]))).
Proof.
  intros Hhigh Hlow Hclose Hw Hfresh Hname.
  unfold TEMPORARY_COLUMNS in *.
  rewrite !Forall_cons in Hfresh.
  destruct Hfresh as ([Hn Hn'] & [H1 H1'] & [H2 H2'] & [H3 H3']
                      & [H4 H4'] & _).
  rewrite !not_elem_of_cons in Hname.
  destruct Hname as (Hn1 & Hn2 & Hn3 & Hn4 & _).
  unfold calculate_atr.
  rewrite Hhigh, Hlow. cbn [mbind result_bind].
  rewrite setitem_snoc by assumption.
  rewrite !getitem_snoc_other by congruence.
  rewrite Hhigh, Hclose. cbn [mbind result_bind].
  rewrite setitem_snoc by fresh_label.
  rewrite !getitem_snoc_other by congruence.
  rewrite Hlow, Hclose. cbn [mbind result_bind].
  rewrite setitem_snoc by fresh_label.
  unfold getitem_list. cbn [select].
  rewrite !(labelled_snoc_other _ _ _ _ "tr1") by congruence.
  rewrite (labelled_snoc_here _ _ _ "tr1") by assumption.
  rewrite !(labelled_snoc_other _ _ _ _ "tr2") by congruence.
  rewrite (labelled_snoc_here _ _ _ "tr2") by fresh_label.
  rewrite (labelled_snoc_here _ _ _ "tr3") by fresh_label.
  cbn [mbind result_bind app].
  rewrite setitem_snoc by fresh_label.
  rewrite getitem_snoc_here by fresh_label. cbn [mbind result_bind].
  rewrite rolling_Ok by exact Hw. cbn [mbind result_bind].
  rewrite setitem_snoc by fresh_label.
  rewrite drop_columns_snoc.
  - do 3 f_equal. rewrite !filter_app.
    rewrite (filter_keep_all _ extra).
    2:{ apply Forall_forall. intros c Hc Hin.
        assert (c.1 ∈ extra.*1) as Hc'
          by (apply list_elem_of_fmap; by exists c).
        rewrite !elem_of_cons in Hin. rewrite elem_of_nil in Hin.
        destruct Hin as [Heq|[Heq|[Heq|[Heq|[]]]]]; congruence. }
    rewrite !filter_cons, filter_nil. cbn [fst].
    rewrite !(decide_False (P := _ ∉ _))
      by (intros Hout; apply Hout; rewrite !elem_of_cons; tauto).
    rewrite decide_True by fresh_label.
    by rewrite !app_nil_r.
  - repeat apply Forall_cons_2; try apply Forall_nil_2;
      rewrite !fmap_app; cbn [fmap list_fmap fst];
      rewrite !elem_of_app, !elem_of_cons; tauto.
  - repeat apply Forall_cons_2; try apply Forall_nil_2; assumption.
Qed.

(** [calculate_macd] appends its five columns. *)
Lemma calculate_macd_appends n cd extra
  (fast_period slow_period signal_period : Z) (column prefix : string)
  (prices : series) :
  getitem_series (mkDataFrame n (cd ++ extra)) column = Ok prices →
  (1 ≤ fast_period)%Z → (1 ≤ slow_period)%Z → (1 ≤ signal_period)%Z →
  prefix +:+ "_fast" ≠ column →
  Forall (fun t => (t ∉ cd.*1) ∧ (t ∉ extra.*1))
    [prefix +:+ "_fast"; prefix +:+ "_slow"; prefix +:+ "_line";
     prefix +:+ "_signal"; prefix +:+ "_hist"] →
  let fast := ewm_go (2 / (inject_Z fast_period + 1)) FNaN 1 prices in
  let slow := ewm_go (2 / (inject_Z slow_period + 1)) FNaN 1 prices in
  let line := zip_with fsub fast slow in
  let signal := ewm_go (2 / (inject_Z signal_period + 1)) FNaN 1 line in
  calculate_macd (mkDataFrame n (cd ++ extra))
    fast_period slow_period signal_period column prefix
  = Ok (mkDataFrame n
          (cd ++ (((((extra ++ [(prefix +:+ "_fast", fast)])
                     ++ [(prefix +:+ "_slow", slow)])
                    ++ [(prefix +:+ "_line", line)])
                   ++ [(prefix +:+ "_signal", signal)])
                  ++ [(prefix +:+ "_hist", zip_with fsub line signal)]))).
Proof.
  intros Hread Hfast Hslow Hsignal Hcolumn Hfresh fast slow line signal.
  rewrite !Forall_cons in Hfresh.
  destruct Hfresh as ([H1 H1'] & [H2 H2'] & [H3 H3'] & [H4 H4']
                      & [H5 H5'] & _).
  unfold calculate_macd.
  rewrite Hread. cbn [mbind result_bind].
  rewrite ewm_mean_Ok by exact Hfast. cbn [mbind result_bind].
  rewrite setitem_snoc by assumption.
  rewrite (getitem_snoc_other _ _ _ _ column) by exact Hcolumn.
  rewrite Hread. cbn [mbind result_bind].
  rewrite ewm_mean_Ok by exact Hslow. cbn [mbind result_bind].
  rewrite setitem_snoc by fresh_label.
  rewrite (getitem_snoc_other _ _ _ _ (prefix +:+ "_fast")) by fresh_label.
  rewrite (getitem_snoc_here _ _ _ (prefix +:+ "_fast")) by assumption.
  cbn [mbind result_bind].
  rewrite getitem_snoc_here by fresh_label. cbn [mbind result_bind].
  rewrite setitem_snoc by fresh_label.
  rewrite getitem_snoc_here by fresh_label. cbn [mbind result_bind].
  rewrite ewm_mean_Ok by exact Hsignal. cbn [mbind result_bind].
  rewrite setitem_snoc by fresh_label.
  rewrite (getitem_snoc_other _ _ _ _ (prefix +:+ "_line")) by fresh_label.
  rewrite (getitem_snoc_here _ _ _ (prefix +:+ "_line")) by fresh_label.
  cbn [mbind result_bind].
  rewrite getitem_snoc_here by fresh_label. cbn [mbind result_bind].
  rewrite setitem_snoc by fresh_label.
  reflexivity.
Qed.

(** [calculate_bollinger_bands] appends its three columns. *)
Lemma calculate_bollinger_bands_appends (sqrt_fl : Q → Q) n cd extra
  (window : Z) (num_std : Q) (column prefix : string) (prices : series) :
  getitem_series (mkDataFrame n (cd ++ extra)) column = Ok prices →
  (0 ≤ window)%Z →
  prefix +:+ "_mid" ≠ column →
  Forall (fun t => (t ∉ cd.*1) ∧ (t ∉ extra.*1))
    [prefix +:+ "_mid"; prefix +:+ "_upper"; prefix +:+ "_lower"] →
  let mid := rolling_values window mean prices in
  let width := map (fun s => fmul s (FNum num_std))
                   (rolling_values window (std sqrt_fl) prices) in
  calculate_bollinger_bands sqrt_fl (mkDataFrame n (cd ++ extra))
    window num_std column prefix
  = Ok (mkDataFrame n
          (cd ++ (((extra ++ [(prefix +:+ "_mid", mid)])
                   ++ [(prefix +:+ "_upper", zip_with fadd mid width)])
                  ++ [(prefix +:+ "_lower", zip_with fsub mid width)]))).
Proof.
  intros Hread Hw Hcolumn Hfresh mid width.
  rewrite !Forall_cons in Hfresh.
  destruct Hfresh as ([H1 H1'] & [H2 H2'] & [H3 H3'] & _).
  unfold calculate_bollinger_bands.
  rewrite Hread. cbn [mbind result_bind].
  rewrite rolling_Ok by exact Hw. cbn [mbind result_bind].
  rewrite setitem_snoc by assumption.
  rewrite (getitem_snoc_other _ _ _ _ column) by exact Hcolumn.
  rewrite Hread. cbn [mbind result_bind].
  rewrite rolling_Ok by exact Hw. cbn [mbind result_bind].
  rewrite getitem_snoc_here by assumption. cbn [mbind result_bind].
  rewrite setitem_snoc by fresh_label.
  rewrite (getitem_snoc_other _ _ _ _ (prefix +:+ "_mid")) by fresh_label.
  rewrite getitem_snoc_here by assumption. cbn [mbind result_bind].
  rewrite setitem_snoc by fresh_label.
  reflexivity.
Qed.

End FrameAlgebra.

(** ** The average true range, and the calculators run in sequence *)

Section Composition.
Import TechnicalCalculator.

Lemma fmax_skipna_keeps (P : fval → Prop) (a b : fval) :
  P a → P b → P (fmax_skipna a b).
Proof.
  intros Ha Hb. unfold fmax_skipna.
  destruct (is_nan a); [exact Hb|].
  destruct (is_nan b); [exact Ha|].
  by destruct (flt a b).
Qed.

Lemma fabs_nonneg (xs : series) : Forall nonneg_or_missing (map fabs xs).
Proof.
  apply Forall_fmap, Forall_forall. intros [| |q] _; cbn; try exact I.
  apply Qabs_nonneg.
Qed.

Lemma bar_range_nonneg (high low : series) :
  Forall bar_ordered (zip high low) →
  Forall nonneg_or_missing (zip_with fsub high low).
Proof.
  revert low. induction high as [|h high IH]; intros [|l low] Hbars;
    cbn; try constructor.
  - apply Forall_cons_1 in Hbars as [Hbar _].
    destruct h as [| |h], l as [| |l]; cbn in *; try exact I;
      try (destruct negative; exact I);
      try (destruct negative, negative0; exact I).
    lra.
  - apply IH. by apply Forall_cons_1 in Hbars as [_ ?].
Qed.

Lemma true_range_nonneg (high low close : series) :
  Forall bar_ordered (zip high low) →
  Forall nonneg_or_missing (true_range high low close).
Proof.
  intros Hbars. unfold true_range.
  apply (Forall_zip_with_both nonneg_or_missing nonneg_or_missing);
    [intros x y; apply fmax_skipna_keeps | | apply fabs_nonneg].
  apply (Forall_zip_with_both nonneg_or_missing nonneg_or_missing);
    [intros x y; apply fmax_skipna_keeps | | apply fabs_nonneg].
  by apply bar_range_nonneg.
Qed.

Lemma rolling_values_length (window : Z) (agg : list Q → fval) (xs : series) :
  length (rolling_values window agg xs) = length xs.
Proof. unfold rolling_values. by rewrite length_map, length_seq. Qed.

End Composition.

(** [calculate_atr], for a frame that has the high, low and close columns
    and none of the labels the function writes: the call succeeds, the
    returned frame has the columns of the input followed by the one ATR
    column (the four temporary columns are gone) and the same rows, and
    where no bar has its high below its low every ATR value is missing or
    a non-negative number. *)
Theorem atr_column_contract (df : DataFrame fval) (window : Z) (name : string)
  (high low close : list fval) :
  getitem_series df "high" = Ok high →
  getitem_series df "low" = Ok low →
  getitem_series df "close" = Ok close →
  (0 ≤ window)%Z →
  Forall (fun t => t ∉ columns df) (name :: TEMPORARY_COLUMNS) →
  name ∉ TEMPORARY_COLUMNS →
  ∃ df' atr,
    TechnicalCalculator.calculate_atr df window name = Ok df'
    ∧ columns df' = (columns df ++ [name])%list
    ∧ index_len df' = index_len df
    ∧ getitem_series df' name = Ok atr
    ∧ length atr = length (true_range high low close)
    ∧ (Forall bar_ordered (zip high low) → Forall nan_or_nonneg atr).
Proof.
  destruct df as [n cd]. unfold columns. cbn [col_data index_len].
  intros Hhigh Hlow Hclose Hw Hfresh Hname.
  assert (Forall (fun t => (t ∉ cd.*1) ∧ (t ∉ ([] : list (string * list fval)).*1))
            (name :: TEMPORARY_COLUMNS)) as Hfresh'.
  { eapply Forall_impl; [exact Hfresh|]. intros t Ht. split; [exact Ht|].
    apply not_elem_of_nil. }
  pose proof (calculate_atr_appends n cd [] window name high low close) as Hrun.
  rewrite app_nil_r in Hrun. cbn [app] in Hrun.
  specialize (Hrun Hhigh Hlow Hclose Hw Hfresh' Hname).
  eexists _, _. split; [exact Hrun|]. cbn [col_data index_len].
  split; [by rewrite fmap_app|]. split; [reflexivity|].
  apply Forall_cons_1 in Hfresh as [Hn _].
  split.
  { apply (getitem_snoc_here n cd [] name); [exact Hn | apply not_elem_of_nil]. }
  split; [apply rolling_values_length|].
  intros Hbars.
  eapply (rolling_yields nan_or_nonneg window TechnicalCalculator.mean);
    [exact I | apply mean_nonneg | apply true_range_nonneg; exact Hbars
    | by apply rolling_Ok].
Qed.

Lemma atr_column_contract_witness :
  ∃ df' atr,
    TechnicalCalculator.calculate_atr sample_bars 2 "atr" = Ok df'
    ∧ columns df' = (columns sample_bars ++ ["atr"])%list
    ∧ index_len df' = index_len sample_bars
    ∧ getitem_series df' "atr" = Ok atr
    ∧ length atr = 5%nat
    ∧ Forall nan_or_nonneg atr.
Proof.
  destruct (atr_column_contract sample_bars 2 "atr"
              (map of_Z [11; 12; 13; 12; 14]%Z)
              (map of_Z [9; 10; 11; 10; 12]%Z)
              (map of_Z [10; 11; 12; 11; 13]%Z))
    as (df' & atr & Hrun & Hcols & Hrows & Hread & Hlen & Hrange);
    try reflexivity; try lia; try by_evaluation.
  exists df', atr. repeat split; try assumption.
  apply Hrange. cbn [zip zip_with map].
  repeat (apply Forall_cons_2; [by vm_compute|]). apply Forall_nil_2.
Defined.

(** ** [calculate_all] as a sequence of independent calculators *)

Section AllIndicators.
Import TechnicalCalculator.
Variable sqrt_fl : Q → Q.

Lemma ma20_label : or_default None ("ma" +:+ pretty 20%Z) = "ma20".
Proof. vm_compute. reflexivity. Qed.

Lemma vol_ma20_label : or_default None ("vol_ma" +:+ pretty 20%Z) = "vol_ma20".
Proof. vm_compute. reflexivity. Qed.

(** A label of the list [H] speaks of is not in the frame. *)
Ltac known_fresh H :=
  eapply (proj1 (Forall_forall _ _) H);
  apply (bool_decide_unpack _); vm_compute; exact I.

Ltac side_fresh Hcd Hextra :=
  rewrite ?ma20_label, ?vol_ma20_label;
  cbn [or_default decide_rel String.append];
  rewrite ?fmap_app, ?not_elem_of_app; cbn [fmap list_fmap fst];
  rewrite ?not_elem_of_cons;
  repeat split;
  first [ known_fresh Hcd | known_fresh Hextra
        | apply not_elem_of_nil | discriminate ].

Ltac side_read :=
  rewrite ?getitem_snoc_other by discriminate; assumption.

Ltac side_labels Hcd Hextra :=
  unfold TEMPORARY_COLUMNS; cbn [String.append];
  repeat apply Forall_cons_2; try apply Forall_nil_2;
  (split; side_fresh Hcd Hextra).

Ltac read_frame Hcd Hextra :=
  rewrite ?getitem_snoc_other by discriminate;
  apply getitem_snoc_here; side_fresh Hcd Hextra.

Lemma calculate_all_extends n (cd extra : list (string * list fval))
  (close high low volume : series) :
  getitem_series (mkDataFrame n (cd ++ extra)) "close" = Ok close →
  getitem_series (mkDataFrame n (cd ++ extra)) "high" = Ok high →
  getitem_series (mkDataFrame n (cd ++ extra)) "low" = Ok low →
  getitem_series (mkDataFrame n (cd ++ extra)) "volume" = Ok volume →
  Forall (fun l => l ∉ cd.*1) (DERIVED_COLUMNS ++ TEMPORARY_COLUMNS) →
  Forall (fun l => l ∉ extra.*1) (DERIVED_COLUMNS ++ TEMPORARY_COLUMNS) →
  ∃ df',
    calculate_all sqrt_fl (mkDataFrame n (cd ++ extra)) = Ok df'
    ∧ index_len df' = n
    ∧ columns df' = ((cd ++ extra).*1 ++ DERIVED_COLUMNS)%list
    ∧ (∀ l, l ∉ DERIVED_COLUMNS →
            getitem_series df' l
            = getitem_series (mkDataFrame n (cd ++ extra)) l)
    ∧ Forall (fun alone => getitem_series df' alone.1
                           = read_column alone.2 alone.1)
        (calculators_alone sqrt_fl (mkDataFrame n (cd ++ extra)))
    ∧ getitem_series df' "bb_mid" = getitem_series df' "ma20".
Proof.
  intros Hclose Hhigh Hlow Hvolume Hcd Hextra.
  pose proof (calculate_ma_appends n cd extra 20 "close" None close Hclose)
    as A1.
  rewrite ma20_label in A1.
  pose proof (calculate_ma_appends n cd extra 50 "close" (Some "ma50") close
                Hclose) as A2.
  pose proof (calculate_ma_appends n cd extra 200 "close" (Some "ma200") close
                Hclose) as A3.
  cbn [or_default decide_rel] in A2, A3.
  pose proof (calculate_atr_appends n cd extra 14 "atr" high low close
                Hhigh Hlow Hclose) as A4.
  pose proof (calculate_macd_appends n cd extra 12 26 9 "close" "macd" close
                Hclose) as A5.
  pose proof (calculate_rsi_appends n cd extra 14 "close" "rsi" close Hclose)
    as A6.
  pose proof (calculate_bollinger_bands_appends sqrt_fl n cd extra 20 2
                "close" "bb" close Hclose) as A7.
  pose proof (calculate_volume_ma_appends n cd extra 20 "volume" None volume
                Hvolume) as A8.
  rewrite vol_ma20_label in A8.
  cbn [String.append] in A5, A7. cbv zeta in A5, A7.
  specialize (A1 ltac:(lia) ltac:(side_fresh Hcd Hextra)
                ltac:(side_fresh Hcd Hextra)).
  specialize (A2 ltac:(lia) ltac:(side_fresh Hcd Hextra)
                ltac:(side_fresh Hcd Hextra)).
  specialize (A3 ltac:(lia) ltac:(side_fresh Hcd Hextra)
                ltac:(side_fresh Hcd Hextra)).
  specialize (A4 ltac:(lia) ltac:(side_labels Hcd Hextra)
                ltac:(by_evaluation)).
  specialize (A5 ltac:(lia) ltac:(lia) ltac:(lia) ltac:(discriminate)
                ltac:(side_labels Hcd Hextra)).
  specialize (A6 ltac:(lia) ltac:(side_fresh Hcd Hextra)
                ltac:(side_fresh Hcd Hextra)).
  specialize (A7 ltac:(lia) ltac:(discriminate)
                ltac:(side_labels Hcd Hextra)).
  specialize (A8 ltac:(lia) ltac:(side_fresh Hcd Hextra)
                ltac:(side_fresh Hcd Hextra)).
  eassert (calculate_all sqrt_fl (mkDataFrame n (cd ++ extra)) = Ok _) as Hrun.
  { unfold calculate_all.
    rewrite A1. cbn [mbind result_bind].
    rewrite (calculate_ma_appends n cd _ 50 "close" (Some "ma50") close);
      [|side_read | lia | side_fresh Hcd Hextra | side_fresh Hcd Hextra].
    cbn [mbind result_bind or_default decide_rel].
    rewrite (calculate_ma_appends n cd _ 200 "close" (Some "ma200") close);
      [|side_read | lia | side_fresh Hcd Hextra | side_fresh Hcd Hextra].
    cbn [mbind result_bind or_default decide_rel].
    rewrite (calculate_atr_appends n cd _ 14 "atr" high low close);
      [|side_read | side_read | side_read | lia
       | side_labels Hcd Hextra | by_evaluation].
    cbn [mbind result_bind].
    rewrite (calculate_macd_appends n cd _ 12 26 9 "close" "macd" close);
      [|side_read | lia | lia | lia | discriminate
       | side_labels Hcd Hextra].
    cbn [mbind result_bind String.append].
    rewrite (calculate_rsi_appends n cd _ 14 "close" "rsi" close);
      [|side_read | lia | side_fresh Hcd Hextra | side_fresh Hcd Hextra].
    cbn [mbind result_bind].
    rewrite (calculate_bollinger_bands_appends sqrt_fl n cd _ 20 2
               "close" "bb" close);
      [|side_read | lia | discriminate | side_labels Hcd Hextra].
    cbn [mbind result_bind String.append].
    rewrite (calculate_volume_ma_appends n cd _ 20 "volume" None volume);
      [|side_read | lia | side_fresh Hcd Hextra | side_fresh Hcd Hextra].
    rewrite vol_ma20_label. reflexivity. }
  eexists. split; [exact Hrun|]. clear Hrun.
  split; [reflexivity|].
  split.
  { unfold columns. cbn [col_data]. rewrite !fmap_app.
    cbn [fmap list_fmap fst]. rewrite <- !app_assoc. reflexivity. }
  split.
  { intros l Hl.
    rewrite !getitem_snoc_other; [reflexivity|..];
      intros <-; apply Hl; by_evaluation. }
  split.
  { unfold calculators_alone. cbv zeta.
    rewrite A1, A2, A3, A4, A5, A6, A7, A8.
    repeat apply Forall_cons_2; try apply Forall_nil_2; cbn [fst snd];
      unfold read_column; cbn [mbind result_bind];
      (etransitivity;
       [read_frame Hcd Hextra | symmetry; read_frame Hcd Hextra]). }
  etransitivity; [read_frame Hcd Hextra | symmetry; read_frame Hcd Hextra].
Qed.

End AllIndicators.

(** [calculate_all], for a bar frame that has the close, high, low and
    volume columns and none of the labels the calculators write: the call
    succeeds; the returned frame has the rows of the input and its columns
    followed by the fourteen derived ones; every column that is not a
    derived one reads as before; each derived column holds exactly what
    its own calculator gives when it is run on the input frame alone (an
    earlier calculator changes no later one); and the Bollinger middle
    band is the 20-bar moving average. *)
Theorem calculate_all_composes (sqrt_fl : Q → Q) (df : DataFrame fval)
  (close high low volume : list fval) :
  getitem_series df "close" = Ok close →
  getitem_series df "high" = Ok high →
  getitem_series df "low" = Ok low →
  getitem_series df "volume" = Ok volume →
  Forall (fun l => l ∉ columns df) (DERIVED_COLUMNS ++ TEMPORARY_COLUMNS) →
  ∃ df',
    TechnicalCalculator.calculate_all sqrt_fl df = Ok df'
    ∧ index_len df' = index_len df
    ∧ columns df' = (columns df ++ DERIVED_COLUMNS)%list
    ∧ (∀ l, l ∉ DERIVED_COLUMNS → getitem_series df' l = getitem_series df l)
    ∧ Forall (fun alone => getitem_series df' alone.1
                           = read_column alone.2 alone.1)
        (calculators_alone sqrt_fl df)
    ∧ getitem_series df' "bb_mid" = getitem_series df' "ma20".
Proof.
  destruct df as [n cd]. unfold columns at 1. cbn [col_data index_len].
  intros Hclose Hhigh Hlow Hvolume Hcd.
  pose proof (calculate_all_extends sqrt_fl n cd [] close high low volume)
    as Hall.
  rewrite app_nil_r in Hall.
  apply Hall; try assumption.
  apply Forall_forall. intros l _. apply not_elem_of_nil.
Qed.

Lemma calculate_all_composes_witness :
  ∃ df',
    TechnicalCalculator.calculate_all sample_sqrt sample_bars = Ok df'
    ∧ index_len df' = 5%nat
    ∧ columns df' = (["close"; "high"; "low"; "volume"] ++ DERIVED_COLUMNS)%list
    ∧ Forall (fun alone => getitem_series df' alone.1
                           = read_column alone.2 alone.1)
        (calculators_alone sample_sqrt sample_bars).
Proof.
  destruct (calculate_all_composes sample_sqrt sample_bars
              (map of_Z [10; 11; 12; 11; 13]%Z)
              (map of_Z [11; 12; 13; 12; 14]%Z)
              (map of_Z [9; 10; 11; 10; 12]%Z)
              (map of_Z [1; 2; 3; 4; 5]%Z))
    as (df' & Hrun & Hrows & Hcols & _ & Halone & _);
    try reflexivity; try by_evaluation.
  exists df'. repeat split; assumption.
Defined.

(** ** The symbol filter and the top five *)

Section SymbolFilter.
Import StrategyManager.

Variable cfg : filter_params.

Lemma passing_cons_pass symbol data rest :
  check_symbol cfg data = Pass →
  passing_symbols cfg ((symbol, data) :: rest)
  = symbol :: passing_symbols cfg rest.
Proof.
  intros Hpass. unfold passing_symbols. by rewrite filter_cons_True.
Qed.

Lemma passing_cons_other symbol data rest :
  check_symbol cfg data ≠ Pass →
  passing_symbols cfg ((symbol, data) :: rest) = passing_symbols cfg rest.
Proof.
  intros Hother. unfold passing_symbols. by rewrite filter_cons_False.
Qed.

Lemma filter_loop_takes items :
  ∀ filtered_symbols,
    filtered_symbols = []
    ∨ (Z.of_nat (length filtered_symbols) < max_symbols cfg)%Z →
    filter_loop cfg items filtered_symbols
    = (filtered_symbols
       ++ take (Z.to_nat (Z.max 1 (max_symbols cfg)) - length filtered_symbols)
            (passing_symbols cfg items))%list.
Proof.
  induction items as [|[symbol data] rest IH]; intros acc Hacc.
  - cbn. by rewrite take_nil, app_nil_r.
  - cbn [filter_loop].
    destruct (check_symbol cfg data) eqn:Hcheck.
    + rewrite passing_cons_pass by exact Hcheck.
      cbv zeta. rewrite length_app. cbn [length].
      destruct (max_symbols cfg <=? Z.of_nat (length acc + 1))%Z eqn:Hfull.
      * apply Z.leb_le in Hfull.
        replace (Z.to_nat (Z.max 1 (max_symbols cfg)) - length acc)%nat
          with 1%nat; [reflexivity|].
        destruct Hacc as [->|Hacc]; cbn [length] in *; lia.
      * apply Z.leb_gt in Hfull.
        rewrite IH by (right; rewrite length_app; cbn [length]; lia).
        rewrite length_app. cbn [length]. rewrite <- app_assoc. f_equal.
        replace (Z.to_nat (Z.max 1 (max_symbols cfg)) - length acc)%nat
          with (S (Z.to_nat (Z.max 1 (max_symbols cfg)) - (length acc + 1)))
          by lia.
        reflexivity.
    + rewrite passing_cons_other by congruence. by apply IH.
    + rewrite passing_cons_other by congruence. by apply IH.
Qed.

End SymbolFilter.

(** [filter_symbols] returns the symbols that pass the checks, in the
    order of [market_data], cut after the first [max_symbols] of them, and
    after the first one when [max_symbols] is below 1: the limit is looked
    at only after a symbol has been appended. *)
Theorem filter_symbols_first_passing
  (filter_params : StrategyManager.filter_params)
  (market_data : list (string * gmap string (option (DataFrame fval)))) :
  StrategyManager.filter_symbols filter_params market_data
  = take (Z.to_nat (Z.max 1 (StrategyManager.max_symbols filter_params)))
      (passing_symbols filter_params market_data).
Proof.
  unfold StrategyManager.filter_symbols.
  rewrite filter_loop_takes by (by left).
  cbn [app length]. by rewrite Nat.sub_0_r.
Qed.

Section ShortHistory.
Import TechnicalCalculator StrategyManager.

Lemma true_range_length (n : nat) (high low close : series) :
  length high = n → length low = n → length close = n →
  length (true_range high low close) = n.
Proof.
  intros Hh Hl Hc. unfold true_range.
  rewrite !length_zip_with, !length_map, !length_zip_with, length_shift1.
  lia.
Qed.

Lemma rolling_values_last_short (window : Z) (agg : list Q → fval)
  (xs : series) :
  (1 ≤ length xs)%nat → (length xs < Z.to_nat window)%nat →
  last (rolling_values window agg xs) = Some FNaN.
Proof.
  intros Hrows Hshort. unfold rolling_values.
  destruct (length xs) as [|m] eqn:Hlen; [lia|].
  rewrite seq_S, map_app, last_app. cbn [map last plus].
  unfold window_at.
  destruct (m + 1 <? Z.to_nat window)%nat eqn:Hfull; [reflexivity|].
  apply Nat.ltb_ge in Hfull. lia.
Qed.

Lemma getitem_snoc_first n (cd : list (string * list fval)) (k l : string)
  (v : list fval) :
  k ≠ l →
  getitem_series (mkDataFrame n (cd ++ [(k, v)])) l
  = getitem_series (mkDataFrame n cd) l.
Proof.
  intros Hne. pose proof (getitem_snoc_other n cd [] k l v Hne) as Hother.
  by rewrite app_nil_r in Hother.
Qed.

Lemma getitem_snoc_first_here n (cd : list (string * list fval))
  (l : string) (v : list fval) :
  l ∉ cd.*1 →
  getitem_series (mkDataFrame n (cd ++ [(l, v)])) l = Ok v.
Proof.
  intros Hfresh. apply (getitem_snoc_here n cd [] l v Hfresh).
  apply not_elem_of_nil.
Qed.

End ShortHistory.

(** A symbol whose 60-minute frame has fewer than 14 bars is never
    stopped by the volatility check of [filter_symbols]: its last ATR is
    missing, and a missing value is not below [min_atr].  Such a symbol
    passes exactly when its last volume is not below [min_volume],
    whatever [min_atr] is. *)
Theorem short_history_skips_atr_check
  (filter_params : StrategyManager.filter_params)
  (data_by_period : gmap string (option (DataFrame fval)))
  (df : DataFrame fval) (high low close volume : list fval) (v : fval) :
  data_by_period !! "60m" = Some (Some df) →
  (1 ≤ index_len df < 14)%nat →
  getitem_series df "high" = Ok high →
  getitem_series df "low" = Ok low →
  getitem_series df "close" = Ok close →
  getitem_series df "volume" = Ok volume →
  length high = index_len df →
  length low = index_len df →
  length close = index_len df →
  last volume = Some v →
  Forall (fun t => t ∉ columns df) ("atr" :: "ma20" :: TEMPORARY_COLUMNS) →
  StrategyManager.check_symbol filter_params data_by_period
  = if flt v (FNum (StrategyManager.min_volume filter_params))
    then StrategyManager.Skip else StrategyManager.Pass.
Proof.
  destruct df as [n cd]. unfold columns. cbn [col_data index_len].
  intros Hdata Hrows Hhigh Hlow Hclose Hvolume Hlen_h Hlen_l Hlen_c Hlast
    Hfresh.
  apply Forall_cons_1 in Hfresh as [Hatr_fresh Hfresh].
  apply Forall_cons_1 in Hfresh as [Hma_fresh Htemp].
  unfold StrategyManager.check_symbol. rewrite Hdata.
  assert (empty (mkDataFrame n cd) = false) as ->.
  { unfold empty. cbn [index_len col_data].
    destruct cd as [|c cd]; [discriminate Hhigh|].
    destruct n; [lia | reflexivity]. }
  pose proof (calculate_atr_appends n cd [] 14 "atr" high low close) as Hatr.
  rewrite app_nil_r in Hatr. cbn [app] in Hatr.
  rewrite Hatr; [|assumption..| lia | | by_evaluation].
  2:{ apply Forall_cons_2; [split; [exact Hatr_fresh | apply not_elem_of_nil]|].
      eapply Forall_impl; [exact Htemp|]. intros t Ht.
      split; [exact Ht | apply not_elem_of_nil]. }
  pose proof (getitem_snoc_first n cd "atr") as Hother.
  rewrite (calculate_ma_appends n cd [_] 20 "close" None close);
    [|by rewrite Hother | lia
     |rewrite ma20_label; exact Hma_fresh
     |rewrite ma20_label; cbn; rewrite not_elem_of_cons;
      split; [discriminate | apply not_elem_of_nil]].
  rewrite ma20_label.
  rewrite (getitem_snoc_other n cd [_] "ma20" "volume") by discriminate.
  rewrite Hother by discriminate. rewrite Hvolume, Hlast.
  destruct (flt v _); [reflexivity|].
  rewrite (getitem_snoc_other n cd [_] "ma20" "atr") by discriminate.
  rewrite getitem_snoc_first_here by exact Hatr_fresh.
  rewrite rolling_values_last_short; [reflexivity|..];
    rewrite (true_range_length n) by assumption; lia.
Qed.

Lemma short_history_skips_atr_check_witness :
  StrategyManager.check_symbol
    (StrategyManager.mkFilterParams 250 1000000 10)
    {[ "60m" := Some short_history ]}
  = StrategyManager.Pass.
Proof.
  rewrite (short_history_skips_atr_check _ _ short_history
             (map of_Z [11; 12; 13]%Z) (map of_Z [9; 10; 11]%Z)
             (map of_Z [10; 11; 12]%Z) (map of_Z [100; 200; 300]%Z)
             (of_Z 300));
    try reflexivity; try by_evaluation.
Defined.

Section TopFive.
Import StrategyManager.

Lemma key_lt_spec (x y : strategy) :
  key_lt x y = true
  ↔ (signal_strength x < signal_strength y
     ∨ (signal_strength x == signal_strength y ∧ rr_ratio x < rr_ratio y))%Q.
Proof.
  unfold key_lt.
  rewrite orb_true_iff, andb_true_iff, !Qlt_bool_iff, Qeq_bool_iff.
  reflexivity.
Qed.

Lemma key_lt_asym (x y : strategy) : key_lt x y = true → key_lt y x = false.
Proof.
  intros Hxy. destruct (key_lt y x) eqn:Hyx; [|reflexivity].
  apply key_lt_spec in Hxy, Hyx.
  destruct Hxy as [?|[? ?]], Hyx as [?|[? ?]]; lra.
Qed.

Lemma key_ge_trans (x y z : strategy) :
  key_lt x y = false → key_lt y z = false → key_lt x z = false.
Proof.
  intros Hxy Hyz. destruct (key_lt x z) eqn:Hxz; [|reflexivity].
  apply key_lt_spec in Hxz.
  assert (¬ (signal_strength x < signal_strength y
             ∨ (signal_strength x == signal_strength y
                ∧ rr_ratio x < rr_ratio y))%Q) as Hxy'
    by (rewrite <- key_lt_spec; congruence).
  assert (¬ (signal_strength y < signal_strength z
             ∨ (signal_strength y == signal_strength z
                ∧ rr_ratio y < rr_ratio z))%Q) as Hyz'
    by (rewrite <- key_lt_spec; congruence).
  exfalso.
  destruct (Qlt_le_dec (signal_strength x) (signal_strength y)) as [?|Hsxy];
    [tauto|].
  destruct (Qlt_le_dec (signal_strength y) (signal_strength z)) as [?|Hsyz];
    [tauto|].
  destruct Hxz as [?|[Heq Hr]]; [lra|].
  assert (signal_strength x == signal_strength y)%Q as Hexy by lra.
  assert (signal_strength y == signal_strength z)%Q as Heyz by lra.
  destruct (Qlt_le_dec (rr_ratio x) (rr_ratio y)); [tauto|].
  destruct (Qlt_le_dec (rr_ratio y) (rr_ratio z)); [tauto|].
  lra.
Qed.

Lemma insert_desc_perm (x : string * strategy) (l : list (string * strategy)) :
  insert_desc x l ≡ₚ x :: l.
Proof.
  induction l as [|y l IH]; [reflexivity|]. cbn [insert_desc].
  destruct (key_lt x.2 y.2); [|reflexivity].
  rewrite IH. apply Permutation_swap.
Qed.

Lemma insert_desc_descending (x : string * strategy)
  (l : list (string * strategy)) :
  descending l → descending (insert_desc x l).
Proof.
  induction l as [|y l IH]; intros Hl.
  - cbn. split; [constructor | exact I].
  - destruct Hl as [Hy Hl]. cbn [insert_desc].
    destruct (key_lt x.2 y.2) eqn:Hxy; cbn [descending].
    + split; [|by apply IH].
      rewrite insert_desc_perm. apply Forall_cons_2; [|exact Hy].
      unfold not_above. by apply key_lt_asym.
    + split; [|by split].
      apply Forall_cons_2; [exact Hxy|].
      eapply Forall_impl; [exact Hy|]. intros z Hz. unfold not_above in *.
      by eapply key_ge_trans.
Qed.

Lemma sorted_desc_perm (l : list (string * strategy)) : sorted_desc l ≡ₚ l.
Proof.
  induction l as [|x l IH]; [reflexivity|]. cbn.
  change (foldr insert_desc [] l) with (sorted_desc l).
  by rewrite insert_desc_perm, IH.
Qed.

Lemma sorted_desc_descending (l : list (string * strategy)) :
  descending (sorted_desc l).
Proof.
  induction l as [|x l IH]; [exact I|]. cbn.
  by apply insert_desc_descending.
Qed.

Lemma descending_split (l1 l2 : list (string * strategy))
  (x y : string * strategy) :
  descending (l1 ++ l2) → x ∈ l1 → y ∈ l2 → not_above y x.
Proof.
  induction l1 as [|z l1 IH]; intros Hsorted Hx Hy.
  - by apply elem_of_nil in Hx.
  - destruct Hsorted as [Hz Hsorted]. apply elem_of_cons in Hx as [->|Hx].
    + eapply Forall_forall in Hz; [exact Hz|].
      apply elem_of_app. by right.
    + by apply IH.
Qed.

Lemma same_key_same_item {V} (l : list (string * V)) (a b : string * V) :
  NoDup l.*1 → a ∈ l → b ∈ l → a.1 = b.1 → a = b.
Proof.
  induction l as [|c l IH]; intros Hnd Ha Hb Hkey.
  - by apply elem_of_nil in Ha.
  - cbn in Hnd. apply NoDup_cons in Hnd as [Hc Hnd].
    apply elem_of_cons in Ha as [->|Ha], Hb as [->|Hb].
    + reflexivity.
    + exfalso. apply Hc. rewrite Hkey. apply list_elem_of_fmap. by exists b.
    + exfalso. apply Hc. rewrite <- Hkey. apply list_elem_of_fmap. by exists a.
    + by apply IH.
Qed.

(** The five first of a pool, sorted. *)
Lemma top_of_pool (pool : list (string * strategy)) :
  NoDup pool.*1 →
  let chosen := (take 5 (sorted_desc pool)).*1 in
  length chosen = (5 `min` length pool)%nat
  ∧ NoDup chosen
  ∧ (∀ s, s ∈ chosen → s ∈ pool.*1)
  ∧ (∀ x y, x ∈ pool → y ∈ pool → x.1 ∈ chosen → y.1 ∉ chosen →
            not_above y x).
Proof.
  intros Hnd chosen. subst chosen.
  pose proof (sorted_desc_perm pool) as Hperm.
  assert (NoDup (sorted_desc pool).*1) as Hnd' by (by rewrite Hperm).
  split; [by rewrite length_fmap, length_take, Hperm|].
  split.
  { eapply sublist_NoDup; [exact Hnd'|].
    apply fmap_sublist, sublist_take. }
  split.
  { intros s Hs. rewrite <- Hperm.
    apply list_elem_of_fmap in Hs as (x & -> & Hx).
    apply list_elem_of_fmap. exists x. split; [reflexivity|].
    by eapply subseteq_take. }
  intros x y Hx Hy Hchosen Hleft.
  rewrite <- Hperm in Hx, Hy.
  apply list_elem_of_fmap in Hchosen as (x' & Hkey & Hx').
  assert (x' = x) as ->.
  { eapply same_key_same_item; [exact Hnd' | | exact Hx | by symmetry].
    by eapply subseteq_take. }
  apply (descending_split (take 5 (sorted_desc pool))
           (drop 5 (sorted_desc pool))); [|exact Hx'|].
  - rewrite take_drop. apply sorted_desc_descending.
  - rewrite <- (take_drop 5 (sorted_desc pool)) in Hy.
    apply elem_of_app in Hy as [Hy|Hy]; [|exact Hy].
    exfalso. apply Hleft. apply list_elem_of_fmap. by exists y.
Qed.

End TopFive.

(** [select_top_5], for analysis results over distinct symbols.  The
    symbols are drawn from a pool: the strategies whose direction is not
    WAIT when there is one, and all the strategies (then all WAIT)
    otherwise.  The function returns five symbols of the pool, or all of
    them when the pool has fewer, without repetition, and no strategy of
    the pool that is left out ranks above one that is returned, the rank
    being the signal strength and, among equal strengths, the
    reward-to-risk ratio. *)
Theorem select_top_5_ranks
  (analysis_results : list (string * StrategyManager.strategy)) :
  NoDup analysis_results.*1 →
  ∃ pool,
    ((pool = filter (fun item => StrategyManager.direction item.2 ≠ "WAIT")
               analysis_results
      ∧ pool ≠ [])
     ∨ (pool = analysis_results
        ∧ Forall (fun item => StrategyManager.direction item.2 = "WAIT")
            analysis_results))
    ∧ length (StrategyManager.select_top_5 analysis_results)
      = (5 `min` length pool)%nat
    ∧ NoDup (StrategyManager.select_top_5 analysis_results)
    ∧ (∀ s, s ∈ StrategyManager.select_top_5 analysis_results → s ∈ pool.*1)
    ∧ (∀ x y, x ∈ pool → y ∈ pool →
              x.1 ∈ StrategyManager.select_top_5 analysis_results →
              y.1 ∉ StrategyManager.select_top_5 analysis_results →
              not_above y x).
Proof.
  intros Hnd. unfold StrategyManager.select_top_5. cbv zeta.
  destruct (filter _ analysis_results) as [|c actionable] eqn:Hfilter.
  - exists analysis_results. split.
    + right. split; [reflexivity|].
      apply Forall_forall. intros item Hitem.
      destruct (decide (StrategyManager.direction item.2 = "WAIT"))
        as [Hwait|Hact]; [exact Hwait|].
      exfalso. eapply elem_of_nil. rewrite <- Hfilter.
      apply list_elem_of_filter. split; [exact Hact | exact Hitem].
    + by apply top_of_pool.
  - exists (c :: actionable). split.
    + left. split; [reflexivity | discriminate].
    + apply top_of_pool. rewrite <- Hfilter.
      eapply sublist_NoDup; [exact Hnd|].
      apply fmap_sublist, sublist_filter.
Qed.

Lemma select_top_5_ranks_witness :
  StrategyManager.select_top_5 sample_analysis = ["au"; "cu"]
  ∧ ∃ pool : list (string * StrategyManager.strategy),
      length (StrategyManager.select_top_5 sample_analysis)
      = (5 `min` length pool)%nat
      ∧ ∀ s, s ∈ StrategyManager.select_top_5 sample_analysis → s ∈ pool.*1.
Proof.
  split; [reflexivity|].
  destruct (select_top_5_ranks sample_analysis) as (pool & _ & Hlen & _ & Hin & _).
  - by_evaluation.
  - exists pool. by split.
Defined.

(** ** What the details page shows of a key *)

Section MaskedKey.
Import ModelManagement.

Lemma str_length_append (s t : string) :
  String.length (s +:+ t) = (String.length s + String.length t)%nat.
Proof. induction s as [|c s IH]; simpl; [reflexivity | by f_equal]. Qed.

Lemma str_append_empty (s : string) : s +:+ EmptyString = s.
Proof.
  induction s as [|c s IH]; [reflexivity|].
  change (String c s +:+ "") with (String c (s +:+ "")). by rewrite IH.
Qed.

Lemma str_take_length (n : nat) (s : string) :
  String.length (PyStr.take n s) = (n `min` String.length s)%nat.
Proof.
  revert s. induction n as [|n IH]; intros [|c s]; simpl; try reflexivity.
  by f_equal.
Qed.

Lemma str_take_all (n : nat) (s : string) :
  (String.length s ≤ n)%nat → PyStr.take n s = s.
Proof.
  revert s. induction n as [|n IH]; intros [|c s]; simpl; intros Hlen;
    try reflexivity; [lia|].
  f_equal. apply IH. lia.
Qed.

Lemma str_take_take_append (n : nat) (s t : string) :
  (n ≤ String.length s)%nat →
  PyStr.take n (PyStr.take n s +:+ t) = PyStr.take n s.
Proof.
  revert s. induction n as [|n IH]; intros [|c s]; simpl; intros Hlen;
    try reflexivity; [lia|].
  f_equal. apply IH. lia.
Qed.

Lemma stars_length (n : nat) : String.length (str_mul "*" n) = n.
Proof. induction n as [|n IH]; simpl; [reflexivity | by f_equal]. Qed.

Lemma stars_get (n i : nat) :
  (i < n)%nat → String.get i (str_mul "*" n) = Some "*"%char.
Proof.
  revert i. induction n as [|n IH]; intros i Hi; [lia|].
  destruct i as [|i]; simpl; [reflexivity|]. apply IH. lia.
Qed.

Lemma masked_api_key_shape (api_key : string) :
  String.length (masked_api_key api_key) = String.length api_key
  ∧ PyStr.take 4 (masked_api_key api_key) = PyStr.take 4 api_key
  ∧ (∀ i, (4 ≤ i < String.length api_key)%nat →
          String.get i (masked_api_key api_key) = Some "*"%char)
  ∧ ((String.length api_key ≤ 4)%nat → masked_api_key api_key = api_key).
Proof.
  unfold masked_api_key.
  destruct (decide (String.length api_key ≤ 4)%nat) as [Hshort|Hlong].
  - replace (Z.to_nat (Z.of_nat (String.length api_key) - 4)) with 0%nat
      by lia.
    cbn [str_mul]. rewrite str_append_empty, str_take_all by exact Hshort.
    repeat split; try reflexivity; try (by apply str_take_all).
    intros i Hi. lia.
  - split; [rewrite str_length_append, str_take_length, stars_length; lia|].
    split; [apply str_take_take_append; lia|].
    split; [|intros; lia].
    intros i Hi.
    replace i with ((i - 4) + String.length (PyStr.take 4 api_key))%nat
      by (rewrite str_take_length; lia).
    rewrite <- append_correct2. apply stars_get. lia.
Qed.

End MaskedKey.

(** The details page of a registered model with a key ends with the key
    line, and that line shows the key with its first four characters in
    clear and a star for every further character: the text shown is as
    long as the key, and a key of at most four characters is shown
    whole. *)
Theorem details_page_key_line (model_id : string)
  (model_manager : ModelManager.state) (model : ModelManager.AIModel) :
  ModelManager.get_model model_id model_manager = Some model →
  ModelManager.api_key model ≠ "" →
  ∃ shown,
    last (ModelManagement.render_model_details model_id model_manager)
    = Some (ModelManagement.st_markdown ("**API密钥:** " +:+ shown))
    ∧ String.length shown = String.length (ModelManager.api_key model)
    ∧ PyStr.take 4 shown = PyStr.take 4 (ModelManager.api_key model)
    ∧ (∀ i, (4 ≤ i < String.length (ModelManager.api_key model))%nat →
            String.get i shown = Some "*"%char)
    ∧ ((String.length (ModelManager.api_key model) ≤ 4)%nat →
       shown = ModelManager.api_key model).
Proof.
  intros Hmodel Hkey.
  exists (ModelManagement.masked_api_key (ModelManager.api_key model)).
  split; [|apply masked_api_key_shape].
  unfold ModelManagement.render_model_details. rewrite Hmodel.
  rewrite decide_False by exact Hkey.
  rewrite !app_assoc. apply last_snoc.
Qed.

Lemma details_page_key_line_witness :
  last (ModelManagement.render_model_details "m1"
          (ModelManager.mkState
             [("m1", ModelManager.mkAIModel "m1" "Model" "p" "n" "abc"
                       None None true)]
             None))
  = Some (ModelManagement.st_markdown "**API密钥:** abc").
Proof.
  destruct (details_page_key_line "m1"
              (ModelManager.mkState
                 [("m1", ModelManager.mkAIModel "m1" "Model" "p" "n" "abc"
                           None None true)]
                 None)
              (ModelManager.mkAIModel "m1" "Model" "p" "n" "abc"
                 None None true))
    as (shown & Hlast & _ & _ & _ & Hshort); [reflexivity | discriminate |].
  rewrite Hlast, Hshort; [reflexivity | cbn; lia].
Defined.
